(** * QuizApp backend: the game worker and the per-room game state

    A shallow embedding of [game/game_logic/game_manager.py].  The module
    has two classes: [GameState], the state of one room (its code, its
    ordered user list and the running flag), and [GameWorker], the single
    in-memory registry that routes the commands of the connected clients
    to the rooms and runs the timed question round of a started room.

    Python values are modelled as the code uses them: dictionaries as
    [gmap], lists as [list], the user dictionaries as records, unbounded
    integers as [Z] and [nat], exceptions as an error outcome.  The calls
    on the channel layer and [asyncio] are recorded in an effect log. *)

From Stdlib Require Import Ascii.
From stdpp Require Import gmap strings list fin_maps pretty.

Open Scope string_scope.
Open Scope list_scope.

(** ** Python values *)

(** The exceptions the module can raise. *)
Inductive exn := KeyError | TypeError | ValueError.

(** The outcome of a call: a value, a raised exception, or a loop that
    has not left its body within the iterations granted to it. *)
Inductive result (A : Type) :=
  | Ret (a : A)
  | Raise (e : exn)
  | Spin.
Arguments Ret {A} a.
Arguments Raise {A} e.
Arguments Spin {A}.

(** A value carried by an event: [None], a boolean, an integer or a
    string. *)
Inductive pyval :=
  | PyNone
  | PyBool (b : bool)
  | PyInt (z : Z)
  | PyStr (s : string).

(** A dictionary key of [active_games]: the code the worker stores is the
    string [str(code)], the one it looks up in [_get_new_game_code] is the
    integer [code].  In Python an [int] and a [str] are never equal. *)
Inductive pykey :=
  | KInt (z : Z)
  | KStr (s : string).

Global Instance exn_eq_dec : EqDecision exn.
Proof. solve_decision. Defined.
Global Instance pyval_eq_dec : EqDecision pyval.
Proof. solve_decision. Defined.
Global Instance pykey_eq_dec : EqDecision pykey.
Proof. solve_decision. Defined.
Global Instance pykey_countable : Countable pykey :=
  inj_countable'
    (λ k, match k with KInt z => inl z | KStr s => inr s end)
    (λ x, match x with inl z => KInt z | inr s => KStr s end)
    (λ k, match k with KInt _ => eq_refl | KStr _ => eq_refl end).

(** [str(k)] and the [{k}] of an f-string. *)
Definition str (z : Z) : string := pretty z.
Definition format_key (k : pykey) : string :=
  match k with KInt z => str z | KStr s => s end.

(** *** [int(x)]

    [int] of a string strips the white space around it, reads an optional
    sign and then decimal digits, where single underscores may separate
    digits.  The strings of the model are strings of ASCII characters: for
    these the white space that [int] strips is the tab, the line feed, the
    vertical tab, the form feed, the carriage return (9 to 13) and the
    blank (32), and the digits are ["0"] to ["9"].  The separators 28 to
    31, which [str.isspace] accepts, are not stripped: [int("\x1c0")]
    raises [ValueError]. *)
Definition is_space (a : ascii) : bool :=
  let n := nat_of_ascii a in
  ((9 <=? n)%nat && (n <=? 13)%nat) || (n =? 32)%nat.

Definition digit_of (a : ascii) : option Z :=
  let n := nat_of_ascii a in
  if (48 <=? n)%nat && (n <=? 57)%nat then Some (Z.of_nat (n - 48)) else None.

Fixpoint lstrip (s : string) : string :=
  match s with
  | String a s' => if is_space a then lstrip s' else s
  | EmptyString => EmptyString
  end.

Fixpoint rstrip (s : string) : string :=
  match s with
  | String a s' =>
      match rstrip s' with
      | EmptyString => if is_space a then EmptyString else String a EmptyString
      | r => String a r
      end
  | EmptyString => EmptyString
  end.

(** [prev] tells whether the previous character was a digit: an underscore
    is legal only between two digits. *)
Fixpoint parse_digits (acc : Z) (prev : bool) (s : string) : option Z :=
  match s with
  | EmptyString => if prev then Some acc else None
  | String a s' =>
      match digit_of a with
      | Some d => parse_digits (10 * acc + d)%Z true s'
      | None =>
          if bool_decide (a = "_"%char) && prev
          then parse_digits acc false s' else None
      end
  end.

Definition int_of_str (s : string) : option Z :=
  match rstrip (lstrip s) with
  | String "-" s' => Z.opp <$> parse_digits 0 false s'
  | String "+" s' => parse_digits 0 false s'
  | s' => parse_digits 0 false s'
  end.

(** [int(v)]: [None] stands for the [TypeError] or [ValueError] that the
    callers catch with [except Exception]. *)
Definition int (v : pyval) : option Z :=
  match v with
  | PyNone => None
  | PyBool b => Some (if b then 1 else 0)%Z
  | PyInt z => Some z
  | PyStr s => int_of_str s
  end.

(** [list.remove(x)]: drops the first element equal to [x]; [None] stands
    for the [ValueError] raised when there is none. *)
Fixpoint list_remove {A} `{EqDecision A} (x : A) (l : list A) : option (list A) :=
  match l with
  | [] => None
  | y :: l' => if decide (y = x) then Some l' else (y ::.) <$> list_remove x l'
  end.

(** ** [class GameState] *)

Module GameState.

(** An entry [{"question_id": _, "score": _}] of a user's answers. *)
Record answer := { question_id : Z; score : Z }.

(** A user dictionary [{"channel_name": _, "username": _, "answers": _}]. *)
Record user := {
  channel_name : string;
  username : string;
  answers : list answer }.

Record t := {
  code : pykey;
  users : list user;
  running : bool }.

Global Instance answer_eq_dec : EqDecision answer.
Proof. solve_decision. Defined.
Global Instance user_eq_dec : EqDecision user.
Proof. solve_decision. Defined.
Global Instance t_eq_dec : EqDecision t.
Proof. solve_decision. Defined.

Definition with_users (self : t) (us : list user) : t :=
  {| code := code self; users := us; running := running self |}.

Definition __init__ (code : pykey) : t :=
  {| code := code; users := []; running := false |}.

(** The methods that mutate the room return their value together with
    the room afterwards. *)
Definition start_game (self : t) : result (bool * t) :=
  if running self then Ret (false, self)
  else Ret (true, {| code := code self; users := users self; running := true |}).

Definition is_game_running (self : t) : bool := running self.

Fixpoint username_free (us : list user) (name : string) : bool :=
  match us with
  | [] => true
  | u :: us' =>
      if bool_decide (username u = name) then false else username_free us' name
  end.

Definition is_username_available (self : t) (name : string) : bool :=
  username_free (users self) name.

(** [username + f" #{index}"] *)
Definition suffixed (name : string) (index : nat) : string :=
  name +:+ " #" +:+ pretty index.

(** The [while] loop of [add_user], run for at most [fuel] tests of its
    condition; it returns the index it leaves with. *)
Fixpoint add_user_loop (fuel : nat) (self : t) (name : string) (index : nat)
  : option nat :=
  match fuel with
  | O => None
  | S fuel' =>
      if negb (is_username_available self (suffixed name index))
      then add_user_loop fuel' self name (S index)
      else Some index
  end.

(** The name [add_user] settles on.  The loop is granted one test more
    than the room has users ([add_user_loop_total] shows that it never
    needs more). *)
Definition new_username (self : t) (name : string) : result string :=
  if negb (is_username_available self name) then
    match add_user_loop (S (length (users self))) self name 2 with
    | Some index => Ret (suffixed name index)
    | None => Spin
    end
  else Ret name.

Definition add_user (self : t) (channel name : string) : result (string * t) :=
  match new_username self name with
  | Ret name' =>
      Ret (name',
           with_users self
             (users self ++
                [{| channel_name := channel; username := name'; answers := [] |}]))
  | Raise e => Raise e
  | Spin => Spin
  end.

(** The position and the contents of the first user with this channel
    name.  The position stands for the identity of the dictionary that
    Python returns: [set_answer] mutates the list element itself. *)
Fixpoint find_user (us : list user) (channel : string) (i : nat)
  : option (nat * user) :=
  match us with
  | [] => None
  | u :: us' =>
      if bool_decide (channel_name u = channel) then Some (i, u)
      else find_user us' channel (S i)
  end.

Definition get_user (self : t) (channel : string) : option (nat * user) :=
  find_user (users self) channel 0.

(** [self.users.remove(self.get_user(channel_name))]: when [get_user]
    returns [None], [remove] finds no element equal to it. *)
Definition remove_user (self : t) (channel : string) : result (unit * t) :=
  match get_user self channel with
  | None => Raise ValueError
  | Some (_, u) =>
      match list_remove u (users self) with
      | Some us => Ret (tt, with_users self us)
      | None => Raise ValueError
      end
  end.

Definition count_user_score (u : user) : Z :=
  foldl (λ acc q, acc + score q)%Z 0%Z (answers u).

Fixpoint answered (qs : list answer) (qid : Z) : bool :=
  match qs with
  | [] => false
  | q :: qs' => if bool_decide (question_id q = qid) then true else answered qs' qid
  end.

(** [user['answers'].append({"question_id": qid, "score": sc})] *)
Definition append_answer (u : user) (qid sc : Z) : user :=
  {| channel_name := channel_name u;
     username := username u;
     answers := answers u ++ [{| question_id := qid; score := sc |}] |}.

(** Subscripting the [None] that [get_user] returns raises [TypeError]. *)
Definition set_answer (self : t) (channel : string) (qid sc : Z)
    : result (bool * t) :=
  match get_user self channel with
  | None => Raise TypeError
  | Some (i, u) =>
      if answered (answers u) qid then Ret (false, self)
      else Ret (true, with_users self (<[i := append_answer u qid sc]> (users self)))
  end.

Fixpoint was_right (qs : list answer) (qid : Z) : bool :=
  match qs with
  | [] => false
  | q :: qs' =>
      if bool_decide (question_id q = qid) then bool_decide (0 < score q)%Z
      else was_right qs' qid
  end.

Definition check_if_user_was_right (self : t) (channel : string) (qid : Z)
  : result bool :=
  match get_user self channel with
  | None => Raise TypeError
  | Some (_, u) => Ret (was_right (answers u) qid)
  end.

Definition get_all_scores (self : t) : list (string * Z) :=
  (λ u, (username u, count_user_score u)) <$> users self.

Definition get_list_of_usernames (self : t) : list string :=
  username <$> users self.

Definition get_list_of_users_channels (self : t) : list string :=
  channel_name <$> users self.

End GameState.

(** ** The collaborators of the worker *)

(** Modelled from the spec: the [Question] model of [game.models] is not
    part of this module; the worker reads its [content], [answers] and
    [correct_answer] (the spec's prompt text, answer choices and correct
    index). *)
Module Question.
Record t := {
  content : string;
  answers : list string;
  correct_answer : Z }.
End Question.

(** The event dictionary a handler receives.  [username] and [game_code]
    may be [None]; [question_id] and [answer] are whatever the client
    sent. *)
Module Event.
Record t := {
  channel_name : string;
  username : option string;
  game_code : option pykey;
  question_id : pyval;
  answer : pyval }.
End Event.

(** The messages the worker hands to the channel layer, one constructor
    for each value of their ["type"] key. *)
Inductive message :=
  | error (msg : string)
  | ask_question (question_id : Z) (time : Z) (question : string) (answers : list string)
  | game_started
  | game_ended (scores : list (string * Z))
  | game_created (game_code : string)
  | join_successful (username : string)
  | show_users (users : list string)
  | question_end (question_id : Z) (correct_answer : bool).

(** The calls on the channel layer and on [asyncio], in program order. *)
Inductive effect :=
  | send (channel : string) (m : message)
  | group_send (group : pykey) (m : message)
  | group_add (group : pykey) (channel : string)
  | group_discard (group : pykey) (channel : string)
  | sleep (seconds : Z)
  | create_task_run_game (game_code : pykey).

Global Instance message_eq_dec : EqDecision message.
Proof. solve_decision. Defined.
Global Instance effect_eq_dec : EqDecision effect.
Proof. solve_decision. Defined.

(** ** [class GameWorker] *)

Module GameWorker.

Definition QUESTION_LENGTH : Z := 10.

(** The dictionary [{'id': _, 'correct_answer': _}] kept in
    [current_question]. *)
Record asked := { id : Z; correct_answer : Z }.

Record t := {
  active_games : gmap pykey GameState.t;
  current_players : gmap string pykey;
  current_question : option asked }.

Definition __init__ : t :=
  {| active_games := ∅; current_players := ∅; current_question := None |}.

(** *** The monad of a handler: worker state, effect log, exceptions *)

Definition M (A : Type) : Type := t → result A * t * list effect.

Definition ret {A} (a : A) : M A := λ w, (Ret a, w, []).

Definition bind {A B} (m : M A) (f : A → M B) : M B := λ w,
  match m w with
  | (Ret a, w', l) => let '(r, w'', l') := f a w' in (r, w'', l ++ l')
  | (Raise e, w', l) => (Raise e, w', l)
  | (Spin, w', l) => (Spin, w', l)
  end.

Global Instance M_ret : MRet M := @ret.
Global Instance M_bind : MBind M := λ A B f m, bind m f.

Definition lift {A} (r : result A) : M A := λ w, (r, w, []).
Definition get : M t := λ w, (Ret w, w, []).
Definition emit (e : effect) : M unit := λ w, (Ret tt, w, [e]).

(** [self.active_games[g]] and [self.current_players[c]] *)
Definition games_item (g : pykey) : M GameState.t := λ w,
  match active_games w !! g with
  | Some room => (Ret room, w, [])
  | None => (Raise KeyError, w, [])
  end.

Definition players_item (channel : string) : M pykey := λ w,
  match current_players w !! channel with
  | Some g => (Ret g, w, [])
  | None => (Raise KeyError, w, [])
  end.

(** [self.active_games[g] = room]; also the write-back of a room that a
    [GameState] method has mutated in place. *)
Definition set_game (g : pykey) (room : GameState.t) : M unit := λ w,
  (Ret tt,
   {| active_games := <[g := room]> (active_games w);
      current_players := current_players w;
      current_question := current_question w |}, []).

(** [self.active_games.pop(g)] *)
Definition pop_game (g : pykey) : M unit := λ w,
  match active_games w !! g with
  | Some _ =>
      (Ret tt,
       {| active_games := delete g (active_games w);
          current_players := current_players w;
          current_question := current_question w |}, [])
  | None => (Raise KeyError, w, [])
  end.

(** [self.current_players[c] = g] *)
Definition set_player (channel : string) (g : pykey) : M unit := λ w,
  (Ret tt,
   {| active_games := active_games w;
      current_players := <[channel := g]> (current_players w);
      current_question := current_question w |}, []).

(** [del self.current_players[c]] *)
Definition del_player (channel : string) : M unit := λ w,
  match current_players w !! channel with
  | Some _ =>
      (Ret tt,
       {| active_games := active_games w;
          current_players := delete channel (current_players w);
          current_question := current_question w |}, [])
  | None => (Raise KeyError, w, [])
  end.

Definition set_question (q : asked) : M unit := λ w,
  (Ret tt,
   {| active_games := active_games w;
      current_players := current_players w;
      current_question := Some q |}, []).

(** [self.current_question[...]]: subscripting [None] is a [TypeError]. *)
Definition question_item : M asked := λ w,
  match current_question w with
  | Some q => (Ret q, w, [])
  | None => (Raise TypeError, w, [])
  end.

(** [self.active_games[g].method(...)] for a method that mutates the room
    object in place: the room stored under [g] is the room afterwards. *)
Definition call_room {A} (g : pykey)
    (method : GameState.t → result (A * GameState.t)) : M A :=
  room ← games_item g;
  '(a, room') ← lift (method room);
  set_game g room';;
  mret a.

(** *** The methods *)

(** [tape] holds the successive values of [random.randint(0, 99)].  The
    lookup uses the integer [code]; the value returned is [str(code)]. *)
Fixpoint new_game_code (games : gmap pykey GameState.t) (tape : list Z)
  : result string :=
  match tape with
  | [] => Spin
  | code :: tape' =>
      match games !! KInt code with
      | None => Ret (str code)
      | Some _ => new_game_code games tape'
      end
  end.

Definition _get_new_game_code (tape : list Z) : M string := λ w,
  (new_game_code (active_games w) tape, w, []).

Definition _remove_player_from_game (channel : string) : M unit :=
  g ← players_item channel;
  call_room g (λ room, GameState.remove_user room channel);;
  g' ← players_item channel;
  emit (group_discard g' channel);;
  del_player channel.

Definition _add_player_to_game (channel name : string) (g : pykey) : M string :=
  new_username ← call_room g (λ room, GameState.add_user room channel name);
  set_player channel g;;
  emit (group_add g channel);;
  mret new_username.

Fixpoint remove_players (players : list string) : M unit :=
  match players with
  | [] => mret tt
  | p :: players' => _remove_player_from_game p;; remove_players players'
  end.

Definition _remove_game (g : pykey) : M unit :=
  room ← games_item g;
  remove_players (GameState.get_list_of_users_channels room);;
  pop_game g.

Definition _send_error (channel msg : string) : M unit :=
  emit (send channel (error msg)).

Definition _ask_question (g : pykey) (question : Question.t) (qid : Z) : M unit :=
  set_question {| id := qid; correct_answer := Question.correct_answer question |};;
  emit (group_send g
          (ask_question qid QUESTION_LENGTH (Question.content question)
             (Question.answers question)));;
  emit (sleep QUESTION_LENGTH).

(** [shuffled] is the table of questions in the random order the
    database returns for [order_by('?')]. *)
Definition _get_random_questions (shuffled : list Question.t) (amount : nat)
  : list Question.t :=
  take amount shuffled.

(** The three parts of [_run_game]: what runs before the first question,
    the loop over [enumerate(questions)], and what runs after the last
    wait. *)
Definition run_game_begin (g : pykey) : M unit :=
  emit (group_send g game_started).

Fixpoint ask_questions (g : pykey) (questions : list Question.t) (i : Z) : M unit :=
  match questions with
  | [] => mret tt
  | q :: questions' => _ask_question g q i;; ask_questions g questions' (i + 1)%Z
  end.

Definition run_game_end (g : pykey) : M unit :=
  room ← games_item g;
  emit (group_send g (game_ended (GameState.get_all_scores room)));;
  _remove_game g.

Definition _run_game (shuffled : list Question.t) (g : pykey) : M unit :=
  run_game_begin g;;
  ask_questions g (_get_random_questions shuffled 3) 0;;
  run_game_end g.

(** The part of [create_game] after the check of the event. *)
Definition open_game (channel_name username game_code : string) : M unit :=
  w ← get;
  (if bool_decide (is_Some (current_players w !! channel_name))
   then _remove_player_from_game channel_name else mret tt);;
  set_game (KStr game_code) (GameState.__init__ (KStr game_code));;
  _add_player_to_game channel_name username (KStr game_code);;
  emit (send channel_name (game_created game_code)).

Definition create_game (tape : list Z) (event : Event.t) : M unit :=
  let channel_name := Event.channel_name event in
  game_code ← _get_new_game_code tape;
  match Event.username event with
  | None | Some "" => _send_error channel_name "Some data is missing"
  | Some username => open_game channel_name username game_code
  end.

(** The part of [add_user] after the caller has left its former room. *)
Definition join (channel_name username : string) (game_code : pykey) : M unit :=
  w ← get;
  match active_games w !! game_code with
  | None =>
      _send_error channel_name
        ("Game with code " +:+ format_key game_code +:+ " does not exist")
  | Some room =>
      if GameState.is_game_running room then
        _send_error channel_name
          ("Game with code " +:+ format_key game_code +:+ " is running already")
      else
        new_username ← _add_player_to_game channel_name username game_code;
        emit (send channel_name (join_successful new_username));;
        room' ← games_item game_code;
        emit (group_send game_code
                (show_users (GameState.get_list_of_usernames room')))
  end.

Definition add_user (event : Event.t) : M unit :=
  let channel_name := Event.channel_name event in
  match Event.username event, Event.game_code event with
  | None, _ | Some "", _ | _, None =>
      _send_error channel_name "Some data is missing"
  | Some username, Some game_code =>
      w ← get;
      match current_players w !! channel_name with
      | Some g =>
          if bool_decide (g = game_code)
          then _send_error channel_name "You are in this game already"
          else
            _remove_player_from_game channel_name;;
            join channel_name username game_code
      | None => join channel_name username game_code
      end
  end.

Definition remove_user (event : Event.t) : M unit :=
  let channel_name := Event.channel_name event in
  w ← get;
  if bool_decide (is_Some (current_players w !! channel_name))
  then _remove_player_from_game channel_name
  else _send_error channel_name "You are not in a game".

Definition submit_answer (event : Event.t) : M unit :=
  let channel_name := Event.channel_name event in
  w ← get;
  if bool_decide (is_Some (current_players w !! channel_name)) then
    match int (Event.question_id event) with
    | None => _send_error channel_name "Wrong question id"
    | Some question_id =>
        q ← question_item;
        if bool_decide (question_id ≠ id q) then
          if bool_decide (question_id < id q)%Z && bool_decide (0 ≤ question_id)%Z
          then _send_error channel_name "Question already ended"
          else _send_error channel_name "Wrong question id"
        else
          match int (Event.answer event) with
          | None => _send_error channel_name "Wrong answer format"
          | Some answer =>
              q' ← question_item;
              let score :=
                if bool_decide (answer = correct_answer q') then 10%Z else 0%Z in
              game_code ← players_item channel_name;
              first ← call_room game_code
                        (λ room, GameState.set_answer room channel_name question_id score);
              if (first : bool) then
                q'' ← question_item;
                emit (send channel_name
                        (question_end (id q'') (bool_decide (0 < score)%Z)))
              else mret tt
          end
    end
  else _send_error channel_name "You are not in a game".

Definition start_game (event : Event.t) : M unit :=
  let channel_name := Event.channel_name event in
  w ← get;
  if bool_decide (is_Some (current_players w !! channel_name)) then
    game_code ← players_item channel_name;
    started ← call_room game_code GameState.start_game;
    if (started : bool) then emit (create_task_run_game game_code)
    else _send_error channel_name "Game is running already"
  else _send_error channel_name "You are not in a game".

End GameWorker.

(** ** The worker as a transition system *)

Module Steps.
Import GameWorker.
Local Open Scope Z_scope.

(** The state a handler leaves behind, and what it sent. *)
Definition state_after {A} (m : M A) (w : t) : t := (m w).1.2.
Definition log_of {A} (m : M A) (w : t) : list effect := (m w).2.
Definition result_of {A} (m : M A) (w : t) : result A := (m w).1.1.

(** The worker after the room stored under [g] has become [room]. *)
Definition with_room (w : t) (g : pykey) (room : GameState.t) : t :=
  {| active_games := <[g := room]> (active_games w);
     current_players := current_players w;
     current_question := current_question w |}.

(** A room whose running flag has been set. *)
Definition started (room : GameState.t) : GameState.t :=
  {| GameState.code := GameState.code room;
     GameState.users := GameState.users room;
     GameState.running := true |}.

(** What the worker executes with nothing else in between: the handler
    of one event, or one stretch of a [_run_game] task (its announcement,
    one question up to the end of its [asyncio.sleep], or what follows
    the last wait).  A coroutine gives way only at an [await], so these
    are the schedules in which no other handler or task is taken in at
    the [await]s on the channel layer, only at the waits of the
    questions.  What happens when a handler is taken in at the [await]s
    of the end of a round is modelled by [run_game_end_interleaved]
    below. *)
Inductive step :=
| Create (tape : list Z) (event : Event.t)
| Join (event : Event.t)
| Leave (event : Event.t)
| Submit (event : Event.t)
| Start (event : Event.t)
| Announce (g : pykey)
| Ask (g : pykey) (question : Question.t) (qid : Z)
| Finish (g : pykey).

Definition run_step (s : step) : M unit :=
  match s with
  | Create tape event => create_game tape event
  | Join event => add_user event
  | Leave event => remove_user event
  | Submit event => submit_answer event
  | Start event => start_game event
  | Announce g => run_game_begin g
  | Ask g question qid => _ask_question g question qid
  | Finish g => run_game_end g
  end.

(** The worker state after a sequence of steps, whatever their outcome:
    an exception ends the handler or the task that raised it, not the
    worker. *)
Definition run_steps (steps : list step) (w : t) : t :=
  foldl (λ w s, state_after (run_step s) w) w steps.

(** [m] relates every state it starts in to the state it leaves. *)
Definition preserves (R : t → t → Prop) {A} (m : M A) : Prop :=
  ∀ w, R w (state_after m w).

(** The step from [w] to [w'] keeps the invariant [I]. *)
Definition keeps (I : t → Prop) (w w' : t) : Prop := I w → I w'.

(** [Q] holds of the outcome of [m] and of the state it leaves. *)
Definition post {A} (m : M A) (w : t) (Q : result A → t → Prop) : Prop :=
  Q (result_of m w) (state_after m w).

(** Every room of [w'] is a later state, in the sense of [E], of the room
    that [w] stores under the same code. *)
Definition rooms_descend (E : GameState.t → GameState.t → Prop) (w w' : t) : Prop :=
  ∀ g room', active_games w' !! g = Some room' →
    ∃ room, active_games w !! g = Some room ∧ E room room'.

(** The same, for every code but [k]. *)
Definition rooms_descend_except (E : GameState.t → GameState.t → Prop)
    (k : pykey) (w w' : t) : Prop :=
  ∀ g room', g ≠ k → active_games w' !! g = Some room' →
    ∃ room, active_games w !! g = Some room ∧ E room room'.

(** A running flag that was set is still set. *)
Definition flag_stays (room room' : GameState.t) : Prop :=
  GameState.running room = true → GameState.running room' = true.

(** Names that were pairwise different still are. *)
Definition names_stay_unique (room room' : GameState.t) : Prop :=
  NoDup (GameState.get_list_of_usernames room) →
  NoDup (GameState.get_list_of_usernames room').

(** No room has two users of the same name. *)
Definition unique_names (w : t) : Prop :=
  ∀ g room, active_games w !! g = Some room →
    NoDup (GameState.get_list_of_usernames room).

(** The two registries agree: no channel is twice in a room, and every
    user of the room stored under [g] is mapped to [g]. *)
Definition consistent (w : t) : Prop :=
  ∀ g room, active_games w !! g = Some room →
    NoDup (GameState.get_list_of_users_channels room)
    ∧ ∀ c, c ∈ GameState.get_list_of_users_channels room →
           current_players w !! c = Some g.

(** No room is stored under an integer key. *)
Definition str_keys (w : t) : Prop := ∀ z, active_games w !! KInt z = None.

(** [current_players] after [del self.current_players[c]] for each of the
    channels, in order. *)
Definition without_players (players : gmap string pykey) (channels : list string)
    : gmap string pykey :=
  foldl (λ m c, delete c m) players channels.

(** The sum of the scores a user has on record. *)
Definition total_score (u : GameState.user) : Z :=
  foldr Z.add 0 (GameState.score <$> GameState.answers u).

End Steps.

(** ** Concrete events and states *)

Module Scenario.
Import GameWorker Steps.
Local Open Scope Z_scope.

(** Events as the consumers build them: only the keys a handler reads
    matter to it. *)
Definition named_event (channel name : string) (game_code : option pykey) : Event.t :=
  {| Event.channel_name := channel; Event.username := Some name;
     Event.game_code := game_code;
     Event.question_id := PyNone; Event.answer := PyNone |}.

Definition member_event (channel : string) (question_id answer : pyval) : Event.t :=
  {| Event.channel_name := channel; Event.username := None;
     Event.game_code := None;
     Event.question_id := question_id; Event.answer := answer |}.

Definition plain_question (correct : Z) : Question.t :=
  {| Question.content := "Q"; Question.answers := ["a"; "b"; "c"; "d"];
     Question.correct_answer := correct |}.

(** A worker with one room, ["7"], created by ["c1"] as "Alex". *)
Definition w_room7 : t :=
  state_after (create_game [7] (named_event "c1" "Alex" None)) __init__.

(** Its room. *)
Definition room7 : GameState.t :=
  {| GameState.code := KStr "7";
     GameState.users :=
       [{| GameState.channel_name := "c1"; GameState.username := "Alex";
           GameState.answers := [] |}];
     GameState.running := false |}.

(** The same worker while the first question of room ["7"] is open; its
    correct answer is 1. *)
Definition w_first_question : t :=
  state_after (_ask_question (KStr "7") (plain_question 1) 0) w_room7.

(** The same worker while the third question of room ["7"] is open. *)
Definition w_third_question : t :=
  state_after
    (ask_questions (KStr "7")
       [plain_question 1; plain_question 2; plain_question 3] 0)
    w_room7.

(** The reply that C3 expects for a parseable id other than the current
    one. *)
Definition reply_by_distance (current submitted : Z) : message :=
  if bool_decide (submitted = current - 1)
  then error "Question already ended" else error "Wrong question id".

(** A worker with two rooms: ["7"] with ["c1"] and ["8"] with ["c2"]. *)
Definition w_two_rooms : t :=
  state_after (create_game [8] (named_event "c2" "Bea" None)) w_room7.

(** Room ["7"] has opened its first question, whose correct answer is 1 ... *)
Definition w_asked_in_7 : t :=
  state_after (_ask_question (KStr "7") (plain_question 1) 0) w_two_rooms.

(** ... and then room ["8"] its own first question, whose correct answer
    is 2. *)
Definition w_asked_in_8 : t :=
  state_after (_ask_question (KStr "8") (plain_question 2) 0) w_asked_in_7.

(** The worker after ["c1"], the only member of room ["7"], has left. *)
Definition w_left7 : t :=
  state_after (remove_user (member_event "c1" PyNone PyNone)) w_room7.

(** Three handles that all ask for the name "Alex" in room ["7"]. *)
Definition three_alex : list step :=
  [Create [7] (named_event "c1" "Alex" None);
   Join (named_event "c2" "Alex" (Some (KStr "7")));
   Join (named_event "c3" "Alex" (Some (KStr "7")))].

(** A round of one question in room ["7"]: "Alex" creates the room, "Bea"
    joins, the round starts and asks question 0, whose correct answer is 1;
    "Alex" submits 1, twice, and "Bea" nothing. *)
Definition one_question_round : list step :=
  [Create [7] (named_event "c1" "Alex" None);
   Join (named_event "c2" "Bea" (Some (KStr "7")));
   Start (member_event "c1" PyNone PyNone);
   Announce (KStr "7");
   Ask (KStr "7") (plain_question 1) 0;
   Submit (member_event "c1" (PyInt 0) (PyInt 1));
   Submit (member_event "c1" (PyInt 0) (PyInt 1))].

(** Room ["7"] when the wait of that question is over. *)
Definition room7_after_round : GameState.t :=
  {| GameState.code := KStr "7";
     GameState.users :=
       [{| GameState.channel_name := "c1"; GameState.username := "Alex";
           GameState.answers :=
             [{| GameState.question_id := 0; GameState.score := 10 |}] |};
        {| GameState.channel_name := "c2"; GameState.username := "Bea";
           GameState.answers := [] |}];
     GameState.running := true |}.

End Scenario.

(** ** Definitions for the further properties *)

Module Further.
Import GameWorker Steps.
Local Open Scope Z_scope.

(** Every sample that a [create_game] of the steps draws is a value of
    [random.randint(0, 99)]. *)
Definition tapes_in_range (steps : list step) : Prop :=
  ∀ tape event c, Create tape event ∈ steps → c ∈ tape → 0 ≤ c ≤ 99.

(** The code field of a room is never written after [__init__]. *)
Definition same_code (room room' : GameState.t) : Prop :=
  GameState.code room' = GameState.code room.

(** The hundred keys of the two-digit code space. *)
Definition keyspace : list pykey :=
  (λ n : nat, KStr (str (Z.of_nat n))) <$> seq 0 100.

(** [P] holds of every room the worker stores. *)
Definition roomwise (P : GameState.t → Prop) (w : t) : Prop :=
  ∀ g room, active_games w !! g = Some room → P room.

(** A user has at most one answer on record for a question, and every
    score on record is 0 or 10. *)
Definition answers_sound (u : GameState.user) : Prop :=
  NoDup (GameState.question_id <$> GameState.answers u)
  ∧ ∀ a, a ∈ GameState.answers u → GameState.score a = 0 ∨ GameState.score a = 10.

Definition room_answers_sound (room : GameState.t) : Prop :=
  ∀ u, u ∈ GameState.users room → answers_sound u.

(** What the loop over the questions of a round sends and waits for,
    counting the questions from [i]. *)
Fixpoint asking_log (g : pykey) (questions : list Question.t) (i : Z) : list effect :=
  match questions with
  | [] => []
  | q :: questions' =>
      group_send g
        (ask_question i QUESTION_LENGTH (Question.content q) (Question.answers q))
      :: sleep QUESTION_LENGTH :: asking_log g questions' (i + 1)
  end.

(** The current question after that loop: the last question asked, or
    the one before the loop when there was nothing to ask. *)
Fixpoint last_asked (before : option asked) (questions : list Question.t) (i : Z)
    : option asked :=
  match questions with
  | [] => before
  | q :: questions' =>
      last_asked (Some {| id := i; correct_answer := Question.correct_answer q |})
        questions' (i + 1)
  end.

(** The ids of the questions a log asks, in order, and the seconds it
    waits. *)
Definition asked_id (e : effect) : option Z :=
  match e with
  | group_send _ (ask_question qid _ _ _) => Some qid
  | _ => None
  end.

Definition asked_ids (log : list effect) : list Z := omap asked_id log.

Definition waited (log : list effect) : Z :=
  foldr (λ e acc, match e with sleep n => n + acc | _ => acc end) 0 log.

(** "Alex" creates room ["7"] and "Bea" joins it; the room they are in. *)
Definition alex_and_bea : list step :=
  [Create [7] (Scenario.named_event "c1" "Alex" None);
   Join (Scenario.named_event "c2" "Bea" (Some (KStr "7")))].

Definition room7_alex_and_bea : GameState.t :=
  {| GameState.code := KStr "7";
     GameState.users :=
       [{| GameState.channel_name := "c1"; GameState.username := "Alex";
           GameState.answers := [] |};
        {| GameState.channel_name := "c2"; GameState.username := "Bea";
           GameState.answers := [] |}];
     GameState.running := false |}.

(** "Alex" creates room ["7"] and "Bea" room ["8"]; the room of "Bea". *)
Definition two_creations : list step :=
  [Create [7] (Scenario.named_event "c1" "Alex" None);
   Create [8] (Scenario.named_event "c2" "Bea" None)].

Definition room8 : GameState.t :=
  {| GameState.code := KStr "8";
     GameState.users :=
       [{| GameState.channel_name := "c2"; GameState.username := "Bea";
           GameState.answers := [] |}];
     GameState.running := false |}.

(** *** Rounds that meet

    The steps of one [_run_game] task. *)
Fixpoint ask_steps (g : pykey) (questions : list Question.t) (i : Z) : list step :=
  match questions with
  | [] => []
  | q :: questions' => Ask g q i :: ask_steps g questions' (i + 1)
  end.

Definition round_steps (shuffled : list Question.t) (g : pykey) : list step :=
  Announce g :: ask_steps g (_get_random_questions shuffled 3) 0 ++ [Finish g].

(** "Alex" has created room ["7"] and started its round. *)
Definition w_started7 : t :=
  state_after (start_game (Scenario.member_event "c1" PyNone PyNone))
    Scenario.w_room7.

(** While that round runs, 7 is drawn again: "Bea" creates a room, which
    is stored under ["7"] as well. *)
Definition w_recreated7 : t :=
  state_after (create_game [7] (Scenario.named_event "c2" "Bea" None)) w_started7.

(** Two rounds under the code ["7"], over a table of one question: "Alex"
    creates the room and starts the round, whose question is asked;
    during its wait "Bea" creates a room, 7 is drawn again, and she starts
    a round too. *)
Definition two_rounds_begin : list step :=
  [Create [7] (Scenario.named_event "c1" "Alex" None);
   Start (Scenario.member_event "c1" PyNone PyNone);
   Announce (KStr "7");
   Ask (KStr "7") (Scenario.plain_question 1) 0;
   Create [7] (Scenario.named_event "c2" "Bea" None);
   Start (Scenario.member_event "c2" PyNone PyNone)].

(** The first round comes to its end after the second has asked its
    question ... *)
Definition w_second_asked : t :=
  run_steps
    (two_rounds_begin
     ++ [Announce (KStr "7"); Ask (KStr "7") (Scenario.plain_question 1) 0])
    __init__.

Definition w_first_ended : t :=
  state_after (run_game_end (KStr "7")) w_second_asked.

(** ... or before the task of the second round has run at all. *)
Definition w_first_ended_early : t :=
  run_steps (two_rounds_begin ++ [Finish (KStr "7")]) __init__.

(** *** The end of a round, with its [await]s

    [_remove_player_from_game] up to its [await]: the room forgets the
    user and the arguments of [group_discard] are read.  What follows the
    [await] is [del self.current_players[channel_name]]. *)
Definition remove_player_until_await (channel : string) : M unit :=
  g ← players_item channel;
  call_room g (λ room, GameState.remove_user room channel);;
  g' ← players_item channel;
  emit (group_discard g' channel).

(** What the worker handles while a task is suspended at an [await]: an
    exception ends the handler that raised it, not the worker and not the
    suspended task. *)
Fixpoint meanwhile (steps : list step) : M unit :=
  match steps with
  | [] => mret tt
  | s :: steps' => λ w,
      let '(_, w', l) := run_step s w in
      let '(r, w'', l') := meanwhile steps' w' in
      (r, w'', l ++ l')
  end.

(** The loop of [_remove_game] over [players]; the head of [during] is
    what the worker handles while the task awaits the [group_discard] of
    the first player, and so on. *)
Fixpoint remove_players_interleaved
    (players : list string) (during : list (list step)) : M unit :=
  match players with
  | [] => mret tt
  | p :: players' =>
      remove_player_until_await p;;
      meanwhile (hd [] during);;
      del_player p;;
      remove_players_interleaved players' (tl during)
  end.

(** What [_run_game] does after the last wait: [before_removal] is what
    the worker handles while the task awaits the [group_send] of the
    scores. *)
Definition run_game_end_interleaved
    (g : pykey) (before_removal : list step) (during : list (list step)) : M unit :=
  room ← games_item g;
  emit (group_send g (game_ended (GameState.get_all_scores room)));;
  meanwhile before_removal;;
  room' ← games_item g;
  remove_players_interleaved (GameState.get_list_of_users_channels room') during;;
  pop_game g.

(** Where a channel stands while a task awaits its [group_discard]: its
    room has forgotten it, [current_players] has not yet. *)
Definition awaiting_discard (p : string) (w : t) : Prop :=
  is_Some (current_players w !! p)
  ∧ ∀ g room, active_games w !! g = Some room →
              p ∉ GameState.get_list_of_users_channels room.

(** The states the worker reaches when handlers may also be taken in at
    the [await]s of the end of a round. *)
Inductive reachable : t → Prop :=
| reachable_init : reachable __init__
| reachable_step (s : step) (w : t) :
    reachable w → reachable (state_after (run_step s) w)
| reachable_end (g : pykey) (before_removal : list step)
      (during : list (list step)) (w : t) :
    reachable w →
    reachable (state_after (run_game_end_interleaved g before_removal during) w).

(** The room that "Cy" creates, 8 being drawn, while a round ends. *)
Definition room8_cy : GameState.t :=
  {| GameState.code := KStr "8";
     GameState.users :=
       [{| GameState.channel_name := "c3"; GameState.username := "Cy";
           GameState.answers := [] |}];
     GameState.running := false |}.

(** Room ["7"] of [one_question_round] when the task that ends its round
    has raised: it has no users and is still running. *)
Definition room7_abandoned : GameState.t :=
  {| GameState.code := KStr "7"; GameState.users := []; GameState.running := true |}.

End Further.

(** * Properties of [GameState] *)

Section GameState_facts.
Import GameState Steps Scenario.
Local Open Scope nat_scope.

Lemma username_free_spec (us : list user) (name : string) :
  username_free us name = true ↔ name ∉ username <$> us.
Proof.
  induction us as [|u us IH]; simpl.
  - split; [intros _; apply not_elem_of_nil | done].
  - case_bool_decide as Hu.
    + split; [done | intros Hn; exfalso; apply Hn; subst; apply elem_of_cons; by left].
    + rewrite IH, not_elem_of_cons. split; [by intros ? | by intros [_ ?]].
Qed.

Lemma username_taken_spec (us : list user) (name : string) :
  username_free us name = false ↔ name ∈ username <$> us.
Proof.
  destruct (username_free us name) eqn:E.
  - apply username_free_spec in E. naive_solver.
  - split; [intros _ | done].
    destruct (decide (name ∈ username <$> us)) as [|Hn]; [done |].
    apply username_free_spec in Hn. congruence.
Qed.

Global Instance suffixed_inj (name : string) : Inj (=) (=) (suffixed name).
Proof.
  intros i j H. unfold suffixed in H.
  apply (inj (String.append name)) in H.
  apply (inj (String.append " #")) in H.
  by apply (inj pretty) in H.
Qed.

(** What the loop knows when it leaves with index [k]. *)
Lemma add_user_loop_Some (fuel : nat) (self : t) (name : string) (i k : nat) :
  add_user_loop fuel self name i = Some k →
  i ≤ k
  ∧ is_username_available self (suffixed name k) = true
  ∧ ∀ j, i ≤ j < k → is_username_available self (suffixed name j) = false.
Proof.
  revert i. induction fuel as [|fuel IH]; intros i; simpl; [done |].
  destruct (is_username_available self (suffixed name i)) eqn:E; simpl.
  - intros [= <-]. split_and!; [lia | done | lia].
  - intros H. apply IH in H as (Hle & Hk & Hlt).
    split_and!; [lia | done |].
    intros j Hj. destruct (decide (j = i)) as [-> | Hne]; [done |].
    apply Hlt. lia.
Qed.

(** What the loop has seen when its iterations are used up. *)
Lemma add_user_loop_None (fuel : nat) (self : t) (name : string) (i : nat) :
  add_user_loop fuel self name i = None →
  ∀ j, i ≤ j < i + fuel → is_username_available self (suffixed name j) = false.
Proof.
  revert i. induction fuel as [|fuel IH]; intros i; simpl; [lia |].
  destruct (is_username_available self (suffixed name i)) eqn:E; simpl; [done |].
  intros H j Hj. destruct (decide (j = i)) as [-> | Hne]; [done |].
  apply (IH _ H). lia.
Qed.

(** A room with [n] users cannot hold [n + 1] different suffixed names. *)
Lemma suffixes_not_all_taken (us : list user) (name : string) (i : nat) :
  ¬ ∀ j, i ≤ j < i + S (length us) → suffixed name j ∈ username <$> us.
Proof.
  intros Hall.
  assert (suffixed name <$> seq i (S (length us)) ⊆+ username <$> us) as Hsub.
  { apply NoDup_submseteq.
    - apply (NoDup_fmap_2 _), NoDup_seq.
    - intros x (j & -> & Hj)%list_elem_of_fmap.
      apply elem_of_seq in Hj. apply Hall. lia. }
  apply submseteq_length in Hsub.
  rewrite !length_fmap, length_seq in Hsub. lia.
Qed.

(** The loop of [add_user] always leaves within the iterations that
    [new_username] grants it. *)
Lemma add_user_loop_total (self : t) (name : string) :
  ∃ k, add_user_loop (S (length (users self))) self name 2 = Some k.
Proof.
  destruct (add_user_loop _ self name 2) as [k|] eqn:E; [by exists k |].
  exfalso. apply (suffixes_not_all_taken (users self) name 2).
  intros j Hj. apply username_taken_spec.
  by apply (add_user_loop_None _ _ _ _ E).
Qed.

(** More iterations do not change the index the loop leaves with. *)
Lemma add_user_loop_mono (fuel fuel' : nat) (self : t) (name : string) (i k : nat) :
  add_user_loop fuel self name i = Some k → fuel ≤ fuel' →
  add_user_loop fuel' self name i = Some k.
Proof.
  revert fuel' i. induction fuel as [|fuel IH]; intros fuel' i; simpl; [done |].
  intros H Hle. destruct fuel' as [|fuel']; [lia |]. simpl.
  destruct (is_username_available self (suffixed name i)); simpl in *; [done |].
  apply IH; [done | lia].
Qed.

Lemma new_username_spec (self : t) (name : string) :
  ∃ name',
    new_username self name = Ret name'
    ∧ (name' ∉ get_list_of_usernames self)
    ∧ (name ∉ get_list_of_usernames self → name' = name)
    ∧ (name ∈ get_list_of_usernames self →
       ∃ k, 2 ≤ k ∧ name' = suffixed name k
            ∧ ∀ j, 2 ≤ j < k → suffixed name j ∈ get_list_of_usernames self).
Proof.
  unfold new_username, get_list_of_usernames, is_username_available.
  destruct (username_free (users self) name) eqn:E; cbn [negb].
  - exists name. apply username_free_spec in E.
    split_and!; [done | done | done | by intros ?].
  - destruct (add_user_loop_total self name) as [k Hk]. rewrite Hk.
    apply add_user_loop_Some in Hk as (Hle & Hfree & Hlt).
    exists (suffixed name k). split_and!; [done | | |].
    + by apply username_free_spec.
    + intros Hn. apply username_free_spec in Hn. congruence.
    + intros _. exists k. split_and!; [done | done |].
      intros j Hj. apply username_taken_spec. by apply Hlt.
Qed.

Lemma add_user_spec (self : t) (channel name : string) :
  ∃ name',
    new_username self name = Ret name'
    ∧ add_user self channel name =
        Ret (name',
             with_users self
               (users self ++
                  [{| channel_name := channel; username := name'; answers := [] |}])).
Proof.
  destruct (new_username_spec self name) as (name' & H & _).
  exists name'. split; [done |]. unfold add_user. by rewrite H.
Qed.

(** *** The methods keep the code and the running flag of a room *)

Lemma add_user_Ret (self self' : t) (channel name name' : string) :
  add_user self channel name = Ret (name', self') →
  new_username self name = Ret name'
  ∧ self' = with_users self
              (users self ++
                 [{| channel_name := channel; username := name'; answers := [] |}]).
Proof.
  unfold add_user. destruct (new_username self name); [| done..].
  by intros [= <- <-].
Qed.

Lemma remove_user_Ret (self self' : t) (channel : string) :
  remove_user self channel = Ret (tt, self') →
  ∃ i u us, get_user self channel = Some (i, u)
            ∧ list_remove u (users self) = Some us
            ∧ self' = with_users self us.
Proof.
  unfold remove_user. destruct (get_user self channel) as [[i u]|]; [| done].
  destruct (list_remove u (users self)) as [us|] eqn:E; [| done].
  intros [= <-]. by exists i, u, us.
Qed.

Lemma set_answer_Ret (self self' : t) (channel : string) (qid sc : Z) (first : bool) :
  set_answer self channel qid sc = Ret (first, self') →
  ∃ us, self' = with_users self us.
Proof.
  unfold set_answer. destruct (get_user self channel) as [[i u]|]; [| done].
  destruct (answered (answers u) qid); intros [= <- <-].
  - exists (users self). by destruct self.
  - by eexists.
Qed.

Lemma start_game_Ret (self : t) :
  start_game self =
    Ret (negb (running self),
         {| code := code self; users := users self; running := true |}).
Proof. unfold start_game. destruct self as [c us []]; done. Qed.

(** *** The user list *)

Lemma find_user_lookup (us : list GameState.user) (channel : string)
    (k i : nat) (u : GameState.user) :
  GameState.find_user us channel k = Some (i, u) →
  (k ≤ i)%nat ∧ us !! (i - k)%nat = Some u ∧ GameState.channel_name u = channel.
Proof.
  revert k. induction us as [|v us IH]; intros k; simpl; [done |].
  case_bool_decide as Hv.
  - intros [= <- <-]. by rewrite Nat.sub_diag.
  - intros (Hle & Hu & Hc)%IH. split_and!; [lia | | done].
    by replace (i - k)%nat with (S (i - S k)) by lia.
Qed.

Lemma find_user_insert (us : list GameState.user) (channel : string)
    (k i : nat) (u u' : GameState.user) :
  GameState.find_user us channel k = Some (i, u) →
  GameState.channel_name u' = channel →
  GameState.find_user (<[(i - k)%nat := u']> us) channel k = Some (i, u').
Proof.
  revert k. induction us as [|v us IH]; intros k; simpl; [done |].
  case_bool_decide as Hv.
  - intros [= <- <-] Hu'. rewrite Nat.sub_diag. simpl.
    by rewrite bool_decide_true.
  - intros H Hu'. pose proof (find_user_lookup _ _ _ _ _ H) as (Hle & _ & _).
    replace (i - k)%nat with (S (i - S k)) by lia. simpl.
    rewrite bool_decide_false by done. by apply IH.
Qed.

Lemma answered_app (qs : list GameState.answer) (qid sc : Z) :
  GameState.answered
    (qs ++ [{| GameState.question_id := qid; GameState.score := sc |}]) qid = true.
Proof.
  induction qs as [|q qs IH]; simpl.
  - by rewrite bool_decide_true.
  - by case_bool_decide.
Qed.

Lemma list_remove_found (us : list GameState.user) (channel : string)
    (k i : nat) (u : GameState.user) :
  GameState.find_user us channel k = Some (i, u) →
  list_remove u us = Some (delete (i - k)%nat us).
Proof.
  revert k. induction us as [|v us IH]; intros k; simpl; [done |].
  case_bool_decide as Hv.
  - intros [= <- <-]. rewrite Nat.sub_diag. by rewrite decide_True.
  - intros H. pose proof (find_user_lookup _ _ _ _ _ H) as (Hle & _ & Hc).
    rewrite decide_False by (intros ->; done).
    rewrite (IH _ H). replace (i - k)%nat with (S (i - S k)) by lia. done.
Qed.

(** A member leaves: [remove] takes the member's own dictionary out of the
    list and keeps the others in their order. *)
Lemma remove_user_member (self : GameState.t) (channel : string)
    (i : nat) (u : GameState.user) :
  GameState.get_user self channel = Some (i, u) →
  GameState.remove_user self channel =
    Ret (tt, GameState.with_users self (delete i (GameState.users self))).
Proof.
  intros H. unfold GameState.remove_user. rewrite H.
  unfold GameState.get_user in H.
  rewrite (list_remove_found _ _ _ _ _ H). by rewrite Nat.sub_0_r.
Qed.

Lemma set_answer_channels (room room' : GameState.t) (c : string) (qid sc : Z)
    (first : bool) :
  GameState.set_answer room c qid sc = Ret (first, room') →
  GameState.get_list_of_users_channels room'
  = GameState.get_list_of_users_channels room.
Proof.
  unfold GameState.set_answer.
  destruct (GameState.get_user room c) as [[i u]|] eqn:Huser; [| done].
  destruct (GameState.answered _ _); intros [= <- <-]; [done |].
  unfold GameState.get_user in Huser.
  apply find_user_lookup in Huser as (_ & Hu & _). rewrite Nat.sub_0_r in Hu.
  unfold GameState.get_list_of_users_channels, GameState.with_users.
  cbn [GameState.users]. rewrite list_fmap_insert.
  apply list_insert_id. by rewrite list_lookup_fmap, Hu.
Qed.

Lemma set_answer_usernames (room room' : GameState.t) (c : string) (qid sc : Z)
    (first : bool) :
  GameState.set_answer room c qid sc = Ret (first, room') →
  GameState.get_list_of_usernames room' = GameState.get_list_of_usernames room.
Proof.
  unfold GameState.set_answer.
  destruct (GameState.get_user room c) as [[i u]|] eqn:Huser; [| done].
  destruct (GameState.answered _ _); intros [= <- <-]; [done |].
  unfold GameState.get_user in Huser.
  apply find_user_lookup in Huser as (_ & Hu & _). rewrite Nat.sub_0_r in Hu.
  unfold GameState.get_list_of_usernames, GameState.with_users.
  cbn [GameState.users]. rewrite list_fmap_insert.
  apply list_insert_id. by rewrite list_lookup_fmap, Hu.
Qed.

End GameState_facts.

(** * More on [GameState]: looking users up, leaving, scoring *)

Section GameState_more.
Import GameState Steps Scenario.
Local Open Scope nat_scope.

Lemma find_user_first (us : list user) (c : string) (k i : nat) (u : user) :
  find_user us c k = Some (i, u) →
  ∀ j v, j < i - k → us !! j = Some v → channel_name v ≠ c.
Proof.
  revert k. induction us as [|w us IH]; intros k; simpl; [done |].
  case_bool_decide as Hw.
  - intros [= <- <-] j v Hj. lia.
  - intros H j v Hj Hv. pose proof (find_user_lookup _ _ _ _ _ H) as (Hle & _ & _).
    destruct j as [|j]; simpl in Hv.
    + by injection Hv as <-.
    + apply (IH _ H j v); [lia | done].
Qed.

Lemma find_user_None (us : list user) (c : string) (k : nat) :
  find_user us c k = None ↔ c ∉ channel_name <$> us.
Proof.
  revert k. induction us as [|w us IH]; intros k; simpl.
  - split; [intros _; apply not_elem_of_nil | done].
  - case_bool_decide as Hw.
    + split; [done |]. intros Hn. exfalso. apply Hn. subst. apply list_elem_of_here.
    + rewrite IH, not_elem_of_cons. split; [by intros ? | by intros [_ ?]].
Qed.

(** X1: [get_user] returns the first user of the list with the given
    channel name, together with its position, and [None] exactly when no
    user of the room has that channel name. *)
Theorem get_user_first (self : t) (c : string) :
  match get_user self c with
  | Some (i, u) =>
      users self !! i = Some u
      ∧ channel_name u = c
      ∧ ∀ j v, j < i → users self !! j = Some v → channel_name v ≠ c
  | None => c ∉ get_list_of_users_channels self
  end.
Proof.
  unfold get_user, get_list_of_users_channels.
  destruct (find_user (users self) c 0) as [[i u]|] eqn:E.
  - pose proof (find_user_lookup _ _ _ _ _ E) as (_ & Hu & Hc).
    rewrite Nat.sub_0_r in Hu. split_and!; [done | done |].
    intros j v Hj. apply (find_user_first _ _ _ _ _ E). lia.
  - by apply find_user_None in E.
Qed.

Lemma find_user_app_miss (us vs : list user) (c : string) (k : nat) :
  c ∉ channel_name <$> us →
  find_user (us ++ vs) c k = find_user vs c (k + length us).
Proof.
  revert k. induction us as [|w us IH]; intros k; simpl.
  - intros _. by rewrite Nat.add_0_r.
  - intros [Hw Hus]%not_elem_of_cons.
    rewrite bool_decide_false by done. rewrite IH by done. f_equal. lia.
Qed.

(** X2: a channel that is not in the room can join and leave again, and
    the room is then exactly what it was: [remove_user] undoes
    [add_user]. *)
Theorem add_user_remove_user (self : t) (c name : string) :
  c ∉ get_list_of_users_channels self →
  ∃ name' self',
    add_user self c name = Ret (name', self')
    ∧ get_user self' c
      = Some (length (users self),
              {| channel_name := c; username := name'; answers := [] |})
    ∧ remove_user self' c = Ret (tt, self).
Proof.
  intros Hc. destruct (add_user_spec self c name) as (name' & _ & Hadd).
  eexists name', _. split; [exact Hadd |].
  assert (get_user
            (with_users self
               (users self ++
                  [{| channel_name := c; username := name'; answers := [] |}])) c
          = Some (length (users self),
                  {| channel_name := c; username := name'; answers := [] |}))
    as Hget.
  { unfold get_user. simpl. rewrite find_user_app_miss by done. simpl.
    by rewrite bool_decide_true. }
  split; [done |].
  rewrite (remove_user_member _ _ _ _ Hget). simpl.
  rewrite delete_middle, app_nil_r. by destruct self.
Qed.

Lemma add_user_remove_user_witness :
  ∃ name' self',
    add_user room7 "c2" "Alex" = Ret (name', self')
    ∧ get_user self' "c2"
      = Some (1, {| channel_name := "c2"; username := name'; answers := [] |})
    ∧ remove_user self' "c2" = Ret (tt, room7).
Proof.
  apply (add_user_remove_user room7 "c2" "Alex").
  intros [H | H%elem_of_nil]%elem_of_cons; [discriminate H | exact H].
Defined.

Lemma was_right_app (qs : list answer) (a : answer) (qid : Z) :
  was_right (qs ++ [a]) qid =
    if answered qs qid then was_right qs qid
    else bool_decide (question_id a = qid) && bool_decide (0 < score a)%Z.
Proof.
  induction qs as [|q qs IH]; simpl.
  - by destruct (bool_decide (question_id a = qid)).
  - rewrite IH. by destruct (bool_decide (question_id q = qid)).
Qed.

Lemma was_right_unanswered (qs : list answer) (qid : Z) :
  answered qs qid = false → was_right qs qid = false.
Proof.
  induction qs as [|q qs IH]; simpl; [done |]. by case_bool_decide.
Qed.

(** X3: what [set_answer] records is what [check_if_user_was_right] reads
    back: after an accepted answer the check is [True] exactly when the
    score is positive, a refused answer leaves the room as it is, and the
    check for any other question is not affected. *)
Theorem check_after_set_answer
    (self self' : t) (c : string) (qid sc : Z) (first : bool) :
  set_answer self c qid sc = Ret (first, self') →
  (first = true → check_if_user_was_right self' c qid = Ret (bool_decide (0 < sc)%Z))
  ∧ (first = false → self' = self)
  ∧ (∀ qid', qid' ≠ qid →
       check_if_user_was_right self' c qid' = check_if_user_was_right self c qid').
Proof.
  unfold set_answer, check_if_user_was_right.
  destruct (get_user self c) as [[i u]|] eqn:Huser; [| done].
  destruct (answered (answers u) qid) eqn:Hans; intros [= <- <-].
  { split_and!; [done | done |]. intros qid' _. by rewrite Huser. }
  assert (get_user (with_users self (<[i := append_answer u qid sc]> (users self))) c
          = Some (i, append_answer u qid sc)) as ->.
  { unfold get_user in *. simpl.
    pose proof (find_user_lookup _ _ _ _ _ Huser) as (_ & _ & Hc).
    replace i with (i - 0) at 1 by lia. by apply (find_user_insert _ _ _ _ u). }
  split_and!; [| done |].
  - intros _. simpl. rewrite was_right_app, Hans. simpl.
    by rewrite bool_decide_true.
  - intros qid' Hne. simpl. rewrite was_right_app. simpl.
    rewrite (bool_decide_false (qid = qid')) by done. simpl.
    destruct (answered (answers u) qid') eqn:Hans'; [done |].
    by rewrite was_right_unanswered.
Qed.

Lemma check_after_set_answer_witness :
  check_if_user_was_right
    (with_users room7 [append_answer
                         {| channel_name := "c1"; username := "Alex"; answers := [] |}
                         0 10]) "c1" 0
  = Ret true.
Proof.
  refine (proj1 (check_after_set_answer room7 _ "c1" 0 10 true _) _); reflexivity.
Defined.

Lemma count_user_score_append (u : user) (qid sc : Z) :
  count_user_score (append_answer u qid sc) = (count_user_score u + sc)%Z.
Proof. unfold count_user_score, append_answer. simpl. by rewrite foldl_app. Qed.

(** X4: an accepted answer adds its score to the submitter's line of the
    scoreboard and leaves every other line, and the order of the lines,
    as they were. *)
Theorem set_answer_scoreboard
    (self self' : t) (c : string) (qid sc : Z) :
  set_answer self c qid sc = Ret (true, self') →
  ∃ i u,
    get_user self c = Some (i, u)
    ∧ get_all_scores self'
      = <[i := (username u, (count_user_score u + sc)%Z)]> (get_all_scores self).
Proof.
  unfold set_answer.
  destruct (get_user self c) as [[i u]|] eqn:Huser; [| done].
  destruct (answered (answers u) qid); intros [= <-].
  exists i, u. split; [done |].
  unfold get_all_scores. simpl. rewrite list_fmap_insert. simpl.
  by rewrite count_user_score_append.
Qed.

Lemma set_answer_scoreboard_witness :
  ∃ i u,
    get_user room7_after_round "c2" = Some (i, u)
    ∧ get_all_scores
        (with_users room7_after_round
           (<[1 := append_answer
                     {| channel_name := "c2"; username := "Bea"; answers := [] |}
                     0 10]> (users room7_after_round)))
      = <[i := (username u, (count_user_score u + 10)%Z)]>
          (get_all_scores room7_after_round).
Proof.
  apply (set_answer_scoreboard room7_after_round _ "c2" 0 10). reflexivity.
Defined.

End GameState_more.

(** * Properties of [GameWorker] *)

Section GameWorker_facts.
Import GameWorker Steps Scenario Further.
Local Open Scope Z_scope.

(** Unfolds the monad so that a handler computes on a symbolic state. *)
Ltac unfold_monad :=
  unfold call_room in *;
  unfold mbind, mret, M_bind, M_ret, bind, ret, lift, get, emit, _send_error,
    games_item, players_item, question_item, set_game, set_player,
    del_player, pop_game, set_question in *.

(** Runs a handler as far as the hypotheses on the state determine it. *)
Ltac mrun :=
  unfold_monad;
  repeat (simpl;
          match goal with
          | H : ?x = _ |- context [match ?x with _ => _ end] => rewrite H
          | H : ?x = _ |- context [if ?x then _ else _] => rewrite H
          | H : ?x = _ |- context [is_Some ?x] => rewrite H
          end);
  simpl.

(** C3 as amended: a parseable id that differs from the current one is
    answered with "Question already ended" when it lies in
    [0 .. current - 1], and with "Wrong question id" when it is negative
    or ahead of the current one; the worker state is left as it was. *)
Theorem submit_answer_other_question
    (w : t) (event : Event.t) (g : pykey) (q : asked) (qid : Z) :
  current_players w !! Event.channel_name event = Some g →
  current_question w = Some q →
  int (Event.question_id event) = Some qid →
  qid ≠ id q →
  submit_answer event w =
    (Ret tt, w,
     [send (Event.channel_name event)
        (error (if bool_decide (0 ≤ qid < id q)
                then "Question already ended" else "Wrong question id"))]).
Proof.
  intros Hin Hq Hint Hne. unfold submit_answer. mrun.
  rewrite (bool_decide_true (qid ≠ id q)) by done.
  repeat case_bool_decide; simpl; try done; lia.
Qed.

Lemma submit_answer_other_question_witness :
  submit_answer (member_event "c1" (PyInt 0) PyNone) w_third_question =
    (Ret tt, w_third_question,
     [send "c1" (error "Question already ended")]).
Proof.
  apply (submit_answer_other_question w_third_question
           (member_event "c1" (PyInt 0) PyNone) (KStr "7")
           {| id := 2; correct_answer := 3 |} 0);
    [reflexivity | reflexivity | reflexivity | simpl; lia].
Defined.

(** C3 fails two questions behind: while question 2 is open, a
    submission for question 0 is answered with "Question already ended",
    not with "Wrong question id". *)
Lemma submit_answer_two_behind :
  current_question w_third_question = Some {| id := 2; correct_answer := 3 |}
  ∧ is_Some (current_players w_third_question !! "c1")
  ∧ int (PyInt 0) = Some 0
  ∧ log_of (submit_answer (member_event "c1" (PyInt 0) PyNone)) w_third_question
    = [send "c1" (error "Question already ended")]
  ∧ log_of (submit_answer (member_event "c1" (PyInt 0) PyNone)) w_third_question
    ≠ [send "c1" (reply_by_distance 2 0)].
Proof. split_and!; [reflexivity | by eexists | reflexivity | reflexivity | discriminate]. Qed.

(** *** The running flag *)

Lemma with_same_room (w : t) (g : pykey) (room : GameState.t) :
  active_games w !! g = Some room → with_room w g room = w.
Proof.
  intros H. unfold with_room. rewrite insert_id by done. by destruct w.
Qed.


(** *** The two helpers that move a player *)

Lemma remove_player_eq (channel : string) (w : t) :
  _remove_player_from_game channel w =
    match current_players w !! channel with
    | None => (Raise KeyError, w, [])
    | Some g =>
        match active_games w !! g with
        | None => (Raise KeyError, w, [])
        | Some room =>
            match GameState.remove_user room channel with
            | Ret (_, room') =>
                (Ret tt,
                 {| active_games := <[g := room']> (active_games w);
                    current_players := delete channel (current_players w);
                    current_question := current_question w |},
                 [group_discard g channel])
            | Raise e => (Raise e, w, [])
            | Spin => (Spin, w, [])
            end
        end
    end.
Proof.
  unfold _remove_player_from_game. unfold_monad.
  destruct (current_players w !! channel) as [g|] eqn:Hg; simpl; [| done].
  destruct (active_games w !! g) as [room|] eqn:Hroom; simpl; [| done].
  destruct (GameState.remove_user room channel) as [[[] room']| |]; simpl; [| done..].
  rewrite Hg; simpl. by rewrite Hg.
Qed.

Lemma add_player_eq (channel name : string) (g : pykey) (w : t) :
  _add_player_to_game channel name g w =
    match active_games w !! g with
    | None => (Raise KeyError, w, [])
    | Some room =>
        match GameState.add_user room channel name with
        | Ret (name', room') =>
            (Ret name',
             {| active_games := <[g := room']> (active_games w);
                current_players := <[channel := g]> (current_players w);
                current_question := current_question w |},
             [group_add g channel])
        | Raise e => (Raise e, w, [])
        | Spin => (Spin, w, [])
        end
    end.
Proof.
  unfold _add_player_to_game. unfold_monad.
  destruct (active_games w !! g) as [room|] eqn:Hroom; simpl; [| done].
  by destruct (GameState.add_user room channel name) as [[name' room']| |].
Qed.

(** *** Rooms are only ever changed through the [GameState] methods *)

Local Arguments _remove_player_from_game : simpl never.
Local Arguments _add_player_to_game : simpl never.

Lemma preserves_bind {A B} (R : t → t → Prop) `{!PreOrder R}
    (m : M A) (f : A → M B) :
  preserves R m → (∀ a, preserves R (f a)) → preserves R (m ≫= f).
Proof.
  intros Hm Hf w. specialize (Hm w). unfold preserves, state_after in *.
  unfold mbind, M_bind, bind. destruct (m w) as [[[a| |] w1] l]; simpl in *; [| done..].
  specialize (Hf a w1). destruct (f a w1) as [[r w2] l']. simpl in *.
  by etrans.
Qed.

Lemma preserves_same {A} (R : t → t → Prop) `{!Reflexive R} (m : M A) :
  (∀ w, state_after m w = w) → preserves R m.
Proof. intros H w. by rewrite H. Qed.

Lemma state_after_bind {A B} (m : M A) (f : A → M B) (w : t) :
  state_after (m ≫= f) w =
    match result_of m w with
    | Ret a => state_after (f a) (state_after m w)
    | _ => state_after m w
    end.
Proof.
  unfold state_after, result_of, mbind, M_bind, bind.
  destruct (m w) as [[[a| |] w'] l]; simpl; [| done..].
  by destruct (f a w') as [[r w''] l'].
Qed.

Lemma call_room_eq {A} (g : pykey)
    (method : GameState.t → result (A * GameState.t)) (w : t) :
  call_room g method w =
    match active_games w !! g with
    | None => (Raise KeyError, w, [])
    | Some room =>
        match method room with
        | Ret (a, room') => (Ret a, with_room w g room', [])
        | Raise e => (Raise e, w, [])
        | Spin => (Spin, w, [])
        end
    end.
Proof.
  unfold_monad. destruct (active_games w !! g) as [room|]; simpl; [| done].
  by destruct (method room) as [[a room']| |].
Qed.

(** The steps that leave the state alone. *)
Lemma preserves_mret {A} (R : t → t → Prop) `{!Reflexive R} (a : A) :
  preserves R (mret a).
Proof. by apply preserves_same. Qed.
Lemma preserves_lift {A} (R : t → t → Prop) `{!Reflexive R} (r : result A) :
  preserves R (lift r).
Proof. by apply preserves_same. Qed.
Lemma preserves_get (R : t → t → Prop) `{!Reflexive R} : preserves R get.
Proof. by apply preserves_same. Qed.
Lemma preserves_emit (R : t → t → Prop) `{!Reflexive R} (e : effect) :
  preserves R (emit e).
Proof. by apply preserves_same. Qed.
Lemma preserves_send_error (R : t → t → Prop) `{!Reflexive R} (c msg : string) :
  preserves R (_send_error c msg).
Proof. by apply preserves_same. Qed.
Lemma preserves_games_item (R : t → t → Prop) `{!Reflexive R} (g : pykey) :
  preserves R (games_item g).
Proof.
  apply preserves_same; [done |]. intros w. unfold state_after, games_item.
  by destruct (active_games w !! g).
Qed.
Lemma preserves_players_item (R : t → t → Prop) `{!Reflexive R} (c : string) :
  preserves R (players_item c).
Proof.
  apply preserves_same; [done |]. intros w. unfold state_after, players_item.
  by destruct (current_players w !! c).
Qed.
Lemma preserves_question_item (R : t → t → Prop) `{!Reflexive R} :
  preserves R question_item.
Proof.
  apply preserves_same; [done |]. intros w. unfold state_after, question_item.
  by destruct (current_question w).
Qed.
Lemma preserves_new_game_code (R : t → t → Prop) `{!Reflexive R} (tape : list Z) :
  preserves R (_get_new_game_code tape).
Proof. by apply preserves_same. Qed.

(** Whatever relation [E] the four mutating methods of [GameState] keep
    between a room and the room afterwards, every step of the worker
    keeps it between the rooms it stores under a code; the one exception
    is the room object that [create_game] makes, which starts from
    [GameState.__init__]. *)
Section descend.
Variable E : GameState.t → GameState.t → Prop.
Context `{!PreOrder E}.
Hypothesis E_add_user : ∀ room c name name' room',
  GameState.add_user room c name = Ret (name', room') → E room room'.
Hypothesis E_remove_user : ∀ room c room',
  GameState.remove_user room c = Ret (tt, room') → E room room'.
Hypothesis E_set_answer : ∀ room c qid sc first room',
  GameState.set_answer room c qid sc = Ret (first, room') → E room room'.
Hypothesis E_start_game : ∀ room started room',
  GameState.start_game room = Ret (started, room') → E room room'.

Global Instance rooms_descend_preorder : PreOrder (rooms_descend E).
Proof.
  split.
  - intros w g room H. by exists room.
  - intros w1 w2 w3 H12 H23 g room3 H3.
    destruct (H23 g room3 H3) as (room2 & H2 & E23).
    destruct (H12 g room2 H2) as (room1 & H1 & E12).
    exists room1. split; [done | by etrans].
Qed.

Global Instance rooms_descend_except_preorder (k : pykey) :
  PreOrder (rooms_descend_except E k).
Proof.
  split.
  - intros w g room _ H. by exists room.
  - intros w1 w2 w3 H12 H23 g room3 Hne H3.
    destruct (H23 g room3 Hne H3) as (room2 & H2 & E23).
    destruct (H12 g room2 Hne H2) as (room1 & H1 & E12).
    exists room1. split; [done | by etrans].
Qed.

Lemma descend_update (w : t) (g : pykey) (room room' : GameState.t)
    (players : gmap string pykey) (q : option asked) :
  active_games w !! g = Some room →
  E room room' →
  rooms_descend E w
    {| active_games := <[g := room']> (active_games w);
       current_players := players; current_question := q |}.
Proof.
  intros Hroom HE g0 room0. simpl.
  destruct (decide (g = g0)) as [<- | Hne].
  - rewrite lookup_insert_eq. intros [= <-]. by exists room.
  - rewrite lookup_insert_ne by done. intros H. by exists room0.
Qed.

Lemma remove_player_descends (channel : string) :
  preserves (rooms_descend E) (_remove_player_from_game channel).
Proof.
  intros w. unfold state_after. rewrite remove_player_eq.
  destruct (current_players w !! channel) as [g|]; [| done].
  destruct (active_games w !! g) as [room|] eqn:Hroom; [| done].
  destruct (GameState.remove_user room channel) as [[[] room']| |] eqn:Hrem;
    [| done..].
  simpl. apply (descend_update w g room); [done | by eapply E_remove_user].
Qed.

Lemma add_player_descends (channel name : string) (g : pykey) :
  preserves (rooms_descend E) (_add_player_to_game channel name g).
Proof.
  intros w. unfold state_after. rewrite add_player_eq.
  destruct (active_games w !! g) as [room|] eqn:Hroom; [| done].
  destruct (GameState.add_user room channel name) as [[name' room']| |] eqn:Hadd;
    [| done..].
  simpl. apply (descend_update w g room); [done | by eapply E_add_user].
Qed.

Lemma call_room_descends {A} (g : pykey)
    (method : GameState.t → result (A * GameState.t)) :
  (∀ room a room', method room = Ret (a, room') → E room room') →
  preserves (rooms_descend E) (call_room g method).
Proof.
  intros HE w. unfold state_after. rewrite call_room_eq.
  destruct (active_games w !! g) as [room|] eqn:Hroom; [| done].
  destruct (method room) as [[a room']| |] eqn:Hm; [| done..].
  simpl. apply (descend_update w g room); [done |]. by apply (HE room a).
Qed.

Lemma set_question_descends (q : asked) :
  preserves (rooms_descend E) (set_question q).
Proof. intros w g room H. by exists room. Qed.

Lemma pop_game_descends (g : pykey) : preserves (rooms_descend E) (pop_game g).
Proof.
  intros w g0 room0. unfold state_after, pop_game.
  destruct (active_games w !! g); simpl; [| by exists room0].
  intros [_ H]%lookup_delete_Some. by exists room0.
Qed.

Create HintDb descend.
#[local] Hint Resolve preserves_mret preserves_lift preserves_get preserves_emit
  preserves_send_error preserves_games_item preserves_players_item
  preserves_question_item preserves_new_game_code set_question_descends
  pop_game_descends remove_player_descends add_player_descends : descend.
#[local] Hint Extern 1 (Reflexive (rooms_descend _)) => apply _ : descend.

(** Splits a handler along its binds and branches. *)
Ltac descend :=
  repeat first
    [ progress auto with descend
    | apply call_room_descends
    | apply preserves_bind; [apply _ | | intros ?]
    | case_match ].

Lemma remove_players_descends (players : list string) :
  preserves (rooms_descend E) (remove_players players).
Proof. induction players as [|p players IH]; simpl; descend. Qed.

Lemma remove_game_descends (g : pykey) :
  preserves (rooms_descend E) (_remove_game g).
Proof.
  unfold _remove_game. pose proof remove_players_descends. descend.
Qed.

Lemma remove_user_descends (event : Event.t) :
  preserves (rooms_descend E) (remove_user event).
Proof. unfold remove_user. descend. Qed.

Lemma add_user_descends (event : Event.t) :
  preserves (rooms_descend E) (add_user event).
Proof. unfold add_user, join. descend. Qed.

Lemma submit_answer_descends (event : Event.t) :
  preserves (rooms_descend E) (submit_answer event).
Proof.
  unfold submit_answer. descend.
  all: intros room b room' Hset; by eapply E_set_answer.
Qed.

Lemma start_game_descends (event : Event.t) :
  preserves (rooms_descend E) (start_game event).
Proof. unfold start_game. descend. Qed.

Lemma ask_question_descends (g : pykey) (question : Question.t) (qid : Z) :
  preserves (rooms_descend E) (_ask_question g question qid).
Proof. unfold _ask_question. descend. Qed.

Lemma run_game_end_descends (g : pykey) :
  preserves (rooms_descend E) (run_game_end g).
Proof. unfold run_game_end. pose proof (remove_game_descends g). descend. Qed.

(** [create_game] is the one handler that stores a new room object; the
    rooms under the other codes descend as before. *)
Lemma descend_weaken {A} (k : pykey) (m : M A) :
  preserves (rooms_descend E) m → preserves (rooms_descend_except E k) m.
Proof. intros H w g room' _ Hroom'. by apply (H w). Qed.

Lemma set_game_descends_except (k : pykey) (room : GameState.t) :
  preserves (rooms_descend_except E k) (set_game k room).
Proof.
  intros w g room' Hne. unfold state_after, set_game. simpl.
  rewrite lookup_insert_ne by done. intros H. by exists room'.
Qed.

Lemma open_game_descends (channel name code : string) :
  preserves (rooms_descend_except E (KStr code)) (open_game channel name code).
Proof.
  unfold open_game.
  apply preserves_bind; [apply _ | apply preserves_get, _ | intros w0].
  apply preserves_bind; [apply _ | | intros _].
  { apply descend_weaken. descend. }
  apply preserves_bind; [apply _ | apply set_game_descends_except | intros _].
  apply descend_weaken. descend.
Qed.

(** The room that [open_game] leaves under the new code is the old one, if
    the handler stopped early, or comes from a new [GameState]. *)
Lemma open_game_new_room (channel name code : string) (w : t)
    (room' : GameState.t) :
  active_games (state_after (open_game channel name code) w) !! KStr code
  = Some room' →
  (∃ room, active_games w !! KStr code = Some room ∧ E room room')
  ∨ E (GameState.__init__ (KStr code)) room'.
Proof.
  unfold open_game. rewrite state_after_bind.
  change (result_of get w) with (Ret w). change (state_after get w) with w.
  cbv beta iota. rewrite state_after_bind.
  assert (preserves (rooms_descend E)
            (if bool_decide (is_Some (current_players w !! channel))
             then _remove_player_from_game channel else mret tt)) as Hleft
    by descend.
  specialize (Hleft w).
  destruct (result_of _ w) as [[]| |];
    [| intros H; left; by apply Hleft..].
  rewrite state_after_bind.
  change (result_of (set_game _ _) ?w1) with (@Ret unit tt). cbv beta iota.
  intros H. right.
  assert (preserves (rooms_descend E)
            (_add_player_to_game channel name (KStr code);;
             emit (send channel (game_created code)))) as Hrest
    by descend.
  apply Hrest in H as (room2 & Hroom2 & HE).
  unfold state_after, set_game in Hroom2. simpl in Hroom2.
  rewrite lookup_insert_eq in Hroom2. by injection Hroom2 as <-.
Qed.

Lemma create_game_descends (tape : list Z) (event : Event.t) (w : t)
    (g : pykey) (room' : GameState.t) :
  active_games (state_after (create_game tape event) w) !! g = Some room' →
  (∃ room, active_games w !! g = Some room ∧ E room room')
  ∨ (∃ code, new_game_code (active_games w) tape = Ret code ∧ g = KStr code
             ∧ E (GameState.__init__ g) room').
Proof.
  unfold create_game. rewrite state_after_bind.
  unfold result_of, state_after at 2 3, _get_new_game_code. simpl.
  destruct (new_game_code (active_games w) tape) as [code| |] eqn:Hcode;
    [| left; by exists room'..].
  destruct (Event.username event) as [[|a name]|].
  1, 3: intros H; left; by exists room'.
  destruct (decide (g = KStr code)) as [-> | Hne].
  - intros [H | H]%open_game_new_room; [by left |]. right. by exists code.
  - intros H. left. revert H. by apply open_game_descends.
Qed.

Lemma run_step_descends (s : step) (w : t) (g : pykey) (room' : GameState.t) :
  active_games (state_after (run_step s) w) !! g = Some room' →
  (∃ room, active_games w !! g = Some room ∧ E room room')
  ∨ (∃ tape event code,
       s = Create tape event
       ∧ new_game_code (active_games w) tape = Ret code ∧ g = KStr code
       ∧ E (GameState.__init__ g) room').
Proof.
  destruct s as [tape event|event|event|event|event|g0|g0 q qid|g0]; simpl.
  - intros [H | (code & Hcode & -> & HE)]%create_game_descends; [by left |].
    right. by exists tape, event, code.
  - intros H. left. by apply (add_user_descends event w).
  - intros H. left. by apply (remove_user_descends event w).
  - intros H. left. by apply (submit_answer_descends event w).
  - intros H. left. by apply (start_game_descends event w).
  - intros H. left. by exists room'.
  - intros H. left. by apply (ask_question_descends g0 q qid w).
  - intros H. left. by apply (run_game_end_descends g0 w).
Qed.

End descend.

(** The running flag of a room is never unset ... *)
Global Instance flag_stays_preorder : PreOrder flag_stays.
Proof.
  split.
  - intros room H. exact H.
  - intros r1 r2 r3 H12 H23 H1. apply H23, H12, H1.
Qed.

Lemma run_step_flag (s : step) (w : t) (g : pykey) (room' : GameState.t) :
  active_games (state_after (run_step s) w) !! g = Some room' →
  (∃ room, active_games w !! g = Some room ∧ flag_stays room room')
  ∨ (∃ tape event code,
       s = Create tape event
       ∧ new_game_code (active_games w) tape = Ret code ∧ g = KStr code
       ∧ flag_stays (GameState.__init__ g) room').
Proof.
  apply (run_step_descends flag_stays); unfold flag_stays.
  - intros r c name name' r' Hadd. by apply add_user_Ret in Hadd as (_ & ->).
  - intros r c r' Hrem.
    by apply remove_user_Ret in Hrem as (i & u & us & _ & _ & ->).
  - intros r c qid sc first r' Hset.
    by apply set_answer_Ret in Hset as [us ->].
  - intros r started r' Hst. rewrite start_game_Ret in Hst.
    by injection Hst as _ <-.
Qed.

(** ... and the names in a room stay pairwise different. *)
Global Instance names_stay_unique_preorder : PreOrder names_stay_unique.
Proof.
  split.
  - intros room H. exact H.
  - intros r1 r2 r3 H12 H23 H1. apply H23, H12, H1.
Qed.

Lemma run_step_names (s : step) (w : t) (g : pykey) (room' : GameState.t) :
  active_games (state_after (run_step s) w) !! g = Some room' →
  (∃ room, active_games w !! g = Some room ∧ names_stay_unique room room')
  ∨ (∃ tape event code,
       s = Create tape event
       ∧ new_game_code (active_games w) tape = Ret code ∧ g = KStr code
       ∧ names_stay_unique (GameState.__init__ g) room').
Proof.
  apply (run_step_descends names_stay_unique); unfold names_stay_unique.
  - intros r c name name' r' Hadd Hnd.
    destruct (new_username_spec r name) as (name'' & Hnew & Hfresh & _).
    apply add_user_Ret in Hadd as (Hnew' & ->).
    assert (name'' = name') as -> by congruence.
    unfold GameState.get_list_of_usernames, GameState.with_users in *.
    cbn [GameState.users]. rewrite fmap_app.
    apply NoDup_app. split_and!; [done | | apply NoDup_singleton].
    intros x Hx ->%list_elem_of_singleton. by apply Hfresh.
  - intros r c r' Hrem Hnd.
    apply remove_user_Ret in Hrem as (i & u & us & Huser & Hus & ->).
    unfold GameState.get_user in Huser.
    rewrite (list_remove_found _ _ _ _ _ Huser) in Hus. injection Hus as <-.
    unfold GameState.get_list_of_usernames, GameState.with_users in *.
    cbn [GameState.users]. rewrite list_fmap_delete.
    by eapply sublist_NoDup, sublist_delete.
  - intros r c qid sc first r' Hset Hnd.
    by rewrite (set_answer_usernames r r' c qid sc first Hset).
  - intros r started r' Hst. rewrite start_game_Ret in Hst.
    by injection Hst as _ <-.
Qed.

Lemma run_steps_unique_names (steps : list step) :
  unique_names (run_steps steps __init__).
Proof.
  assert (∀ w, unique_names w → unique_names (run_steps steps w)) as Hgen.
  { induction steps as [|s steps IH]; intros w Hw; simpl; [done |].
    apply IH. intros g room' Hroom'.
    apply run_step_names in Hroom'
      as [(room & Hroom & HE) | (_ & _ & _ & _ & _ & _ & HE)].
    - by apply HE, (Hw g room).
    - apply HE, NoDup_nil_2. }
  apply Hgen. intros g room H. simpl in H. by rewrite lookup_empty in H.
Qed.



(** C5 fails on the code: the flag under a code does fall back, and a
    second round is started on it.  "Alex" creates room ["7"] and starts
    it; 7 is drawn again for "Bea", whose [create_game] stores a room with
    the flag unset over the running one (the defect of C2); "Alex", who
    never left and is still mapped to ["7"], calls [start_game] again: it
    is not answered "Game is running already" but sets the flag and spawns
    a second [_run_game] for the code ["7"]. *)
Theorem start_game_twice_on_one_code :
  GameState.running <$> active_games w_room7 !! KStr "7" = Some false
  ∧ start_game (member_event "c1" PyNone PyNone) w_room7
    = (Ret tt, w_started7, [create_task_run_game (KStr "7")])
  ∧ GameState.running <$> active_games w_started7 !! KStr "7" = Some true
  ∧ log_of (create_game [7] (named_event "c2" "Bea" None)) w_started7
    = [group_add (KStr "7") "c2"; send "c2" (game_created "7")]
  ∧ GameState.running <$> active_games w_recreated7 !! KStr "7" = Some false
  ∧ current_players w_recreated7 !! "c1" = Some (KStr "7")
  ∧ result_of (start_game (member_event "c1" PyNone PyNone)) w_recreated7 = Ret tt
  ∧ log_of (start_game (member_event "c1" PyNone PyNone)) w_recreated7
    = [create_task_run_game (KStr "7")]
  ∧ run_steps
      [Create [7] (named_event "c1" "Alex" None);
       Start (member_event "c1" PyNone PyNone);
       Create [7] (named_event "c2" "Bea" None)] __init__
    = w_recreated7.
Proof. split_and!; reflexivity. Qed.

(** *** Scoring a submission *)

(** What [submit_answer] does with a well-formed submission for the
    current question, by what [set_answer] returns. *)
Lemma submit_answer_current
    (w : t) (event : Event.t) (g : pykey) (room : GameState.t)
    (i : nat) (u : GameState.user) (q : asked) (answer : Z) :
  current_players w !! Event.channel_name event = Some g →
  active_games w !! g = Some room →
  GameState.get_user room (Event.channel_name event) = Some (i, u) →
  current_question w = Some q →
  int (Event.question_id event) = Some (id q) →
  int (Event.answer event) = Some answer →
  submit_answer event w =
    if GameState.answered (GameState.answers u) (id q) then (Ret tt, w, [])
    else
      (Ret tt,
       with_room w g
         (GameState.with_users room
            (<[i := GameState.append_answer u (id q)
                      (if bool_decide (answer = correct_answer q) then 10 else 0)]>
               (GameState.users room))),
       [send (Event.channel_name event)
          (question_end (id q) (bool_decide (answer = correct_answer q)))]).
Proof.
  intros Hin Hroom Huser Hq Hqid Hans. unfold submit_answer. mrun.
  rewrite (bool_decide_false (id q ≠ id q)) by (intros ?; done).
  mrun. unfold GameState.set_answer. rewrite Huser.
  destruct (GameState.answered (GameState.answers u) (id q)); mrun.
  - rewrite <- ?Hq.
    by rewrite (with_same_room w g room Hroom : {| active_games := _ |} = w).
  - unfold with_room. rewrite ?Hq. repeat case_bool_decide; done || lia.
Qed.

(** C4: a well-formed submission for the current question scores 10 for
    the correct answer and 0 otherwise; the first one for a question is
    recorded and answered with [question_end], carrying the question id and
    whether the answer was correct; once a score is recorded for the
    question, a submission changes nothing and sends nothing. *)
Theorem submit_answer_once
    (w : t) (event : Event.t) (g : pykey) (room : GameState.t)
    (i : nat) (u : GameState.user) (q : asked) (answer : Z) :
  current_players w !! Event.channel_name event = Some g →
  active_games w !! g = Some room →
  GameState.get_user room (Event.channel_name event) = Some (i, u) →
  current_question w = Some q →
  int (Event.question_id event) = Some (id q) →
  int (Event.answer event) = Some answer →
  let score := if bool_decide (answer = correct_answer q) then 10 else 0 in
  let room' :=
    GameState.with_users room
      (<[i := GameState.append_answer u (id q) score]> (GameState.users room)) in
  (GameState.answered (GameState.answers u) (id q) = false →
   submit_answer event w =
     (Ret tt, with_room w g room',
      [send (Event.channel_name event)
         (question_end (id q) (bool_decide (answer = correct_answer q)))])
   ∧ ∃ u', GameState.get_user room' (Event.channel_name event) = Some (i, u')
           ∧ GameState.answers u' =
               GameState.answers u ++
                 [{| GameState.question_id := id q; GameState.score := score |}]
           ∧ GameState.answered (GameState.answers u') (id q) = true)
  ∧ (GameState.answered (GameState.answers u) (id q) = true →
     submit_answer event w = (Ret tt, w, [])).
Proof.
  intros Hin Hroom Huser Hq Hqid Hans score room'.
  pose proof (submit_answer_current w event g room i u q answer
                Hin Hroom Huser Hq Hqid Hans) as Hsubmit.
  split.
  - intros Hfirst. rewrite Hfirst in Hsubmit. split; [done |].
    exists (GameState.append_answer u (id q) score). split_and!.
    + unfold GameState.get_user in *. simpl.
      pose proof (find_user_lookup _ _ _ _ _ Huser) as (_ & _ & Hc).
      replace i with (i - 0)%nat at 1 by lia.
      by apply (find_user_insert _ _ _ _ u).
    + done.
    + apply answered_app.
  - intros Hrepeat. by rewrite Hrepeat in Hsubmit.
Qed.

Lemma submit_answer_once_witness :
  submit_answer (member_event "c1" (PyInt 0) (PyStr "1")) w_first_question =
    (Ret tt,
     with_room w_first_question (KStr "7")
       (GameState.with_users room7
          [{| GameState.channel_name := "c1"; GameState.username := "Alex";
              GameState.answers :=
                [{| GameState.question_id := 0; GameState.score := 10 |}] |}]),
     [send "c1" (question_end 0 true)]).
Proof.
  refine (proj1 (proj1
    (submit_answer_once w_first_question
       (member_event "c1" (PyInt 0) (PyStr "1")) (KStr "7") room7 0%nat
       {| GameState.channel_name := "c1"; GameState.username := "Alex";
          GameState.answers := [] |}
       {| id := 0; correct_answer := 1 |} 1 _ _ _ _ _ _) _)); reflexivity.
Defined.

(** *** One current question for the whole worker *)

Lemma ask_question_eq (g : pykey) (question : Question.t) (qid : Z) (w : t) :
  _ask_question g question qid w =
    (Ret tt,
     {| active_games := active_games w;
        current_players := current_players w;
        current_question :=
          Some {| id := qid;
                  correct_answer := Question.correct_answer question |} |},
     [group_send g
        (ask_question qid QUESTION_LENGTH (Question.content question)
           (Question.answers question));
      sleep QUESTION_LENGTH]).
Proof. reflexivity. Qed.

(** C1 as amended: the worker keeps one current question; [_ask_question]
    of any room overwrites it and touches nothing else, and the next
    submission of a member of any room, the asking one or another, is
    checked and scored against that question. *)
Theorem validation_against_last_asked
    (w : t) (asking : pykey) (question : Question.t) (qid : Z)
    (event : Event.t) (g : pykey) (room : GameState.t)
    (i : nat) (u : GameState.user) (answer : Z) :
  current_players w !! Event.channel_name event = Some g →
  active_games w !! g = Some room →
  GameState.get_user room (Event.channel_name event) = Some (i, u) →
  GameState.answered (GameState.answers u) qid = false →
  int (Event.question_id event) = Some qid →
  int (Event.answer event) = Some answer →
  let w' := state_after (_ask_question asking question qid) w in
  let right := bool_decide (answer = Question.correct_answer question) in
  current_question w' =
    Some {| id := qid; correct_answer := Question.correct_answer question |}
  ∧ active_games w' = active_games w
  ∧ current_players w' = current_players w
  ∧ submit_answer event w' =
      (Ret tt,
       with_room w' g
         (GameState.with_users room
            (<[i := GameState.append_answer u qid (if right then 10 else 0)]>
               (GameState.users room))),
       [send (Event.channel_name event) (question_end qid right)]).
Proof.
  intros Hin Hroom Huser Hfirst Hqid Hans w' right.
  split_and!; [done | done | done |].
  rewrite (submit_answer_current w' event g room i u
             {| id := qid; correct_answer := Question.correct_answer question |}
             answer) by done.
  simpl. by rewrite Hfirst.
Qed.

Lemma validation_against_last_asked_witness :
  submit_answer (member_event "c1" (PyInt 0) (PyInt 1)) w_asked_in_8 =
    (Ret tt,
     with_room w_asked_in_8 (KStr "7")
       (GameState.with_users room7
          [{| GameState.channel_name := "c1"; GameState.username := "Alex";
              GameState.answers :=
                [{| GameState.question_id := 0; GameState.score := 0 |}] |}]),
     [send "c1" (question_end 0 false)]).
Proof.
  refine (proj2 (proj2 (proj2
    (validation_against_last_asked w_asked_in_7 (KStr "8") (plain_question 2) 0
       (member_event "c1" (PyInt 0) (PyInt 1)) (KStr "7") room7 0%nat
       {| GameState.channel_name := "c1"; GameState.username := "Alex";
          GameState.answers := [] |} 1 _ _ _ _ _ _)))); reflexivity.
Defined.

(** C1 fails: ["c1"] sits in room ["7"], whose open question 0 has the
    correct answer 1.  Its submission of answer 1 is right until room
    ["8"] opens a question of its own; from then on the same submission
    is scored as wrong. *)
Lemma other_room_question_changes_validation :
  current_players w_asked_in_7 !! "c1" = Some (KStr "7")
  ∧ w_asked_in_8 =
      state_after (_ask_question (KStr "8") (plain_question 2) 0) w_asked_in_7
  ∧ log_of (submit_answer (member_event "c1" (PyInt 0) (PyInt 1))) w_asked_in_7
    = [send "c1" (question_end 0 true)]
  ∧ log_of (submit_answer (member_event "c1" (PyInt 0) (PyInt 1))) w_asked_in_8
    = [send "c1" (question_end 0 false)]
  ∧ log_of (submit_answer (member_event "c1" (PyInt 0) (PyInt 1))) w_asked_in_7
    ≠ log_of (submit_answer (member_event "c1" (PyInt 0) (PyInt 1))) w_asked_in_8.
Proof. split_and!; [reflexivity.. | discriminate]. Qed.

(** *** Allocating a room code *)

Lemma str_keys_step (s : step) (w : t) :
  str_keys w → str_keys (state_after (run_step s) w).
Proof.
  intros Hw z.
  destruct (active_games (state_after (run_step s) w) !! KInt z) as [room'|] eqn:E;
    [exfalso | done].
    apply run_step_flag in E as [(room & Hroom & _) | (? & ? & ? & _ & _ & ? & _)];
    [| done].
  by rewrite Hw in Hroom.
Qed.

Lemma str_keys_run_steps (steps : list step) (w : t) :
  str_keys w → str_keys (run_steps steps w).
Proof.
  revert w. induction steps as [|s steps IH]; intros w Hw; simpl; [done |].
  by apply IH, str_keys_step.
Qed.

Lemma new_game_code_first (games : gmap pykey GameState.t) (c : Z) (tape : list Z) :
  games !! KInt c = None → new_game_code games (c :: tape) = Ret (str c).
Proof. intros H. simpl. by rewrite H. Qed.

(** C2 fails on the code: the rooms are stored under the string
    [str(code)] and looked up under the integer [code], so in every state
    the worker can reach the first sample is returned, whichever rooms are
    active.  With room ["7"] active and 7 drawn again, [create_game] hands
    out ["7"] a second time and stores a new room over the old one, whose
    member ["c1"] is still mapped to the code. *)
Theorem create_game_reuses_active_code :
  (∀ (steps : list step) (c : Z) (tape : list Z),
     new_game_code (active_games (run_steps steps __init__)) (c :: tape)
     = Ret (str c))
  ∧ GameState.get_list_of_users_channels <$> active_games w_room7 !! KStr "7"
    = Some ["c1"]
  ∧ result_of (create_game [7] (named_event "c2" "Bea" None)) w_room7 = Ret tt
  ∧ log_of (create_game [7] (named_event "c2" "Bea" None)) w_room7
    = [group_add (KStr "7") "c2"; send "c2" (game_created "7")]
  ∧ GameState.get_list_of_users_channels <$>
      active_games
        (state_after (create_game [7] (named_event "c2" "Bea" None)) w_room7)
        !! KStr "7"
    = Some ["c2"]
  ∧ current_players
      (state_after (create_game [7] (named_event "c2" "Bea" None)) w_room7)
      !! "c1"
    = Some (KStr "7").
Proof.
  split; [| split_and!; reflexivity].
  intros steps c tape. apply new_game_code_first.
  by apply (str_keys_run_steps steps __init__).
Qed.

(** *** Submitting before any question was asked *)

Lemma submit_answer_no_question (w : t) (event : Event.t) (qid : Z) :
  is_Some (current_players w !! Event.channel_name event) →
  int (Event.question_id event) = Some qid →
  current_question w = None →
  submit_answer event w = (Raise TypeError, w, []).
Proof.
  intros [g Hin] Hqid Hq. unfold submit_answer. by mrun.
Qed.

(** C9 fails on the code: [current_question] starts as [None], and a
    submission by a member with a parseable question id subscripts it
    before any question was asked, which raises [TypeError] out of the
    handler; no error event is sent. *)
Theorem submit_answer_before_first_question :
  (∀ (w : t) (event : Event.t) (qid : Z),
     is_Some (current_players w !! Event.channel_name event) →
     int (Event.question_id event) = Some qid →
     current_question w = None →
     submit_answer event w = (Raise TypeError, w, []))
  ∧ w_room7 = run_steps [Create [7] (named_event "c1" "Alex" None)] __init__
  ∧ submit_answer (member_event "c1" (PyInt 0) (PyInt 1)) w_room7
    = (Raise TypeError, w_room7, []).
Proof.
  split_and!; [apply submit_answer_no_question | reflexivity |].
  apply (submit_answer_no_question _ _ 0); [by eexists | done..].
Qed.

(** *** Leaving and joining *)

Lemma remove_user_spec (w : t) (event : Event.t) (g : pykey)
    (room : GameState.t) (i : nat) (u : GameState.user) :
  current_players w !! Event.channel_name event = Some g →
  active_games w !! g = Some room →
  GameState.get_user room (Event.channel_name event) = Some (i, u) →
  remove_user event w =
    (Ret tt,
     {| active_games :=
          <[g := GameState.with_users room (delete i (GameState.users room))]>
            (active_games w);
        current_players := delete (Event.channel_name event) (current_players w);
        current_question := current_question w |},
     [group_discard g (Event.channel_name event)]).
Proof.
  intros Hin Hroom Huser. unfold remove_user. unfold_monad.
  rewrite Hin. simpl. rewrite remove_player_eq, Hin, Hroom.
  by rewrite (remove_user_member room _ i u).
Qed.

Lemma join_spec (w : t) (channel name : string) (g : pykey) (room : GameState.t) :
  active_games w !! g = Some room →
  GameState.running room = false →
  ∃ name' room',
    GameState.add_user room channel name = Ret (name', room')
    ∧ join channel name g w =
        (Ret tt,
         {| active_games := <[g := room']> (active_games w);
            current_players := <[channel := g]> (current_players w);
            current_question := current_question w |},
         [group_add g channel; send channel (join_successful name');
          group_send g (show_users (GameState.get_list_of_usernames room'))]).
Proof.
  intros Hroom Hrun.
  destruct (add_user_spec room channel name) as (name' & _ & Hadd).
  eexists name', _. split; [exact Hadd |].
  unfold join. unfold_monad. rewrite Hroom. unfold GameState.is_game_running.
  rewrite Hrun. simpl. rewrite add_player_eq, Hroom, Hadd. simpl.
  by rewrite lookup_insert_eq.
Qed.

Lemma join_refused (w : t) (channel name : string) (g : pykey) :
  join channel name g w =
    match active_games w !! g with
    | None =>
        (Ret tt, w,
         [send channel
            (error ("Game with code " +:+ format_key g +:+ " does not exist"))])
    | Some room =>
        if GameState.running room then
          (Ret tt, w,
           [send channel
              (error ("Game with code " +:+ format_key g +:+ " is running already"))])
        else join channel name g w
    end.
Proof.
  destruct (active_games w !! g) as [room|] eqn:Hroom.
  - destruct (GameState.running room) eqn:Hrun; [| done].
    unfold join. unfold_monad. rewrite Hroom.
    unfold GameState.is_game_running. by rewrite Hrun.
  - unfold join. unfold_monad. by rewrite Hroom.
Qed.

Lemma add_user_eq (w : t) (event : Event.t) (name : string) (code : pykey) :
  Event.username event = Some name → name ≠ "" →
  Event.game_code event = Some code →
  add_user event w =
    match current_players w !! Event.channel_name event with
    | Some g =>
        if bool_decide (g = code)
        then (Ret tt, w,
              [send (Event.channel_name event) (error "You are in this game already")])
        else (_remove_player_from_game (Event.channel_name event);;
              join (Event.channel_name event) name code) w
    | None => join (Event.channel_name event) name code w
    end.
Proof.
  intros Hname Hne Hcode. unfold add_user. rewrite Hname, Hcode.
  destruct name as [|a name]; [done |]. unfold_monad.
  destruct (current_players w !! Event.channel_name event) as [g|]; simpl.
  - case_bool_decide; simpl; [done |].
    destruct (_remove_player_from_game _ w) as [[[[]| |] w1] l]; simpl; [| done..].
    by destruct (join _ _ _ w1) as [[? ?] ?].
  - by destruct (join _ _ _ w) as [[? ?] ?].
Qed.

(** C6: a join keeps the requested name when no member has it, and
    otherwise appends [" #k"] for the least [k ≥ 2] whose suffixed name is
    unused; this is the name the handler confirms to the joiner; in every
    state the worker reaches, the names of a room are pairwise different; a
    second and a third ["Alex"] become ["Alex #2"] and ["Alex #3"]. *)
Theorem add_user_disambiguates :
  (∀ (self : GameState.t) (channel name : string),
     ∃ name' self',
       GameState.add_user self channel name = Ret (name', self')
       ∧ GameState.users self' =
           GameState.users self ++
             [{| GameState.channel_name := channel;
                 GameState.username := name'; GameState.answers := [] |}]
       ∧ (name' ∉ GameState.get_list_of_usernames self)
       ∧ (name ∉ GameState.get_list_of_usernames self → name' = name)
       ∧ (name ∈ GameState.get_list_of_usernames self →
          ∃ k : nat, (2 ≤ k)%nat ∧ name' = name +:+ " #" +:+ pretty k
               ∧ ∀ j : nat, (2 ≤ j < k)%nat →
                   name +:+ " #" +:+ pretty j ∈ GameState.get_list_of_usernames self)
       ∧ (NoDup (GameState.get_list_of_usernames self) →
          NoDup (GameState.get_list_of_usernames self')))
  ∧ (∀ (w : t) (event : Event.t) (name : string) (code : pykey)
       (room : GameState.t),
       Event.username event = Some name → name ≠ "" →
       Event.game_code event = Some code →
       current_players w !! Event.channel_name event = None →
       active_games w !! code = Some room →
       GameState.running room = false →
       ∃ name' room',
         GameState.add_user room (Event.channel_name event) name
         = Ret (name', room')
         ∧ log_of (add_user event) w =
             [group_add code (Event.channel_name event);
              send (Event.channel_name event) (join_successful name');
              group_send code
                (show_users (GameState.get_list_of_usernames room ++ [name']))])
  ∧ (∀ (steps : list step) (g : pykey) (room : GameState.t),
       active_games (run_steps steps __init__) !! g = Some room →
       NoDup (GameState.get_list_of_usernames room))
  ∧ GameState.get_list_of_usernames <$>
      active_games (run_steps three_alex __init__) !! KStr "7"
    = Some ["Alex"; "Alex #2"; "Alex #3"].
Proof.
  split_and!.
  - intros self channel name.
    destruct (new_username_spec self name)
      as (name' & Hnew & Hfresh & Hsame & Hsuf).
    destruct (add_user_spec self channel name) as (name'' & Hnew' & Hadd).
    assert (name'' = name') as -> by congruence.
    eexists name', _. split; [exact Hadd |]. simpl.
    split_and!; [done | done | done | done |].
    unfold GameState.get_list_of_usernames. simpl. rewrite fmap_app. simpl.
    intros Hnd. apply NoDup_app. split_and!; [done | | apply NoDup_singleton].
    intros x Hx ->%list_elem_of_singleton. by apply Hfresh.
  - intros w event name code room Hname Hne Hcode Hfree Hroom Hrun.
    destruct (join_spec w (Event.channel_name event) name code room Hroom Hrun)
      as (name' & room' & Hadd & Hjoin).
    exists name', room'. split; [done |].
    unfold log_of. rewrite (add_user_eq w event name code), Hfree, Hjoin by done.
    simpl. apply add_user_Ret in Hadd as (_ & ->).
    unfold GameState.get_list_of_usernames. simpl. by rewrite fmap_app.
  - intros steps g room. apply run_steps_unique_names.
  - reflexivity.
Qed.

(** C8 as amended: when the only member of a room that is not running
    leaves, the room stays stored under its code, with no users, and the
    next join with that code by a handle that is in no room succeeds under
    the requested name. *)
Theorem emptied_room_stays_joinable
    (w : t) (leave join_event : Event.t) (g : pykey) (room : GameState.t)
    (u : GameState.user) (name : string) :
  current_players w !! Event.channel_name leave = Some g →
  active_games w !! g = Some room →
  GameState.users room = [u] →
  GameState.channel_name u = Event.channel_name leave →
  GameState.running room = false →
  Event.username join_event = Some name → name ≠ "" →
  Event.game_code join_event = Some g →
  current_players (state_after (remove_user leave) w)
    !! Event.channel_name join_event = None →
  let w' := state_after (remove_user leave) w in
  result_of (remove_user leave) w = Ret tt
  ∧ log_of (remove_user leave) w = [group_discard g (Event.channel_name leave)]
  ∧ active_games w' !! g = Some (GameState.with_users room [])
  ∧ current_players w' !! Event.channel_name leave = None
  ∧ result_of (add_user join_event) w' = Ret tt
  ∧ log_of (add_user join_event) w' =
      [group_add g (Event.channel_name join_event);
       send (Event.channel_name join_event) (join_successful name);
       group_send g (show_users [name])]
  ∧ GameState.get_list_of_users_channels <$>
      active_games (state_after (add_user join_event) w') !! g
    = Some [Event.channel_name join_event].
Proof.
  intros Hin Hroom Hus Hu Hrun Hname Hne Hcode.
  assert (GameState.get_user room (Event.channel_name leave) = Some (0%nat, u))
    as Huser.
  { unfold GameState.get_user. rewrite Hus. simpl. by rewrite bool_decide_true. }
  unfold state_after, result_of, log_of.
  rewrite (remove_user_spec w leave g room 0%nat u) by done.
  rewrite Hus. simpl. intros Hfree.
  rewrite (add_user_eq _ join_event name g) by done. simpl. rewrite Hfree.
  match goal with |- context [join _ _ _ ?w1] =>
    destruct (join_spec w1 (Event.channel_name join_event) name g
                (GameState.with_users room [])) as (name' & room' & Hadd & ->)
  end; [by simpl; rewrite lookup_insert_eq | done |].
  unfold GameState.add_user, GameState.new_username in Hadd. simpl in Hadd.
  injection Hadd as <- <-. simpl.
  rewrite !lookup_insert_eq, lookup_delete_eq. done.
Qed.

Lemma emptied_room_stays_joinable_witness :
  log_of (add_user (named_event "c2" "Bea" (Some (KStr "7")))) w_left7 =
    [group_add (KStr "7") "c2"; send "c2" (join_successful "Bea");
     group_send (KStr "7") (show_users ["Bea"])].
Proof.
  refine (proj1 (proj2 (proj2 (proj2 (proj2 (proj2
    (emptied_room_stays_joinable w_room7 (member_event "c1" PyNone PyNone)
       (named_event "c2" "Bea" (Some (KStr "7"))) (KStr "7") room7
       {| GameState.channel_name := "c1"; GameState.username := "Alex";
          GameState.answers := [] |} "Bea" _ _ _ _ _ _ _ _ _)))))));
    [reflexivity | reflexivity | reflexivity | reflexivity | reflexivity
    | reflexivity | discriminate | reflexivity | reflexivity].
Defined.

(** C8 fails: after ["c1"], the only member of room ["7"], has left, a
    join with code ["7"] is not refused with "does not exist"; it
    succeeds. *)
Lemma emptied_room_join_not_refused :
  w_left7 = state_after (remove_user (member_event "c1" PyNone PyNone)) w_room7
  ∧ GameState.get_list_of_users_channels <$> active_games w_room7 !! KStr "7"
    = Some ["c1"]
  ∧ GameState.running <$> active_games w_room7 !! KStr "7" = Some false
  ∧ log_of (add_user (named_event "c2" "Bea" (Some (KStr "7")))) w_left7
    = [group_add (KStr "7") "c2"; send "c2" (join_successful "Bea");
       group_send (KStr "7") (show_users ["Bea"])]
  ∧ log_of (add_user (named_event "c2" "Bea" (Some (KStr "7")))) w_left7
    ≠ [send "c2" (error "Game with code 7 does not exist")].
Proof. split_and!; [reflexivity.. | discriminate]. Qed.

(** *** The end of a round *)

Lemma count_user_score_total (u : GameState.user) :
  GameState.count_user_score u = total_score u.
Proof.
  unfold GameState.count_user_score, total_score.
  assert (∀ qs acc,
            foldl (λ acc q, acc + GameState.score q) acc qs
            = acc + foldr Z.add 0 (GameState.score <$> qs)) as Hgen.
    { induction qs as [|q qs IH]; intros acc; simpl; [lia |].
    rewrite IH. unfold fmap. lia. }
  by rewrite Hgen.
Qed.

Lemma without_players_lookup (players : gmap string pykey)
    (channels : list string) (c : string) :
  without_players players channels !! c =
    if decide (c ∈ channels) then None else players !! c.
Proof.
  unfold without_players. revert players.
  induction channels as [|d channels IH]; intros players; simpl.
  - done.
  - rewrite IH. destruct (decide (c = d)) as [-> | Hne].
    + rewrite lookup_delete_eq, (decide_True (P := d ∈ d :: channels))
        by apply list_elem_of_here.
      by case_decide.
    + rewrite lookup_delete_ne by done.
      destruct (decide (c ∈ channels)) as [Hc | Hc].
      * by rewrite decide_True by by apply list_elem_of_further.
      * rewrite decide_False; [done |].
        by intros [? | ?]%elem_of_cons.
Qed.

Lemma remove_players_spec (g : pykey) (us : list GameState.user) :
  ∀ (w : t) (room : GameState.t),
    active_games w !! g = Some room →
    GameState.users room = us →
    NoDup (GameState.channel_name <$> us) →
    (∀ c, c ∈ GameState.channel_name <$> us → current_players w !! c = Some g) →
    remove_players (GameState.channel_name <$> us) w =
      (Ret tt,
       {| active_games := <[g := GameState.with_users room []]> (active_games w);
          current_players :=
            without_players (current_players w) (GameState.channel_name <$> us);
          current_question := current_question w |},
       group_discard g <$> (GameState.channel_name <$> us)).
Proof.
  induction us as [|u us IH]; intros w room Hroom Hus Hnd Hmap; simpl.
  - unfold mret, M_ret, ret. do 2 f_equal.
    assert (GameState.with_users room [] = room) as ->
      by (destruct room; simpl in *; by subst).
    rewrite insert_id by done. by destruct w.
  - apply NoDup_cons in Hnd as [Hu Hnd].
    unfold mbind, M_bind, bind.
    rewrite remove_player_eq, (Hmap (GameState.channel_name u)), Hroom
      by apply list_elem_of_here.
    rewrite (remove_user_member room _ 0%nat u)
      by (unfold GameState.get_user; rewrite Hus; simpl;
          by rewrite bool_decide_true).
    rewrite Hus. simpl.
    erewrite (IH _ (GameState.with_users room us)).
    + simpl. by rewrite insert_insert_eq.
    + simpl. apply lookup_insert_eq.
    + done.
    + done.
    + intros c Hc. simpl. rewrite lookup_delete_ne by (intros <-; done).
      apply Hmap. by apply list_elem_of_further.
Qed.

Lemma run_game_end_spec (w : t) (g : pykey) (room : GameState.t) :
  active_games w !! g = Some room →
  NoDup (GameState.get_list_of_users_channels room) →
  (∀ c, c ∈ GameState.get_list_of_users_channels room →
        current_players w !! c = Some g) →
  run_game_end g w =
    (Ret tt,
     {| active_games := delete g (active_games w);
        current_players :=
          without_players (current_players w)
            (GameState.get_list_of_users_channels room);
        current_question := current_question w |},
     group_send g (game_ended (GameState.get_all_scores room))
       :: (group_discard g <$> GameState.get_list_of_users_channels room)).
Proof.
  intros Hroom Hnd Hmap. unfold run_game_end, _remove_game.
  unfold mbind, M_bind, bind, games_item, emit. rewrite Hroom. simpl.
  rewrite Hroom. simpl.
  unfold GameState.get_list_of_users_channels in *.
  rewrite (remove_players_spec g (GameState.users room) w room) by done.
  unfold pop_game. simpl. rewrite lookup_insert_eq. simpl.
  by rewrite delete_insert_eq, app_nil_r.
Qed.

(** *** The registries stay consistent *)

(** A member has left its room. *)
Lemma consistent_removed (w : t) (g : pykey) (room : GameState.t)
    (c : string) (i : nat) (u : GameState.user) :
  consistent w →
  current_players w !! c = Some g →
  active_games w !! g = Some room →
  GameState.get_user room c = Some (i, u) →
  consistent
    {| active_games :=
         <[g := GameState.with_users room (delete i (GameState.users room))]>
           (active_games w);
       current_players := delete c (current_players w);
       current_question := current_question w |}.
Proof.
  intros Hw Hin Hroom Huser.
  destruct (Hw g room Hroom) as [Hnd Hmap].
  unfold GameState.get_user in Huser.
  apply find_user_lookup in Huser as (_ & Hu & Hc). rewrite Nat.sub_0_r in Hu.
  unfold GameState.get_list_of_users_channels in *.
  assert (c ∉ GameState.channel_name <$> delete i (GameState.users room)) as Hgone.
  { rewrite list_fmap_delete, delete_take_drop.
    rewrite <- (take_drop_middle (GameState.channel_name <$> GameState.users room)
                  i c) in Hnd
      by (by rewrite list_lookup_fmap, Hu; simpl; rewrite Hc).
    apply NoDup_app in Hnd as (_ & Hl & Hr%NoDup_cons).
    intros [H | H]%elem_of_app; [| by destruct Hr].
    apply (Hl c H), list_elem_of_here. }
  intros g0 room0. simpl. destruct (decide (g = g0)) as [<- | Hne].
  - rewrite lookup_insert_eq. intros [= <-].
    unfold GameState.get_list_of_users_channels, GameState.with_users.
    cbn [GameState.users]. split.
    + rewrite list_fmap_delete. by eapply sublist_NoDup, sublist_delete.
    + intros c' Hc'. rewrite lookup_delete_ne by (intros <-; done).
      apply Hmap. rewrite list_fmap_delete in Hc'.
      by eapply elem_of_sublist, sublist_delete.
  - rewrite lookup_insert_ne by done. intros Hroom0.
    destruct (Hw g0 room0 Hroom0) as [Hnd0 Hmap0]. split; [done |].
    intros c' Hc'. rewrite lookup_delete_ne; [by apply Hmap0 |].
    intros <-. apply Hmap0 in Hc'. congruence.
Qed.

(** A channel that is in no room has joined one. *)
Lemma consistent_added (w : t) (g : pykey) (room : GameState.t)
    (c name : string) :
  consistent w →
  current_players w !! c = None →
  active_games w !! g = Some room →
  consistent
    {| active_games :=
         <[g := GameState.with_users room
                  (GameState.users room ++
                     [{| GameState.channel_name := c; GameState.username := name;
                         GameState.answers := [] |}])]>
           (active_games w);
       current_players := <[c := g]> (current_players w);
       current_question := current_question w |}.
Proof.
  intros Hw Hfree Hroom.
  assert (∀ g0 room0, active_games w !! g0 = Some room0 →
            c ∉ GameState.get_list_of_users_channels room0) as Hnowhere.
  { intros g0 room0 Hroom0 Hc. apply (Hw g0 room0 Hroom0) in Hc. congruence. }
  intros g0 room0. simpl. destruct (decide (g = g0)) as [<- | Hne].
  - rewrite lookup_insert_eq. intros [= <-].
    destruct (Hw g room Hroom) as [Hnd Hmap].
    unfold GameState.get_list_of_users_channels, GameState.with_users in *.
    cbn [GameState.users].
    rewrite fmap_app. cbn [fmap list_fmap GameState.channel_name]. split.
    + apply NoDup_app. split_and!; [done | | apply NoDup_singleton].
      intros c' Hc' ->%list_elem_of_singleton. by apply (Hnowhere g room).
    + intros c' [Hc' | ->%list_elem_of_singleton]%elem_of_app.
      * rewrite lookup_insert_ne; [by apply Hmap |].
        intros <-. by apply (Hnowhere g room).
      * apply lookup_insert_eq.
  - rewrite lookup_insert_ne by done. intros Hroom0.
    destruct (Hw g0 room0 Hroom0) as [Hnd0 Hmap0]. split; [done |].
    intros c' Hc'. rewrite lookup_insert_ne; [by apply Hmap0 |].
    intros <-. by apply (Hnowhere g0 room0).
Qed.

(** A room method that keeps the channels of the users. *)
Lemma consistent_updated (w : t) (g : pykey) (room room' : GameState.t) :
  consistent w →
  active_games w !! g = Some room →
  GameState.get_list_of_users_channels room'
  = GameState.get_list_of_users_channels room →
  consistent (with_room w g room').
Proof.
  intros Hw Hroom Hsame g0 room0. unfold with_room. simpl.
  destruct (decide (g = g0)) as [<- | Hne].
  - rewrite lookup_insert_eq. intros [= <-]. rewrite Hsame. by apply Hw.
  - rewrite lookup_insert_ne by done. apply Hw.
Qed.

Global Instance keeps_preorder (I : t → Prop) : PreOrder (keeps I).
Proof.
  split.
  - intros w Hw. exact Hw.
  - intros w1 w2 w3 H12 H23 H1. apply H23, H12, H1.
Qed.

Lemma remove_player_post (c : string) (w : t) :
  consistent w →
  post (_remove_player_from_game c) w
    (λ r w', consistent w' ∧ (r = Ret tt → current_players w' !! c = None)).
Proof.
  intros Hw. unfold post, result_of, state_after. rewrite remove_player_eq.
  destruct (current_players w !! c) as [g|] eqn:Hin; [| done].
  destruct (active_games w !! g) as [room|] eqn:Hroom; [| done].
  destruct (GameState.remove_user room c) as [[[] room']| |] eqn:E; [| done..].
  simpl. apply remove_user_Ret in E as (i & u & us & Huser & Hus & ->).
  unfold GameState.get_user in Huser.
  rewrite (list_remove_found _ _ _ _ _ Huser), Nat.sub_0_r in Hus.
  injection Hus as <-. split.
  - by apply (consistent_removed w g room c i u).
  - intros _. apply lookup_delete_eq.
Qed.

Lemma remove_player_keeps (c : string) :
  preserves (keeps consistent) (_remove_player_from_game c).
Proof. intros w Hw. by destruct (remove_player_post c w Hw). Qed.

Lemma add_player_post (c name : string) (g : pykey) (w : t) :
  consistent w → current_players w !! c = None →
  post (_add_player_to_game c name g) w (λ _ w', consistent w').
Proof.
  intros Hw Hfree. unfold post, result_of, state_after. rewrite add_player_eq.
  destruct (active_games w !! g) as [room|] eqn:Hroom; [| done].
  destruct (GameState.add_user room c name) as [[name' room']| |] eqn:E; [| done..].
  simpl. apply add_user_Ret in E as (_ & ->).
  by apply consistent_added.
Qed.

Lemma call_room_keeps {A} (g : pykey)
    (method : GameState.t → result (A * GameState.t)) :
  (∀ room a room', method room = Ret (a, room') →
     GameState.get_list_of_users_channels room'
     = GameState.get_list_of_users_channels room) →
  preserves (keeps consistent) (call_room g method).
Proof.
  intros Hsame w Hw. unfold state_after. rewrite call_room_eq.
  destruct (active_games w !! g) as [room|] eqn:Hroom; [| done].
  destruct (method room) as [[a room']| |] eqn:E; [| done..].
  simpl. apply (consistent_updated w g room); [done..|]. by apply (Hsame room a).
Qed.

Lemma set_question_keeps (q : asked) : preserves (keeps consistent) (set_question q).
Proof. intros w Hw g room. apply Hw. Qed.

Lemma pop_game_keeps (g : pykey) : preserves (keeps consistent) (pop_game g).
Proof.
  intros w Hw g0 room0. unfold state_after, pop_game.
  destruct (active_games w !! g); simpl; [| apply Hw].
  intros [_ H]%lookup_delete_Some. by apply Hw.
Qed.

Lemma set_game_init_keeps (k : pykey) :
  preserves (keeps consistent) (set_game k (GameState.__init__ k)).
Proof.
  intros w Hw g room. unfold state_after, set_game. simpl.
  destruct (decide (k = g)) as [<- | Hne].
  - rewrite lookup_insert_eq. intros [= <-]. split; [apply NoDup_nil_2 |].
    by intros c Hc%elem_of_nil.
  - rewrite lookup_insert_ne by done. apply Hw.
Qed.

Create HintDb keep.
#[local] Hint Resolve preserves_mret preserves_lift preserves_get preserves_emit
  preserves_send_error preserves_games_item preserves_players_item
  preserves_question_item preserves_new_game_code set_question_keeps
  pop_game_keeps remove_player_keeps set_game_init_keeps : keep.
#[local] Hint Extern 1 (Reflexive (keeps _)) => apply _ : keep.

(** Splits a handler along its binds and branches. *)
Ltac keep :=
  repeat first
    [ progress auto with keep
    | apply call_room_keeps
    | apply preserves_bind; [apply _ | | intros ?]
    | case_match ].

Lemma remove_players_keeps (players : list string) :
  preserves (keeps consistent) (remove_players players).
Proof. induction players as [|p players IH]; simpl; keep. Qed.

Lemma run_game_end_keeps (g : pykey) : preserves (keeps consistent) (run_game_end g).
Proof.
  unfold run_game_end, _remove_game. pose proof remove_players_keeps. keep.
Qed.

Lemma ask_question_keeps (g : pykey) (question : Question.t) (qid : Z) :
  preserves (keeps consistent) (_ask_question g question qid).
Proof. unfold _ask_question. keep. Qed.

Lemma remove_user_keeps (event : Event.t) :
  preserves (keeps consistent) (remove_user event).
Proof. unfold remove_user. keep. Qed.

Lemma submit_answer_keeps (event : Event.t) :
  preserves (keeps consistent) (submit_answer event).
Proof.
  unfold submit_answer. keep.
  all: intros room b room' Hset; by apply set_answer_channels in Hset.
Qed.

Lemma start_game_keeps (event : Event.t) :
  preserves (keeps consistent) (start_game event).
Proof.
  unfold start_game. keep.
  intros room b room' Hst. rewrite start_game_Ret in Hst. by injection Hst as _ <-.
Qed.

Lemma join_keeps (c name : string) (g : pykey) (w : t) :
  consistent w → current_players w !! c = None →
  consistent (state_after (join c name g) w).
Proof.
  intros Hw Hfree. unfold state_after. rewrite join_refused.
  destruct (active_games w !! g) as [room|] eqn:Hroom; [| done].
  destruct (GameState.running room) eqn:Hrun; [done |].
  destruct (join_spec w c name g room Hroom Hrun) as (name' & room' & Hadd & ->).
  simpl. apply add_user_Ret in Hadd as (_ & ->). by apply consistent_added.
Qed.

Lemma add_user_keeps (event : Event.t) :
  preserves (keeps consistent) (add_user event).
Proof.
  intros w Hw.
  destruct (Event.username event) as [name|] eqn:Hname;
    [| by unfold state_after, add_user; rewrite Hname].
  destruct (decide (name = "")) as [-> | Hne];
    [by unfold state_after, add_user; rewrite Hname |].
  destruct (Event.game_code event) as [code|] eqn:Hcode;
    [| unfold state_after, add_user; rewrite Hname, Hcode; by destruct name].
  unfold state_after. rewrite (add_user_eq w event name code) by done.
  destruct (current_players w !! Event.channel_name event) as [g|] eqn:Hin;
    [| by apply join_keeps].
  case_bool_decide; [done |].
  match goal with |- consistent (?m w).1.2 =>
    change (consistent (state_after m w))
  end.
  rewrite state_after_bind.
  destruct (remove_player_post (Event.channel_name event) w Hw) as [Hw1 Hfree].
  destruct (result_of _ w) as [[]| |]; [| done..].
  apply join_keeps; [done | by apply Hfree].
Qed.

Lemma open_game_keeps (c name code : string) :
  preserves (keeps consistent) (open_game c name code).
Proof.
  intros w Hw. unfold open_game.
  rewrite state_after_bind. change (result_of get w) with (Ret w).
  change (state_after get w) with w. cbv beta iota.
  rewrite state_after_bind.
  assert (post (if bool_decide (is_Some (current_players w !! c))
                then _remove_player_from_game c else mret tt) w
            (λ r w', consistent w' ∧ (r = Ret tt → current_players w' !! c = None)))
    as [Hw1 Hfree].
  { case_bool_decide as Hin; [by apply remove_player_post |].
    split; [done |]. intros _. by apply eq_None_not_Some. }
  destruct (result_of _ w) as [[]| |]; [| done..].
  specialize (Hfree eq_refl).
  rewrite state_after_bind.
  change (result_of (set_game _ _) ?w1) with (@Ret unit tt). cbv beta iota.
  pose proof (set_game_init_keeps (KStr code) _ Hw1) as Hw2.
  rewrite state_after_bind.
  pose proof (add_player_post c name (KStr code) _ Hw2 Hfree) as Hw3.
  unfold post in Hw3.
  by destruct (result_of _ _) as [?| |].
Qed.

Lemma create_game_keeps (tape : list Z) (event : Event.t) :
  preserves (keeps consistent) (create_game tape event).
Proof.
  unfold create_game. pose proof open_game_keeps. keep.
Qed.

Lemma run_step_keeps (s : step) : preserves (keeps consistent) (run_step s).
Proof.
  destruct s; simpl.
  - apply create_game_keeps.
  - apply add_user_keeps.
  - apply remove_user_keeps.
  - apply submit_answer_keeps.
  - apply start_game_keeps.
  - unfold run_game_begin. keep.
  - apply ask_question_keeps.
  - apply run_game_end_keeps.
Qed.

(** Every state the worker reaches from its start, through any handlers
    and task stretches in any order, is consistent. *)
Lemma run_steps_consistent (steps : list step) :
  consistent (run_steps steps __init__).
Proof.
  assert (∀ w, consistent w → consistent (run_steps steps w)) as Hgen.
  { induction steps as [|s steps IH]; intros w Hw; simpl; [done |].
    by apply IH, run_step_keeps. }
    apply Hgen. intros g room H. simpl in H. by rewrite lookup_empty in H.
Qed.

(** C10: a join that fails because the code names no room, or a room that
    is running, has already taken the caller out of the room it was in:
    its entry is gone from that room's user list and its mapping is
    deleted, and only then is the error sent; in a consistent state the
    caller is in the user list of no room afterwards. *)
Theorem failed_join_leaves_former_room
    (w : t) (event : Event.t) (name : string) (code former : pykey)
    (room : GameState.t) (i : nat) (u : GameState.user) :
  Event.username event = Some name → name ≠ "" →
  Event.game_code event = Some code →
  current_players w !! Event.channel_name event = Some former →
  former ≠ code →
  active_games w !! former = Some room →
  GameState.get_user room (Event.channel_name event) = Some (i, u) →
  (active_games w !! code = None
   ∨ ∃ target, active_games w !! code = Some target
               ∧ GameState.running target = true) →
  let w' :=
    {| active_games :=
         <[former := GameState.with_users room (delete i (GameState.users room))]>
           (active_games w);
       current_players := delete (Event.channel_name event) (current_players w);
       current_question := current_question w |} in
  add_user event w =
    (Ret tt, w',
     [group_discard former (Event.channel_name event);
      send (Event.channel_name event)
        (error ("Game with code " +:+ format_key code +:+
                match active_games w !! code with
                | None => " does not exist"
                | Some _ => " is running already"
                end))])
    ∧ current_players w' !! Event.channel_name event = None
  ∧ GameState.users room !! i = Some u
  ∧ GameState.channel_name u = Event.channel_name event
  ∧ (consistent w →
     ∀ g0 room0, active_games w' !! g0 = Some room0 →
       Event.channel_name event ∉ GameState.get_list_of_users_channels room0).
Proof.
  intros Hname Hne Hcode Hin Hother Hroom Huser Htarget w'.
  split_and!.
  - rewrite (add_user_eq w event name code) by done.
    rewrite Hin, bool_decide_false by done.
    unfold mbind, M_bind, bind.
    rewrite remove_player_eq, Hin, Hroom, (remove_user_member room _ i u) by done.
    fold w'. rewrite join_refused.
    assert (active_games w' !! code = active_games w !! code) as ->
      by (simpl; by rewrite lookup_insert_ne).
    destruct Htarget as [-> | (target & -> & ->)]; done.
  - simpl. apply lookup_delete_eq.
  - unfold GameState.get_user in Huser.
    apply find_user_lookup in Huser as (_ & Hu & _). by rewrite Nat.sub_0_r in Hu.
    - unfold GameState.get_user in Huser.
    by apply find_user_lookup in Huser as (_ & _ & Hc).
  - intros Hw g0 room0 Hroom0 Hc.
    pose proof (consistent_removed w former room _ i u Hw Hin Hroom Huser) as Hw'.
    apply (Hw' g0 room0 Hroom0) in Hc. simpl in Hc.
    by rewrite lookup_delete_eq in Hc.
Qed.

Lemma failed_join_leaves_former_room_witness :
  add_user (named_event "c1" "Alex" (Some (KStr "9"))) w_two_rooms =
    (Ret tt,
     {| active_games :=
          <[KStr "7" := GameState.with_users room7 []]> (active_games w_two_rooms);
        current_players := delete "c1" (current_players w_two_rooms);
        current_question := None |},
     [group_discard (KStr "7") "c1";
      send "c1" (error "Game with code 9 does not exist")]).
Proof.
  refine (proj1
    (failed_join_leaves_former_room w_two_rooms
       (named_event "c1" "Alex" (Some (KStr "9"))) "Alex" (KStr "9") (KStr "7")
       room7 0%nat
       {| GameState.channel_name := "c1"; GameState.username := "Alex";
          GameState.answers := [] |} _ _ _ _ _ _ _ _));
    [reflexivity | discriminate | reflexivity | reflexivity | discriminate
    | reflexivity | reflexivity | left; reflexivity].
Defined.

(** X15: in a state the worker has reached and in which the room is
    still stored, [run_game_end], the part of [_run_game] after the last
    wait, run with nothing handled at its [await]s, sends the room one
    [game_ended] message whose scores list the users of the room in the
    order of its user list, each with the sum of the scores on record,
    then takes every user out of the registries and pops the room, so
    that its code names no room.  The user list is in join order:
    [add_user] appends to it, [remove_user] takes one entry out and
    [set_answer] changes no name and no position. *)
Theorem run_game_end_scoreboard
    (steps : list step) (g : pykey) (room : GameState.t) :
  let w := run_steps steps __init__ in
  active_games w !! g = Some room →
  let w' := state_after (run_game_end g) w in
  result_of (run_game_end g) w = Ret tt
  ∧ log_of (run_game_end g) w =
      group_send g
        (game_ended
           ((λ u, (GameState.username u, total_score u)) <$> GameState.users room))
      :: (group_discard g <$> GameState.get_list_of_users_channels room)
  ∧ active_games w' = delete g (active_games w)
  ∧ active_games w' !! g = None
  ∧ (∀ c, current_players w' !! c =
          if decide (c ∈ GameState.get_list_of_users_channels room)
          then None else current_players w !! c)
  ∧ (∀ self channel name name' self',
       GameState.add_user self channel name = Ret (name', self') →
       GameState.users self' =
         GameState.users self ++
           [{| GameState.channel_name := channel; GameState.username := name';
               GameState.answers := [] |}])
  ∧ (∀ self channel self',
       GameState.remove_user self channel = Ret (tt, self') →
       ∃ i, GameState.users self' = delete i (GameState.users self))
  ∧ (∀ self channel qid sc first self',
       GameState.set_answer self channel qid sc = Ret (first, self') →
       GameState.get_list_of_usernames self' = GameState.get_list_of_usernames self
       ∧ GameState.get_list_of_users_channels self'
         = GameState.get_list_of_users_channels self).
Proof.
  intros w Hroom w'.
  destruct (run_steps_consistent steps g room Hroom) as [Hnd Hmap].
  pose proof (run_game_end_spec w g room Hroom Hnd Hmap) as Hend.
  unfold w', result_of, log_of, state_after. rewrite Hend. simpl.
  split_and!.
  - done.
  - do 3 f_equal. unfold GameState.get_all_scores.
    apply list_fmap_ext. intros _ u _. by rewrite count_user_score_total.
  - done.
  - apply lookup_delete_eq.
  - intros c. apply without_players_lookup.
  - intros self channel name name' self' Hadd.
    by apply add_user_Ret in Hadd as (_ & ->).
  - intros self channel self' Hrem.
    apply remove_user_Ret in Hrem as (i & u & us & Huser & Hus & ->).
    unfold GameState.get_user in Huser.
    rewrite (list_remove_found _ _ _ _ _ Huser) in Hus. injection Hus as <-.
    by eexists.
  - intros self channel qid sc first self' Hset. split.
    + unfold GameState.set_answer in Hset.
      destruct (GameState.get_user self channel) as [[i u]|] eqn:Huser; [| done].
      destruct (GameState.answered _ _); injection Hset as <- <-; [done |].
      unfold GameState.get_user in Huser.
      apply find_user_lookup in Huser as (_ & Hu & _). rewrite Nat.sub_0_r in Hu.
      unfold GameState.get_list_of_usernames, GameState.with_users.
      cbn [GameState.users]. rewrite list_fmap_insert.
      apply list_insert_id. by rewrite list_lookup_fmap, Hu.
    + by apply set_answer_channels in Hset.
Qed.

Lemma run_game_end_scoreboard_witness :
  log_of (run_game_end (KStr "7")) (run_steps one_question_round __init__) =
    [group_send (KStr "7") (game_ended [("Alex", 10); ("Bea", 0)]);
     group_discard (KStr "7") "c1"; group_discard (KStr "7") "c2"]
  ∧ active_games
      (state_after (run_game_end (KStr "7")) (run_steps one_question_round __init__))
      !! KStr "7" = None.
Proof.
  pose proof (run_game_end_scoreboard one_question_round (KStr "7")
                room7_after_round eq_refl) as (_ & Hlog & _ & Hgone & _).
  split; [exact Hlog | exact Hgone].
Defined.

(** * More on [GameWorker] *)

(** ** Membership *)

(** X5: in every state the worker reaches, a channel is in the user list
    of at most one room, once, and it is mapped to the code of that
    room. *)
Theorem handle_in_one_room
    (steps : list step) (g1 g2 : pykey) (room1 room2 : GameState.t) (c : string) :
  let w := run_steps steps __init__ in
  active_games w !! g1 = Some room1 →
  active_games w !! g2 = Some room2 →
  c ∈ GameState.get_list_of_users_channels room1 →
  c ∈ GameState.get_list_of_users_channels room2 →
  g1 = g2
  ∧ current_players w !! c = Some g1
  ∧ NoDup (GameState.get_list_of_users_channels room1).
Proof.
  intros w Hroom1 Hroom2 Hc1 Hc2.
  destruct (run_steps_consistent steps g1 room1 Hroom1) as [Hnd1 Hmap1].
  destruct (run_steps_consistent steps g2 room2 Hroom2) as [_ Hmap2].
  apply Hmap1 in Hc1. apply Hmap2 in Hc2.
  split_and!; [| done | done].
  fold w in Hc1, Hc2. congruence.
Qed.

Lemma handle_in_one_room_witness :
  KStr "7" = KStr "7"
  ∧ current_players (run_steps one_question_round __init__) !! "c2" = Some (KStr "7")
  ∧ NoDup (GameState.get_list_of_users_channels room7_after_round).
Proof.
  apply (handle_in_one_room one_question_round (KStr "7") (KStr "7")
           room7_after_round room7_after_round "c2");
    [reflexivity | reflexivity | |];
    apply list_elem_of_further, list_elem_of_here.
Defined.

(** ** Room codes *)

Lemma new_game_code_Ret (games : gmap pykey GameState.t) (tape : list Z)
    (code : string) :
  new_game_code games tape = Ret code →
  ∃ c, c ∈ tape ∧ code = str c ∧ games !! KInt c = None.
Proof.
  induction tape as [|c tape IH]; simpl; [done |].
  destruct (games !! KInt c) eqn:E.
  - intros (c' & Hc' & Hcode)%IH. exists c'. split; [| done].
    by apply list_elem_of_further.
  - intros [= <-]. exists c. split; [apply list_elem_of_here | done].
Qed.

Global Instance same_code_preorder : PreOrder same_code.
Proof.
  split.
  - by intros room.
  - intros r1 r2 r3 H12 H23. unfold same_code in *. congruence.
Qed.

Lemma run_step_code (s : step) (w : t) (g : pykey) (room' : GameState.t) :
  active_games (state_after (run_step s) w) !! g = Some room' →
  (∃ room, active_games w !! g = Some room ∧ same_code room room')
  ∨ (∃ tape event code,
       s = Create tape event
       ∧ new_game_code (active_games w) tape = Ret code ∧ g = KStr code
       ∧ same_code (GameState.__init__ g) room').
Proof.
  apply (run_step_descends same_code); unfold same_code.
  - intros r c name name' r' Hadd. by apply add_user_Ret in Hadd as (_ & ->).
  - intros r c r' Hrem.
    by apply remove_user_Ret in Hrem as (i & u & us & _ & _ & ->).
  - intros r c qid sc first r' Hset. by apply set_answer_Ret in Hset as [us ->].
  - intros r started r' Hst. rewrite start_game_Ret in Hst.
    by injection Hst as _ <-.
Qed.

Lemma keyspace_NoDup : NoDup keyspace.
Proof.
  unfold keyspace. apply NoDup_fmap_2; [| apply NoDup_seq].
  intros n m [= H]. unfold str in H. apply (inj pretty) in H. lia.
Qed.

(** X6: as long as the samples are values of [randint(0, 99)], every room
    the worker stores sits under the string of one of them, so under one
    of the hundred keys ["0"] to ["99"], its [code] field is that key,
    and the worker never holds more than a hundred rooms. *)
Theorem rooms_in_keyspace (steps : list step) :
  tapes_in_range steps →
  let w := run_steps steps __init__ in
  (∀ g room, active_games w !! g = Some room →
     (∃ c, 0 ≤ c ≤ 99 ∧ g = KStr (str c)) ∧ GameState.code room = g)
  ∧ (size (active_games w) ≤ 100)%nat.
Proof.
  intros Hrange w.
  assert (∀ g room, active_games w !! g = Some room →
            (∃ c, 0 ≤ c ≤ 99 ∧ g = KStr (str c)) ∧ GameState.code room = g)
    as Hkeys.
  { unfold w. clear w. revert Hrange.
    assert (∀ w0,
              (∀ g room, active_games w0 !! g = Some room →
                 (∃ c, 0 ≤ c ≤ 99 ∧ g = KStr (str c)) ∧ GameState.code room = g) →
              tapes_in_range steps →
              ∀ g room, active_games (run_steps steps w0) !! g = Some room →
                (∃ c, 0 ≤ c ≤ 99 ∧ g = KStr (str c)) ∧ GameState.code room = g)
      as Hgen.
    { induction steps as [|s steps IH]; intros w0 Hw0 Hrange; simpl; [done |].
      apply IH.
      - intros g room' Hroom'.
        apply run_step_code in Hroom'
          as [(room & Hroom & Hcode)
             | (tape & event & code & -> & Hnew & -> & Hcode)].
        + destruct (Hw0 g room Hroom) as [Hc Hg]. split; [done |].
          unfold same_code in Hcode. congruence.
        + apply new_game_code_Ret in Hnew as (c & Hc & -> & _). split; [| done].
          exists c. split; [| done].
          apply (Hrange tape event c); [apply list_elem_of_here | done].
      - intros tape event c Hin Hc.
        apply (Hrange tape event c); [by apply list_elem_of_further | done]. }
    intros Hrange. apply Hgen; [| done].
    intros g room H. simpl in H. by rewrite lookup_empty in H. }
  split; [done |].
  rewrite <- (size_dom (D := gset pykey)).
  transitivity (size (list_to_set keyspace : gset pykey)).
  - apply subseteq_size. intros g [room Hroom]%elem_of_dom.
    apply elem_of_list_to_set. destruct (Hkeys g room Hroom) as [(c & Hc & ->) _].
    unfold keyspace. apply list_elem_of_fmap. exists (Z.to_nat c).
    split; [by rewrite Z2Nat.id by lia |]. apply elem_of_seq. lia.
  - rewrite size_list_to_set by apply keyspace_NoDup.
    unfold keyspace. by rewrite length_fmap, length_seq.
Qed.

Lemma rooms_in_keyspace_witness :
  (∀ g room,
     active_games (run_steps one_question_round __init__) !! g = Some room →
     (∃ c, 0 ≤ c ≤ 99 ∧ g = KStr (str c)) ∧ GameState.code room = g)
  ∧ (size (active_games (run_steps one_question_round __init__)) ≤ 100)%nat.
Proof.
  apply (rooms_in_keyspace one_question_round).
  intros tape event c Hin Hc.
  assert (tape = [7]) as ->.
  { unfold one_question_round in Hin.
    repeat (apply elem_of_cons in Hin as [Hin | Hin]; [by simplify_eq |]).
    by apply elem_of_nil in Hin. }
  apply list_elem_of_singleton in Hc as ->. lia.
Defined.

(** ** What every stored room satisfies *)

(** A property of rooms that [__init__] establishes and the four mutating
    methods keep, [set_answer] for the two scores the worker passes, holds
    of every room in every state the worker reaches. *)
Section roomwise.
Variable P : GameState.t → Prop.
Hypothesis P_init : ∀ k, P (GameState.__init__ k).
Hypothesis P_add_user : ∀ room c name name' room',
  P room → GameState.add_user room c name = Ret (name', room') → P room'.
Hypothesis P_remove_user : ∀ room c room',
  P room → GameState.remove_user room c = Ret (tt, room') → P room'.
Hypothesis P_set_answer : ∀ room c qid sc first room',
  P room → sc = 0 ∨ sc = 10 →
  GameState.set_answer room c qid sc = Ret (first, room') → P room'.
Hypothesis P_start_game : ∀ room started room',
  P room → GameState.start_game room = Ret (started, room') → P room'.

Lemma roomwise_update (w : t) (g : pykey) (room' : GameState.t)
    (players : gmap string pykey) (q : option asked) :
  roomwise P w → P room' →
  roomwise P
    {| active_games := <[g := room']> (active_games w);
       current_players := players; current_question := q |}.
Proof.
  intros Hw Hroom' g0 room0. simpl. destruct (decide (g = g0)) as [<- | Hne].
  - rewrite lookup_insert_eq. by intros [= <-].
  - rewrite lookup_insert_ne by done. apply Hw.
Qed.

Lemma call_room_roomwise {A} (g : pykey)
    (method : GameState.t → result (A * GameState.t)) :
  (∀ room a room', P room → method room = Ret (a, room') → P room') →
  preserves (keeps (roomwise P)) (call_room g method).
Proof.
  intros HP w Hw. unfold state_after. rewrite call_room_eq.
  destruct (active_games w !! g) as [room|] eqn:Hroom; [| done].
  destruct (method room) as [[a room']| |] eqn:Hm; [| done..].
  simpl. apply roomwise_update; [done |]. apply (HP room a); [by apply (Hw g) | done].
Qed.

Lemma remove_player_roomwise (c : string) :
  preserves (keeps (roomwise P)) (_remove_player_from_game c).
Proof.
  intros w Hw. unfold state_after. rewrite remove_player_eq.
  destruct (current_players w !! c) as [g|]; [| done].
  destruct (active_games w !! g) as [room|] eqn:Hroom; [| done].
  destruct (GameState.remove_user room c) as [[[] room']| |] eqn:Hrem; [| done..].
  simpl. apply roomwise_update; [done |].
  apply (P_remove_user room c); [by apply (Hw g) | done].
Qed.

Lemma add_player_roomwise (c name : string) (g : pykey) :
  preserves (keeps (roomwise P)) (_add_player_to_game c name g).
Proof.
  intros w Hw. unfold state_after. rewrite add_player_eq.
  destruct (active_games w !! g) as [room|] eqn:Hroom; [| done].
  destruct (GameState.add_user room c name) as [[name' room']| |] eqn:Hadd;
    [| done..].
  simpl. apply roomwise_update; [done |].
  apply (P_add_user room c name name'); [by apply (Hw g) | done].
Qed.

Lemma set_game_init_roomwise (k : pykey) :
  preserves (keeps (roomwise P)) (set_game k (GameState.__init__ k)).
Proof. intros w Hw. by apply roomwise_update. Qed.

Lemma set_question_roomwise (q : asked) :
  preserves (keeps (roomwise P)) (set_question q).
Proof. intros w Hw g room. apply Hw. Qed.

Lemma pop_game_roomwise (g : pykey) : preserves (keeps (roomwise P)) (pop_game g).
Proof.
  intros w Hw g0 room0. unfold state_after, pop_game.
  destruct (active_games w !! g); simpl; [| apply Hw].
  intros [_ H]%lookup_delete_Some. by apply (Hw g0).
Qed.

Create HintDb roomwise.
#[local] Hint Resolve preserves_mret preserves_lift preserves_get preserves_emit
  preserves_send_error preserves_games_item preserves_players_item
  preserves_question_item preserves_new_game_code set_question_roomwise
  pop_game_roomwise remove_player_roomwise add_player_roomwise
  set_game_init_roomwise : roomwise.
#[local] Hint Extern 1 (Reflexive (keeps _)) => apply _ : roomwise.

(** Splits a handler along its binds and branches. *)
Ltac roomwise :=
  repeat first
    [ progress auto with roomwise
    | apply call_room_roomwise
    | apply preserves_bind; [apply _ | | intros ?]
    | case_match ].

Lemma remove_players_roomwise (players : list string) :
  preserves (keeps (roomwise P)) (remove_players players).
Proof. induction players as [|p players IH]; simpl; roomwise. Qed.

Lemma run_step_roomwise (s : step) : preserves (keeps (roomwise P)) (run_step s).
Proof.
  pose proof remove_players_roomwise.
  destruct s; simpl.
  - unfold create_game, open_game. roomwise.
  - unfold add_user, join. roomwise.
  - unfold remove_user. roomwise.
  - unfold submit_answer. roomwise.
    all: intros room b room' Hroom Hset;
      eapply P_set_answer; [exact Hroom | | exact Hset]; auto.
  - unfold start_game. roomwise.
  - unfold run_game_begin. roomwise.
  - unfold _ask_question. roomwise.
  - unfold run_game_end, _remove_game. roomwise.
Qed.

Lemma run_steps_roomwise (steps : list step) :
  roomwise P (run_steps steps __init__).
Proof.
  assert (∀ w, roomwise P w → roomwise P (run_steps steps w)) as Hgen.
  { induction steps as [|s steps IH]; intros w Hw; simpl; [done |].
    by apply IH, run_step_roomwise. }
  apply Hgen. intros g room H. simpl in H. by rewrite lookup_empty in H.
Qed.

End roomwise.

Lemma answered_spec (qs : list GameState.answer) (qid : Z) :
  GameState.answered qs qid = true ↔ qid ∈ GameState.question_id <$> qs.
Proof.
  induction qs as [|q qs IH]; simpl.
  - split; [done | by intros ?%elem_of_nil].
  - case_bool_decide as Hq.
    + split; [intros _; subst; apply list_elem_of_here | done].
    + rewrite IH, elem_of_cons. split; [by right | by intros [? | ?]].
Qed.

Lemma append_answer_sound (u : GameState.user) (qid sc : Z) :
  answers_sound u → GameState.answered (GameState.answers u) qid = false →
  sc = 0 ∨ sc = 10 →
  answers_sound (GameState.append_answer u qid sc).
Proof.
  intros [Hnd Hsc] Hnew Hscore. unfold answers_sound, GameState.append_answer.
  simpl. split.
  - rewrite fmap_app. apply NoDup_app. split_and!; [done | | apply NoDup_singleton].
    intros x Hx ->%list_elem_of_singleton.
    apply answered_spec in Hx. simpl in Hx. congruence.
  - intros a [Ha | ->%list_elem_of_singleton]%elem_of_app; [by apply Hsc | done].
Qed.

Lemma run_steps_answers_sound (steps : list step) :
  roomwise room_answers_sound (run_steps steps __init__).
Proof.
  apply run_steps_roomwise; unfold room_answers_sound.
  - intros k u Hu. by apply elem_of_nil in Hu.
  - intros room c name name' room' Hroom Hadd u.
    apply add_user_Ret in Hadd as (_ & ->). simpl.
    intros [Hu | ->%list_elem_of_singleton]%elem_of_app; [by apply Hroom |].
    split; [apply NoDup_nil_2 | by intros a Ha%elem_of_nil].
  - intros room c room' Hroom Hrem u.
    apply remove_user_Ret in Hrem as (i & v & us & Huser & Hus & ->).
    unfold GameState.get_user in Huser.
    rewrite (list_remove_found _ _ _ _ _ Huser) in Hus. injection Hus as <-.
    simpl. intros Hu. apply Hroom. by eapply elem_of_sublist, sublist_delete.
  - intros room c qid sc first room' Hroom Hsc Hset u.
    unfold GameState.set_answer in Hset.
    destruct (GameState.get_user room c) as [[i v]|] eqn:Huser; [| done].
    destruct (GameState.answered (GameState.answers v) qid) eqn:Hans;
      injection Hset as <- <-; [apply Hroom |].
    simpl. intros (j & Hj)%list_elem_of_lookup.
    unfold GameState.get_user in Huser.
    apply find_user_lookup in Huser as (_ & Hv & _). rewrite Nat.sub_0_r in Hv.
    apply list_lookup_insert_Some in Hj as [(_ & <- & _) | (_ & Hj)].
    + apply append_answer_sound; [| done..].
      apply Hroom, list_elem_of_lookup. by exists i.
    + apply Hroom, list_elem_of_lookup. by exists j.
  - intros room started room' Hroom Hst. rewrite start_game_Ret in Hst.
    by injection Hst as _ <-.
Qed.

Lemma total_score_bounds (u : GameState.user) :
  (∀ a, a ∈ GameState.answers u → GameState.score a = 0 ∨ GameState.score a = 10) →
  0 ≤ total_score u ≤ 10 * Z.of_nat (length (GameState.answers u)).
Proof.
  unfold total_score. induction (GameState.answers u) as [|a qs IH]; simpl; [lia |].
  intros Hsc. destruct (Hsc a) as [Ha | Ha]; [apply list_elem_of_here | |];
    (destruct IH as [? ?];
     [intros b Hb; apply Hsc; by apply list_elem_of_further |]);
    unfold fmap in *; lia.
Qed.

(** X7: in every state the worker reaches, every user of every room has at
    most one answer on record for a question, every score on record is 0
    or 10, and the user's total is between 0 and ten times the number of
    its answers. *)
Theorem answers_stay_sound
    (steps : list step) (g : pykey) (room : GameState.t) (u : GameState.user) :
  let w := run_steps steps __init__ in
  active_games w !! g = Some room →
  u ∈ GameState.users room →
  NoDup (GameState.question_id <$> GameState.answers u)
  ∧ (∀ a, a ∈ GameState.answers u →
          GameState.score a = 0 ∨ GameState.score a = 10)
  ∧ 0 ≤ GameState.count_user_score u
      ≤ 10 * Z.of_nat (length (GameState.answers u)).
Proof.
  intros w Hroom Hu.
  destruct (run_steps_answers_sound steps g room Hroom u Hu) as [Hnd Hsc].
  split_and!; [done | done | |];
    rewrite count_user_score_total; by apply total_score_bounds.
Qed.

Lemma answers_stay_sound_witness :
  NoDup [0]
  ∧ (∀ a, a ∈ [{| GameState.question_id := 0; GameState.score := 10 |}] →
          GameState.score a = 0 ∨ GameState.score a = 10)
  ∧ 0 ≤ 10 ≤ 10 * 1.
Proof.
  apply (answers_stay_sound one_question_round (KStr "7") room7_after_round
           {| GameState.channel_name := "c1"; GameState.username := "Alex";
              GameState.answers :=
                [{| GameState.question_id := 0; GameState.score := 10 |}] |});
    [reflexivity | apply list_elem_of_here].
Defined.

(** ** What [submit_answer] can do *)

Lemma submit_answer_cases (w : t) (event : Event.t) :
  let c := Event.channel_name event in
  (∃ msg, submit_answer event w = (Ret tt, w, [send c (error msg)]))
  ∨ (∃ e, submit_answer event w = (Raise e, w, []))
  ∨ submit_answer event w = (Ret tt, w, [])
  ∨ (∃ g room room' q sc right,
       current_players w !! c = Some g
       ∧ active_games w !! g = Some room
       ∧ current_question w = Some q
       ∧ GameState.set_answer room c (id q) sc = Ret (true, room')
       ∧ submit_answer event w =
           (Ret tt, with_room w g room', [send c (question_end (id q) right)])).
Proof.
  intros c. unfold c.
  destruct (current_players w !! Event.channel_name event) as [g|] eqn:Hin;
    [| left; eexists; unfold submit_answer; by mrun].
  destruct (int (Event.question_id event)) as [qid|] eqn:Hqid;
    [| left; eexists; unfold submit_answer; by mrun].
  destruct (current_question w) as [q|] eqn:Hq;
    [| right; left; eexists; unfold submit_answer; by mrun].
  destruct (decide (qid = id q)) as [-> | Hne].
  2:{ left. unfold submit_answer. mrun.
      rewrite (bool_decide_true (qid ≠ id q)) by done.
      destruct (_ && _); by eexists. }
  destruct (int (Event.answer event)) as [answer|] eqn:Hans.
  2:{ left. eexists. unfold submit_answer. mrun.
      rewrite (bool_decide_false (id q ≠ id q)) by (intros ?; done). by mrun. }
  destruct (active_games w !! g) as [room|] eqn:Hroom.
  2:{ right; left. eexists. unfold submit_answer. mrun.
      rewrite (bool_decide_false (id q ≠ id q)) by (intros ?; done). by mrun. }
  destruct (GameState.get_user room (Event.channel_name event)) as [[i u]|] eqn:Huser.
  2:{ right; left. eexists. unfold submit_answer. mrun.
      rewrite (bool_decide_false (id q ≠ id q)) by (intros ?; done). mrun.
      unfold GameState.set_answer. rewrite Huser. by mrun. }
  rewrite (submit_answer_current w event g room i u q answer) by done.
  destruct (GameState.answered (GameState.answers u) (id q)) eqn:Hrep;
    [by right; right; left |].
  right; right; right. eexists g, room, _, q, _, _.
  split_and!; [done | done | done | | done].
  unfold GameState.set_answer. by rewrite Huser, Hrep.
Qed.

(** X8: whatever the event, [submit_answer] talks to nobody but the
    submitter, leaves [current_players] and [current_question] as they
    are, touches no room but the submitter's, and in that room changes no
    name, no channel, no position and neither the code nor the running
    flag. *)
Theorem submit_answer_frame (w : t) (event : Event.t) :
  let w' := state_after (submit_answer event) w in
  (∀ e, e ∈ log_of (submit_answer event) w →
        ∃ m, e = send (Event.channel_name event) m)
  ∧ (length (log_of (submit_answer event) w) ≤ 1)%nat
  ∧ current_players w' = current_players w
  ∧ current_question w' = current_question w
  ∧ (∀ g, current_players w !! Event.channel_name event ≠ Some g →
          active_games w' !! g = active_games w !! g)
  ∧ (∀ g room', active_games w' !! g = Some room' →
       ∃ room, active_games w !! g = Some room
               ∧ GameState.get_list_of_usernames room'
                 = GameState.get_list_of_usernames room
               ∧ GameState.get_list_of_users_channels room'
                 = GameState.get_list_of_users_channels room
               ∧ GameState.code room' = GameState.code room
               ∧ GameState.running room' = GameState.running room).
Proof.
  intros w'. unfold w', state_after, log_of.
  destruct (submit_answer_cases w event)
    as [[msg ->] | [[e ->] | [-> | (g & room & room' & q & sc & right
                                   & Hin & Hroom & Hq & Hset & ->)]]]; simpl.
  - split_and!; [| done..|].
    + intros e ->%list_elem_of_singleton. by eexists.
    + intros g room' H. by exists room'.
  - split_and!; [| lia | done..|].
    + by intros e0 ?%elem_of_nil.
    + intros g room' H. by exists room'.
  - split_and!; [| lia | done..|].
    + by intros e0 ?%elem_of_nil.
    + intros g room' H. by exists room'.
  - split_and!; [| done..| |].
    + intros e ->%list_elem_of_singleton. by eexists.
    + intros g0 Hg0. rewrite lookup_insert_ne; [done |]. by intros <-.
    + intros g0 room0. destruct (decide (g = g0)) as [<- | Hne].
      * rewrite lookup_insert_eq. intros [= <-]. exists room.
        split_and!; [done | | | |].
        -- by apply set_answer_usernames in Hset.
        -- by apply set_answer_channels in Hset.
        -- by apply set_answer_Ret in Hset as [us ->].
        -- by apply set_answer_Ret in Hset as [us ->].
      * rewrite lookup_insert_ne by done. intros H. by exists room0.
Qed.

(** X9: the order of the checks of [submit_answer].  A channel that is in
    no room is told so whatever it sends.  For a channel in a room, an id
    that does not parse is a wrong question id whether or not a question
    has been asked; an id that parses is compared with the current
    question before the answer is looked at: when no question has been
    asked the handler raises [TypeError], and when the id is not the
    current one the reply is "Question already ended" or "Wrong question
    id", whatever the answer.  An answer that does not parse is reported
    when the id is the current one, and only then.  None of the
    rejections changes the state. *)
Theorem submit_answer_rejections (w : t) (event : Event.t) :
  let c := Event.channel_name event in
  (current_players w !! c = None →
   submit_answer event w = (Ret tt, w, [send c (error "You are not in a game")]))
  ∧ (is_Some (current_players w !! c) →
     int (Event.question_id event) = None →
     submit_answer event w = (Ret tt, w, [send c (error "Wrong question id")]))
  ∧ (∀ qid, is_Some (current_players w !! c) →
            int (Event.question_id event) = Some qid →
            current_question w = None →
            submit_answer event w = (Raise TypeError, w, []))
  ∧ (∀ q qid, is_Some (current_players w !! c) →
              int (Event.question_id event) = Some qid →
              current_question w = Some q →
              qid ≠ id q →
              submit_answer event w
              = (Ret tt, w,
                 [send c (error (if bool_decide (0 ≤ qid < id q)
                                 then "Question already ended"
                                 else "Wrong question id"))]))
  ∧ (∀ q, is_Some (current_players w !! c) →
          current_question w = Some q →
          int (Event.question_id event) = Some (id q) →
          int (Event.answer event) = None →
          submit_answer event w
          = (Ret tt, w, [send c (error "Wrong answer format")]))
  ∧ (send c (error "Wrong answer format") ∈ log_of (submit_answer event) w →
     is_Some (current_players w !! c)
     ∧ ∃ q, current_question w = Some q
            ∧ int (Event.question_id event) = Some (id q)
            ∧ int (Event.answer event) = None).
Proof.
  intros c. unfold c.
  assert (∀ q qid, is_Some (current_players w !! Event.channel_name event) →
            int (Event.question_id event) = Some qid →
            current_question w = Some q →
            qid ≠ id q →
            submit_answer event w
            = (Ret tt, w,
               [send (Event.channel_name event)
                  (error (if bool_decide (0 ≤ qid < id q)
                          then "Question already ended"
                          else "Wrong question id"))])) as Hother.
  { intros q qid [g Hin] Hqid Hq Hne. unfold submit_answer. mrun.
    rewrite (bool_decide_true (qid ≠ id q)) by done.
    repeat case_bool_decide; simpl; done || lia. }
  split_and!.
  - intros Hin. unfold submit_answer. by mrun.
  - intros [g Hin] Hqid. unfold submit_answer. by mrun.
  - intros qid Hin Hqid Hq. by apply (submit_answer_no_question w event qid).
  - exact Hother.
  - intros q [g Hin] Hq Hqid Hans. unfold submit_answer. mrun.
    rewrite (bool_decide_false (id q ≠ id q)) by (intros ?; done). by mrun.
  - unfold log_of.
    destruct (current_players w !! Event.channel_name event) as [g|] eqn:Hin.
    2:{ unfold submit_answer. mrun.
        intros [=]%list_elem_of_singleton. }
    destruct (int (Event.question_id event)) as [qid|] eqn:Hqid.
    2:{ unfold submit_answer. mrun.
        intros [=]%list_elem_of_singleton. }
    destruct (current_question w) as [q|] eqn:Hq.
    2:{ rewrite (submit_answer_no_question w event qid) by (done || by eexists).
        by intros ?%elem_of_nil. }
    destruct (decide (qid = id q)) as [-> | Hne].
    2:{ rewrite (Hother q qid) by (done || by eexists). simpl.
        intros Hmsg%list_elem_of_singleton.
        case_bool_decide; discriminate Hmsg. }
    destruct (int (Event.answer event)) as [answer|] eqn:Hans.
    2:{ intros _. split; [by eexists |]. by exists q. }
    destruct (active_games w !! g) as [room|] eqn:Hroom.
    2:{ unfold submit_answer. mrun.
        rewrite (bool_decide_false (id q ≠ id q)) by (intros ?; done). mrun.
        by intros ?%elem_of_nil. }
    destruct (GameState.get_user room (Event.channel_name event)) as [[i u]|] eqn:Huser.
    2:{ unfold submit_answer. mrun.
        rewrite (bool_decide_false (id q ≠ id q)) by (intros ?; done). mrun.
        unfold GameState.set_answer. rewrite Huser. mrun.
        by intros ?%elem_of_nil. }
    rewrite (submit_answer_current w event g room i u q answer) by done.
    destruct (GameState.answered (GameState.answers u) (id q)); simpl.
    + by intros ?%elem_of_nil.
    + intros [=]%list_elem_of_singleton.
Qed.

Lemma submit_answer_rejections_witness :
  submit_answer (member_event "c1" (PyStr "two") (PyInt 1)) w_room7
  = (Ret tt, w_room7, [send "c1" (error "Wrong question id")])
  ∧ submit_answer (member_event "c9" (PyInt 0) (PyInt 1)) w_room7
    = (Ret tt, w_room7, [send "c9" (error "You are not in a game")])
  ∧ submit_answer (member_event "c1" (PyInt 0) (PyStr "b")) w_room7
    = (Raise TypeError, w_room7, [])
  ∧ submit_answer (member_event "c1" (PyInt 5) (PyStr "b")) w_first_question
    = (Ret tt, w_first_question, [send "c1" (error "Wrong question id")])
  ∧ submit_answer (member_event "c1" (PyInt 1) (PyStr "b")) w_third_question
    = (Ret tt, w_third_question, [send "c1" (error "Question already ended")])
  ∧ submit_answer (member_event "c1" (PyInt 0) (PyStr "b")) w_first_question
    = (Ret tt, w_first_question, [send "c1" (error "Wrong answer format")]).
Proof.
  split_and!.
  - refine (proj1 (proj2 (submit_answer_rejections w_room7 _)) _ _);
      [by eexists | reflexivity].
  - refine (proj1 (submit_answer_rejections w_room7 _) _); reflexivity.
  - refine (proj1 (proj2 (proj2 (submit_answer_rejections w_room7 _))) 0 _ _ _);
      [by eexists | reflexivity..].
  - refine (proj1 (proj2 (proj2 (proj2
              (submit_answer_rejections w_first_question _))))
              {| id := 0; correct_answer := 1 |} 5 _ _ _ _);
      [by eexists | reflexivity | reflexivity | discriminate].
  - refine (proj1 (proj2 (proj2 (proj2
              (submit_answer_rejections w_third_question _))))
              {| id := 2; correct_answer := 3 |} 1 _ _ _ _);
      [by eexists | reflexivity | reflexivity | discriminate].
  - refine (proj1 (proj2 (proj2 (proj2 (proj2
              (submit_answer_rejections w_first_question _)))))
              {| id := 0; correct_answer := 1 |} _ _ _ _);
      [by eexists | reflexivity..].
Defined.

(** ** A whole round *)

Lemma ask_questions_eq (g : pykey) (questions : list Question.t) :
  ∀ (i : Z) (w : t),
    ask_questions g questions i w =
      (Ret tt,
       {| active_games := active_games w;
          current_players := current_players w;
          current_question := last_asked (current_question w) questions i |},
       asking_log g questions i).
Proof.
  induction questions as [|q questions IH]; intros i w; simpl.
  - unfold mret, M_ret, ret. by destruct w.
  - unfold mbind, M_bind, bind. rewrite ask_question_eq, IH. done.
Qed.

Lemma asked_ids_asking_log (g : pykey) (questions : list Question.t) :
  ∀ i, asked_ids (asking_log g questions i)
       = (λ k : nat, i + Z.of_nat k) <$> seq 0 (length questions).
Proof.
  unfold asked_ids.
  induction questions as [|q questions IH]; intros i; simpl; [done |].
  rewrite IH. f_equal; [f_equal; lia |].
  rewrite <- fmap_S_seq, <- list_fmap_compose.
  apply list_fmap_ext. intros _ k _. simpl. lia.
Qed.

Lemma waited_asking_log (g : pykey) (questions : list Question.t) :
  ∀ i, waited (asking_log g questions i) = 10 * Z.of_nat (length questions).
Proof.
  unfold waited.
  induction questions as [|q questions IH]; intros i; simpl; [done |].
  rewrite IH. unfold QUESTION_LENGTH. lia.
Qed.

(** X10: a round that runs from its start to its end with nothing in
    between announces the game, asks the first three questions of the
    shuffled table (all of them when there are fewer), numbered from 0 in
    that order, and waits ten seconds after each.  When the room is still
    stored, in a state the worker has reached, it then sends the scores
    and dissolves the room; when no room is stored under the code, the
    questions are asked all the same, the worker's current question is
    overwritten, and the task ends in a [KeyError] without a scoreboard. *)
Theorem run_game_whole (steps : list step) (shuffled : list Question.t) (g : pykey) :
  let w := run_steps steps __init__ in
  let questions := take 3 shuffled in
  let log := log_of (_run_game shuffled g) w in
  asked_ids log = Z.of_nat <$> seq 0 (3 `min` length shuffled)
  ∧ waited log = 10 * Z.of_nat (3 `min` length shuffled)
  ∧ current_question (state_after (_run_game shuffled g) w)
    = last_asked (current_question w) questions 0
  ∧ match active_games w !! g with
    | Some room =>
        result_of (_run_game shuffled g) w = Ret tt
        ∧ log = group_send g game_started
                :: asking_log g questions 0
                ++ group_send g (game_ended (GameState.get_all_scores room))
                :: (group_discard g <$> GameState.get_list_of_users_channels room)
        ∧ active_games (state_after (_run_game shuffled g) w)
          = delete g (active_games w)
    | None =>
        result_of (_run_game shuffled g) w = Raise KeyError
        ∧ log = group_send g game_started :: asking_log g questions 0
        ∧ active_games (state_after (_run_game shuffled g) w) = active_games w
    end.
Proof.
  intros w questions log.
  assert (_run_game shuffled g w =
          match active_games w !! g with
          | Some room =>
              (Ret tt,
               {| active_games := delete g (active_games w);
                  current_players :=
                    without_players (current_players w)
                      (GameState.get_list_of_users_channels room);
                  current_question := last_asked (current_question w) questions 0 |},
               group_send g game_started
               :: asking_log g questions 0
               ++ group_send g (game_ended (GameState.get_all_scores room))
               :: (group_discard g <$> GameState.get_list_of_users_channels room))
          | None =>
              (Raise KeyError,
               {| active_games := active_games w;
                  current_players := current_players w;
                  current_question := last_asked (current_question w) questions 0 |},
               group_send g game_started :: asking_log g questions 0)
          end) as Hrun.
  { unfold _run_game, run_game_begin, _get_random_questions.
    unfold mbind at 1 2, M_bind at 1 2, bind at 1 2. unfold emit at 1.
    rewrite ask_questions_eq. fold questions.
    destruct (active_games w !! g) as [room|] eqn:Hroom.
    - destruct (run_steps_consistent steps g room Hroom) as [Hnd Hmap].
      erewrite (run_game_end_spec _ g room); [done | done | done | done].
    - unfold run_game_end, mbind, M_bind, bind, games_item. simpl.
      rewrite Hroom. by rewrite app_nil_r. }
  unfold log, log_of, state_after, result_of. rewrite Hrun.
  assert (length questions = (3 `min` length shuffled)%nat) as Hlen
    by apply length_take.
  assert (∀ chans : list string, asked_ids (group_discard g <$> chans) = [])
    as Hids by (by induction chans).
  assert (∀ chans : list string, waited (group_discard g <$> chans) = 0)
    as Hwait by (by induction chans).
  assert (∀ l1 l2, waited (l1 ++ l2) = waited l1 + waited l2) as Hwapp.
  { intros l1 l2. unfold waited.
    induction l1 as [|e l1 IH]; [done |]. simpl. rewrite IH.
    destruct e; lia. }
  destruct (active_games w !! g) as [room|]; cbn [fst snd].
  - split_and!; [| | done | done | done | done].
    + change (asked_ids (group_send g game_started :: ?l)) with (asked_ids l).
      unfold asked_ids at 1. rewrite omap_app. fold (asked_ids (asking_log g questions 0)).
      change (omap asked_id (group_send g ?m :: ?l)) with (asked_ids l).
      rewrite Hids, app_nil_r, asked_ids_asking_log, Hlen.
      apply list_fmap_ext. intros _ k _. lia.
    + change (waited (group_send g game_started :: ?l)) with (waited l).
      rewrite Hwapp.
      change (waited (group_send g ?m :: ?l)) with (waited l).
      rewrite Hwait, waited_asking_log, Hlen. lia.
  - split_and!; [| | done | done | done | done].
    + change (asked_ids (group_send g game_started :: ?l)) with (asked_ids l).
      rewrite asked_ids_asking_log, Hlen.
      apply list_fmap_ext. intros _ k _. lia.
    + change (waited (group_send g game_started :: ?l)) with (waited l).
      by rewrite waited_asking_log, Hlen.
Qed.

(** ** Leaving a room *)

Lemma filter_other_channels (us : list GameState.user) (c : string) :
  c ∉ GameState.channel_name <$> us →
  filter (λ v, GameState.channel_name v ≠ c) us = us.
Proof.
  induction us as [|v us IH]; [done |].
  rewrite fmap_cons. intros [Hv Hus]%not_elem_of_cons.
  rewrite filter_cons_True by done. by rewrite IH.
Qed.

Lemma find_user_delete (us : list GameState.user) (c : string)
    (k i : nat) (u : GameState.user) :
  GameState.find_user us c k = Some (i, u) →
  NoDup (GameState.channel_name <$> us) →
  delete (i - k)%nat us = filter (λ v, GameState.channel_name v ≠ c) us.
Proof.
  revert k. induction us as [|v us IH]; intros k; simpl; [done |].
  rewrite NoDup_cons. case_bool_decide as Hv.
  - intros [= <- <-] [Hnin _]. rewrite Nat.sub_diag. simpl.
    rewrite filter_cons_False by (intros ?; done).
    rewrite filter_other_channels; [done | by rewrite <- Hv].
  - intros H [_ Hnd].
    pose proof (find_user_lookup _ _ _ _ _ H) as (Hle & _ & _).
    replace (i - k)%nat with (S (i - S k)) by lia. simpl.
    rewrite filter_cons_True by (intros ?; done). by rewrite (IH _ H Hnd).
Qed.

(** X11: in a state the worker has reached, a member that leaves its room
    is taken out of the room and out of the registry of players and gets
    no message; the other members keep their order and their answers, the
    other rooms and the other players' entries are untouched, the room
    stays stored even when it is left empty, the handle is in no room
    afterwards, and leaving once more only earns the error
    ["You are not in a game"]. *)
Theorem leave_then_leave_again (steps : list step) (event : Event.t)
    (g : pykey) (room : GameState.t) :
  let w := run_steps steps __init__ in
  let c := Event.channel_name event in
  let w' := state_after (remove_user event) w in
  current_players w !! c = Some g →
  active_games w !! g = Some room →
  c ∈ GameState.get_list_of_users_channels room →
  result_of (remove_user event) w = Ret tt
  ∧ log_of (remove_user event) w = [group_discard g c]
  ∧ current_players w' = delete c (current_players w)
  ∧ active_games w' =
      <[g := GameState.with_users room
               (filter (λ v, GameState.channel_name v ≠ c) (GameState.users room))]>
        (active_games w)
  ∧ current_question w' = current_question w
  ∧ (∀ g' room', active_games w' !! g' = Some room' →
       c ∉ GameState.get_list_of_users_channels room')
  ∧ remove_user event w' = (Ret tt, w', [send c (error "You are not in a game")]).
Proof.
  intros w c w' Hin Hroom Hmem.
  destruct (run_steps_consistent steps g room Hroom) as [Hnd _].
  destruct (GameState.get_user room c) as [[i u]|] eqn:Huser; last first.
  { exfalso. unfold GameState.get_user in Huser.
    by apply find_user_None in Huser. }
  pose proof (remove_user_spec w event g room i u Hin Hroom Huser) as Hleave.
  unfold GameState.get_user in Huser.
  pose proof (find_user_delete _ _ _ _ _ Huser Hnd) as Hdel.
  rewrite Nat.sub_0_r in Hdel. rewrite Hdel in Hleave.
  unfold w', result_of, log_of, state_after in *. rewrite Hleave in *. simpl in *.
  split_and!; [done | done | done | done | done | |].
  - intros g' room'. destruct (decide (g' = g)) as [-> | Hne].
    + rewrite lookup_insert_eq. intros [= <-].
      unfold GameState.get_list_of_users_channels, GameState.with_users. simpl.
      intros (v & Hv & Hfil)%list_elem_of_fmap.
      apply list_elem_of_filter in Hfil as [Hfil _]. by apply Hfil.
    + rewrite lookup_insert_ne by done. intros Hroom' Hc.
      destruct (run_steps_consistent steps g' room' Hroom') as [_ Hmap].
      apply Hmap in Hc. fold w in Hc. fold c in Hc. congruence.
  - unfold remove_user. unfold_monad. cbn [current_players].
    by rewrite lookup_delete_eq.
Qed.

Lemma leave_then_leave_again_witness :
  GameState.get_list_of_users_channels <$>
    active_games
      (state_after (remove_user (member_event "c1" PyNone PyNone))
         (run_steps alex_and_bea __init__)) !! KStr "7"
  = Some ["c2"]
  ∧ remove_user (member_event "c1" PyNone PyNone)
      (state_after (remove_user (member_event "c1" PyNone PyNone))
         (run_steps alex_and_bea __init__))
    = (Ret tt,
       state_after (remove_user (member_event "c1" PyNone PyNone))
         (run_steps alex_and_bea __init__),
       [send "c1" (error "You are not in a game")]).
Proof.
  destruct (leave_then_leave_again alex_and_bea (member_event "c1" PyNone PyNone)
              (KStr "7") room7_alex_and_bea)
    as (_ & _ & _ & Hgames & _ & _ & Hagain);
    [reflexivity | reflexivity | apply list_elem_of_here |].
  split; [| exact Hagain].
  exact (f_equal (λ games, GameState.get_list_of_users_channels <$> games !! KStr "7")
           Hgames).
Defined.

(** ** Opening a room *)

(** X12: in a state the worker has reached, [create_game] by a handle
    that is in no room, or is a member of the room it is mapped to, with a
    username that is not empty, returns on the first sample [c0] of
    [random.randint]: under [str(c0)] it stores a room that is not running
    and whose only member is the caller, under exactly the requested
    name; the caller is mapped to that room, has left its former room
    (whose other members keep their order), and is told the code last;
    every room other than the new and the former one is untouched. *)
Theorem create_game_opens_room (steps : list step) (event : Event.t)
    (name : string) (c0 : Z) (tape : list Z) :
  let w := run_steps steps __init__ in
  let c := Event.channel_name event in
  let k := KStr (str c0) in
  let w' := state_after (create_game (c0 :: tape) event) w in
  Event.username event = Some name →
  name ≠ "" →
  (∀ g, current_players w !! c = Some g →
        ∃ room, active_games w !! g = Some room
                ∧ c ∈ GameState.get_list_of_users_channels room) →
  result_of (create_game (c0 :: tape) event) w = Ret tt
  ∧ log_of (create_game (c0 :: tape) event) w
    = match current_players w !! c with
      | Some g => [group_discard g c]
      | None => []
      end ++ [group_add k c; send c (game_created (str c0))]
  ∧ active_games w' !! k
    = Some {| GameState.code := k;
              GameState.users :=
                [{| GameState.channel_name := c; GameState.username := name;
                    GameState.answers := [] |}];
              GameState.running := false |}
  ∧ current_players w' = <[c := k]> (current_players w)
  ∧ current_question w' = current_question w
  ∧ (∀ g room, current_players w !! c = Some g → g ≠ k →
       active_games w !! g = Some room →
       active_games w' !! g
       = Some (GameState.with_users room
                 (filter (λ v, GameState.channel_name v ≠ c) (GameState.users room))))
  ∧ (∀ g, g ≠ k → current_players w !! c ≠ Some g →
       active_games w' !! g = active_games w !! g).
Proof.
  intros w c k w' Hname Hne Hmem.
  assert (new_game_code (active_games w) (c0 :: tape) = Ret (str c0)) as Hcode.
  { apply new_game_code_first. by apply (str_keys_run_steps steps __init__). }
  destruct name as [|a name]; [done |].
  assert (GameState.add_user (GameState.__init__ k) c (String a name)
          = Ret (String a name,
                 {| GameState.code := k;
                    GameState.users :=
                      [{| GameState.channel_name := c;
                          GameState.username := String a name;
                          GameState.answers := [] |}];
                    GameState.running := false |})) as Hadd by done.
  destruct (current_players w !! c) as [g|] eqn:Hg.
  - destruct (Hmem g eq_refl) as (room & Hroom & Hc).
    destruct (run_steps_consistent steps g room Hroom) as [Hnd _].
    destruct (GameState.get_user room c) as [[i u]|] eqn:Huser; last first.
    { exfalso. unfold GameState.get_user in Huser.
      by apply find_user_None in Huser. }
    pose proof (remove_user_member room c i u Huser) as Hrem.
    unfold GameState.get_user in Huser.
    pose proof (find_user_delete _ _ _ _ _ Huser Hnd) as Hdel.
    rewrite Nat.sub_0_r in Hdel. rewrite Hdel in Hrem.
    assert (create_game (c0 :: tape) event w =
            (Ret tt,
             {| active_games :=
                  <[k := {| GameState.code := k;
                            GameState.users :=
                              [{| GameState.channel_name := c;
                                  GameState.username := String a name;
                                  GameState.answers := [] |}];
                            GameState.running := false |}]>
                    (<[g := GameState.with_users room
                              (filter (λ v, GameState.channel_name v ≠ c)
                                 (GameState.users room))]> (active_games w));
                current_players := <[c := k]> (current_players w);
                current_question := current_question w |},
             [group_discard g c; group_add k c; send c (game_created (str c0))]))
      as Hrun.
    { unfold create_game, _get_new_game_code, open_game.
      unfold mbind at 1, M_bind at 1, bind at 1. rewrite Hcode, Hname.
      unfold mbind at 1, M_bind at 1, bind at 1, get at 1. cbv beta iota.
      fold c. rewrite Hg. rewrite bool_decide_true by by eexists.
      unfold mbind at 1, M_bind at 1, bind at 1.
      rewrite remove_player_eq. fold c. rewrite Hg, Hroom, Hrem.
      unfold mbind at 1, M_bind at 1, bind at 1, set_game at 1. cbv beta iota.
      unfold mbind at 1, M_bind at 1, bind at 1.
      rewrite add_player_eq. cbn [active_games current_players current_question].
      fold k. rewrite lookup_insert_eq, Hadd.
      unfold emit. cbn [active_games current_players current_question].
      by rewrite insert_insert_eq, insert_delete_eq. }
    unfold w', result_of, log_of, state_after. rewrite Hrun.
    cbn [fst snd active_games current_players current_question].
    split_and!; [done | done | by rewrite lookup_insert_eq | done | done | |].
    + intros g' room' [= <-] Hgk Hroom'.
      rewrite lookup_insert_ne by done. rewrite lookup_insert_eq. congruence.
    + intros g' Hg'k Hg'. rewrite !lookup_insert_ne; [done | congruence | done].
  - assert (create_game (c0 :: tape) event w =
            (Ret tt,
             {| active_games :=
                  <[k := {| GameState.code := k;
                            GameState.users :=
                              [{| GameState.channel_name := c;
                                  GameState.username := String a name;
                                  GameState.answers := [] |}];
                            GameState.running := false |}]> (active_games w);
                current_players := <[c := k]> (current_players w);
                current_question := current_question w |},
             [group_add k c; send c (game_created (str c0))])) as Hrun.
    { unfold create_game, _get_new_game_code, open_game.
      unfold mbind at 1, M_bind at 1, bind at 1. rewrite Hcode, Hname.
      unfold mbind at 1, M_bind at 1, bind at 1, get at 1. cbv beta iota.
      fold c. rewrite Hg. rewrite bool_decide_false by by intros [? ?].
      unfold mbind at 1, M_bind at 1, bind at 1, mret at 1, M_ret at 1, ret at 1.
      cbv beta iota.
      unfold mbind at 1, M_bind at 1, bind at 1, set_game at 1. cbv beta iota.
      unfold mbind at 1, M_bind at 1, bind at 1.
      rewrite add_player_eq. cbn [active_games current_players current_question].
      fold k. rewrite lookup_insert_eq, Hadd.
      unfold emit. cbn [active_games current_players current_question].
      by rewrite insert_insert_eq. }
    unfold w', result_of, log_of, state_after. rewrite Hrun.
    cbn [fst snd active_games current_players current_question].
    split_and!; [done | done | by rewrite lookup_insert_eq | done | done | done |].
    intros g' Hg'k _. by rewrite lookup_insert_ne.
Qed.

Lemma create_game_opens_room_witness :
  log_of (create_game [8] (named_event "c1" "Alex" None)) w_room7
  = [group_discard (KStr "7") "c1"; group_add (KStr "8") "c1";
     send "c1" (game_created "8")]
  ∧ GameState.get_list_of_users_channels <$>
      active_games
        (state_after (create_game [8] (named_event "c1" "Alex" None)) w_room7)
        !! KStr "8"
    = Some ["c1"]
  ∧ GameState.get_list_of_users_channels <$>
      active_games
        (state_after (create_game [8] (named_event "c1" "Alex" None)) w_room7)
        !! KStr "7"
    = Some [].
Proof.
  destruct (create_game_opens_room [Create [7] (named_event "c1" "Alex" None)]
              (named_event "c1" "Alex" None) "Alex" 8 [])
    as (_ & Hlog & Hnew & _ & _ & Hold & _).
  - reflexivity.
  - discriminate.
  - intros g Hg. exists room7.
    assert (g = KStr "7") as -> by (vm_compute in Hg; congruence).
    split; [reflexivity | apply list_elem_of_here].
  - split_and!.
    + exact Hlog.
    + exact (f_equal (fmap GameState.get_list_of_users_channels) Hnew).
    + assert (KStr "7" ≠ KStr (str 8)) as Hne by (vm_compute; discriminate).
      exact (f_equal (fmap GameState.get_list_of_users_channels)
               (Hold (KStr "7") room7 eq_refl Hne eq_refl)).
Defined.

(** ** Joining a room *)

(** X13: in a state the worker has reached, [add_user] with a username
    that is not empty, for a room that exists, is not running and is not
    the caller's own, by a handle that is in no room or is a member of the
    room it is mapped to: the caller leaves its former room, is appended
    to the users of the room as the last one, with the name [add_user]
    settles on and no answers, and is mapped to the room; it is told its
    name, and then the room is sent the usernames in joining order, the
    new one last. *)
Theorem add_user_moves (steps : list step) (event : Event.t)
    (name : string) (code : pykey) (room : GameState.t) :
  let w := run_steps steps __init__ in
  let c := Event.channel_name event in
  let w' := state_after (add_user event) w in
  Event.username event = Some name →
  name ≠ "" →
  Event.game_code event = Some code →
  active_games w !! code = Some room →
  GameState.running room = false →
  current_players w !! c ≠ Some code →
  (∀ g, current_players w !! c = Some g →
        ∃ old, active_games w !! g = Some old
               ∧ c ∈ GameState.get_list_of_users_channels old) →
  ∃ name',
    GameState.new_username room name = Ret name'
    ∧ result_of (add_user event) w = Ret tt
    ∧ log_of (add_user event) w
      = match current_players w !! c with
        | Some g => [group_discard g c]
        | None => []
        end
        ++ [group_add code c; send c (join_successful name');
            group_send code
              (show_users (GameState.get_list_of_usernames room ++ [name']))]
    ∧ active_games w' !! code
      = Some (GameState.with_users room
                (GameState.users room
                 ++ [{| GameState.channel_name := c; GameState.username := name';
                        GameState.answers := [] |}]))
    ∧ current_players w' = <[c := code]> (current_players w)
    ∧ current_question w' = current_question w
    ∧ (∀ g old, current_players w !! c = Some g →
         active_games w !! g = Some old →
         active_games w' !! g
         = Some (GameState.with_users old
                   (filter (λ v, GameState.channel_name v ≠ c) (GameState.users old))))
    ∧ (∀ g, g ≠ code → current_players w !! c ≠ Some g →
         active_games w' !! g = active_games w !! g).
Proof.
  intros w c w' Hname Hne Hcode Hroom Hrun Hother Hmem.
  pose proof (add_user_eq w event name code Hname Hne Hcode) as Heq. fold c in Heq.
  destruct (current_players w !! c) as [g|] eqn:Hg.
  - rewrite bool_decide_false in Heq by congruence.
    destruct (Hmem g eq_refl) as (old & Hold & Hc).
    destruct (run_steps_consistent steps g old Hold) as [Hnd _].
    destruct (GameState.get_user old c) as [[i u]|] eqn:Huser; last first.
    { exfalso. unfold GameState.get_user in Huser.
      by apply find_user_None in Huser. }
    pose proof (remove_user_member old c i u Huser) as Hrem.
    unfold GameState.get_user in Huser.
    pose proof (find_user_delete _ _ _ _ _ Huser Hnd) as Hdel.
    rewrite Nat.sub_0_r in Hdel. rewrite Hdel in Hrem.
    assert (g ≠ code) as Hgc by congruence.
    unfold mbind at 1, M_bind at 1, bind at 1 in Heq.
    rewrite remove_player_eq, Hg, Hold, Hrem in Heq.
    destruct (join_spec
                {| active_games :=
                     <[g := GameState.with_users old
                              (filter (λ v, GameState.channel_name v ≠ c)
                                 (GameState.users old))]> (active_games w);
                   current_players := delete c (current_players w);
                   current_question := current_question w |}
                c name code room) as (name' & room' & Hadd & Hjoin);
      [cbn [active_games]; by rewrite lookup_insert_ne | done |].
    apply add_user_Ret in Hadd as [Hnew ->].
    rewrite Hjoin in Heq. cbn [active_games current_players current_question] in Heq.
    exists name'. unfold w', result_of, log_of, state_after. rewrite Heq.
    cbn [fst snd active_games current_players current_question].
    unfold GameState.get_list_of_usernames, GameState.with_users.
    cbn [GameState.users]. rewrite fmap_app.
    split_and!; [done | done | done | by rewrite lookup_insert_eq
                | by rewrite insert_delete_eq | done | |].
    + intros g' old' [= <-] Hold'.
      rewrite lookup_insert_ne by done. rewrite lookup_insert_eq. congruence.
    + intros g' Hg'c Hg'. rewrite !lookup_insert_ne; [done | congruence | done].
  - destruct (join_spec w c name code room Hroom Hrun)
      as (name' & room' & Hadd & Hjoin).
    apply add_user_Ret in Hadd as [Hnew ->].
    rewrite Hjoin in Heq.
    exists name'. unfold w', result_of, log_of, state_after. rewrite Heq.
    cbn [fst snd active_games current_players current_question].
    unfold GameState.get_list_of_usernames, GameState.with_users.
    cbn [GameState.users]. rewrite fmap_app.
    split_and!; [done | done | done | by rewrite lookup_insert_eq
                | done | done | done |].
    intros g' Hg'c _. by rewrite lookup_insert_ne.
Qed.

Lemma add_user_moves_witness :
  log_of (add_user (named_event "c1" "Bea" (Some (KStr "8")))) w_two_rooms
  = [group_discard (KStr "7") "c1"; group_add (KStr "8") "c1";
     send "c1" (join_successful "Bea #2");
     group_send (KStr "8") (show_users ["Bea"; "Bea #2"])]
  ∧ GameState.get_list_of_users_channels <$>
      active_games
        (state_after (add_user (named_event "c1" "Bea" (Some (KStr "8"))))
           w_two_rooms) !! KStr "7"
    = Some [].
Proof.
  destruct (add_user_moves two_creations
              (named_event "c1" "Bea" (Some (KStr "8"))) "Bea" (KStr "8") room8)
    as (name' & Hnew & _ & Hlog & _ & _ & _ & Hold & _).
  - reflexivity.
  - discriminate.
  - reflexivity.
  - reflexivity.
  - reflexivity.
  - vm_compute. discriminate.
  - intros g Hg. exists room7.
    assert (g = KStr "7") as -> by (vm_compute in Hg; congruence).
    split; [reflexivity | apply list_elem_of_here].
  - assert (name' = "Bea #2") as -> by (vm_compute in Hnew; congruence).
    split; [exact Hlog |].
    exact (f_equal (fmap GameState.get_list_of_users_channels)
             (Hold (KStr "7") room7 eq_refl eq_refl)).
Defined.

(** ** Handlers at the [await]s of the end of a round *)

Section awaiting.
Variable p : string.

Lemma remove_player_awaited (w : t) :
  awaiting_discard p w →
  state_after (_remove_player_from_game p) w = w.
Proof.
  intros [[g Hg] Hout]. unfold state_after. rewrite remove_player_eq, Hg.
  destruct (active_games w !! g) as [room|] eqn:Hroom; [| done].
  assert (GameState.remove_user room p = Raise ValueError) as ->; [| done].
  unfold GameState.remove_user, GameState.get_user.
  by rewrite (proj2 (find_user_None _ _ _) (Hout g room Hroom)).
Qed.

Lemma awaiting_update (w : t) (g : pykey) (room room' : GameState.t)
    (players : gmap string pykey) (q : option asked) :
  awaiting_discard p w →
  is_Some (players !! p) →
  active_games w !! g = Some room →
  GameState.get_list_of_users_channels room'
    ⊆ GameState.get_list_of_users_channels room →
  awaiting_discard p
    {| active_games := <[g := room']> (active_games w);
       current_players := players; current_question := q |}.
Proof.
  intros [_ Hout] Hin Hroom Hsub. split; [done |].
  intros g0 room0. simpl. destruct (decide (g = g0)) as [<- | Hne].
  - rewrite lookup_insert_eq. intros [= <-] Hp. by apply (Hout g room), Hsub.
  - rewrite lookup_insert_ne by done. apply Hout.
Qed.

Lemma remove_player_awaiting (c : string) :
  c ≠ p → preserves (keeps (awaiting_discard p)) (_remove_player_from_game c).
Proof.
  intros Hc w Hw. unfold state_after. rewrite remove_player_eq.
  destruct (current_players w !! c) as [g|] eqn:Hin; [| done].
  destruct (active_games w !! g) as [room|] eqn:Hroom; [| done].
  destruct (GameState.remove_user room c) as [[[] room']| |] eqn:E; [| done..].
  simpl. apply remove_user_Ret in E as (i & u & us & Huser & Hus & ->).
  unfold GameState.get_user in Huser.
  rewrite (list_remove_found _ _ _ _ _ Huser), Nat.sub_0_r in Hus.
  injection Hus as <-.
  apply (awaiting_update w g room); [done | | done |].
  - rewrite lookup_delete_ne by done. apply Hw.
  - unfold GameState.get_list_of_users_channels, GameState.with_users.
    cbn [GameState.users]. rewrite list_fmap_delete.
    intros x Hx. by eapply elem_of_sublist, sublist_delete.
Qed.

Lemma add_player_awaiting (c name : string) (g : pykey) :
  c ≠ p → preserves (keeps (awaiting_discard p)) (_add_player_to_game c name g).
Proof.
  intros Hc w Hw. unfold state_after. rewrite add_player_eq.
  destruct (active_games w !! g) as [room|] eqn:Hroom; [| done].
  destruct (GameState.add_user room c name) as [[name' room']| |] eqn:E; [| done..].
  simpl. apply add_user_Ret in E as (_ & ->).
  destruct Hw as [Hin Hout]. split.
  - simpl. by rewrite lookup_insert_ne.
  - intros g0 room0. simpl. destruct (decide (g = g0)) as [<- | Hne].
    + rewrite lookup_insert_eq. intros [= <-].
      unfold GameState.get_list_of_users_channels, GameState.with_users.
      cbn [GameState.users]. rewrite fmap_app.
      intros [Hp | Hp%list_elem_of_singleton]%elem_of_app.
      * by apply (Hout g room).
      * simpl in Hp. congruence.
    + rewrite lookup_insert_ne by done. apply Hout.
Qed.

Lemma call_room_awaiting {A} (g : pykey)
    (method : GameState.t → result (A * GameState.t)) :
  (∀ room a room', method room = Ret (a, room') →
     GameState.get_list_of_users_channels room'
     = GameState.get_list_of_users_channels room) →
  preserves (keeps (awaiting_discard p)) (call_room g method).
Proof.
  intros Hsame w Hw. unfold state_after. rewrite call_room_eq.
  destruct (active_games w !! g) as [room|] eqn:Hroom; [| done].
  destruct (method room) as [[a room']| |] eqn:E; [| done..].
  simpl. apply (awaiting_update w g room); [done | apply Hw | done |].
  by rewrite (Hsame room a room').
Qed.

Lemma set_question_awaiting (q : asked) :
  preserves (keeps (awaiting_discard p)) (set_question q).
Proof. intros w Hw. exact Hw. Qed.

Lemma pop_game_awaiting (g : pykey) :
  preserves (keeps (awaiting_discard p)) (pop_game g).
Proof.
  intros w [Hin Hout]. unfold state_after, pop_game.
  destruct (active_games w !! g); simpl; [| done].
  split; [done |]. intros g0 room0. simpl.
  intros [_ H]%lookup_delete_Some. by apply (Hout g0).
Qed.

Lemma set_game_init_awaiting (k : pykey) :
  preserves (keeps (awaiting_discard p)) (set_game k (GameState.__init__ k)).
Proof.
  intros w [Hin Hout]. split; [done |].
  intros g room. unfold state_after, set_game. simpl.
  destruct (decide (k = g)) as [<- | Hne].
  - rewrite lookup_insert_eq. intros [= <-]. apply not_elem_of_nil.
  - rewrite lookup_insert_ne by done. apply Hout.
Qed.

Create HintDb awaiting.
#[local] Hint Resolve preserves_mret preserves_lift preserves_get preserves_emit
  preserves_send_error preserves_games_item preserves_players_item
  preserves_question_item preserves_new_game_code set_question_awaiting
  pop_game_awaiting remove_player_awaiting add_player_awaiting
  set_game_init_awaiting : awaiting.
#[local] Hint Extern 1 (Reflexive (keeps _)) => apply _ : awaiting.

(** Splits a handler along its binds and branches. *)
Ltac awaiting :=
  repeat first
    [ progress auto with awaiting
    | apply call_room_awaiting
    | apply preserves_bind; [apply _ | | intros ?]
    | case_match ].

Lemma remove_players_awaiting (players : list string) :
  p ∉ players →
  preserves (keeps (awaiting_discard p)) (remove_players players).
Proof.
  induction players as [|c players IH]; simpl; [awaiting |].
  intros [Hc Hp]%not_elem_of_cons. specialize (IH Hp). awaiting.
Qed.

Lemma remove_game_awaiting (g : pykey) :
  preserves (keeps (awaiting_discard p)) (_remove_game g).
Proof.
  intros w Hw. unfold _remove_game. rewrite state_after_bind.
  unfold result_of, state_after at 2 3, games_item.
  destruct (active_games w !! g) as [room|] eqn:Hroom; [| done].
  cbn [fst snd].
  pose proof (remove_players_awaiting
                (GameState.get_list_of_users_channels room)
                (proj2 Hw g room Hroom)).
  assert (preserves (keeps (awaiting_discard p))
            (remove_players (GameState.get_list_of_users_channels room);;
             pop_game g)) as Hrest by awaiting.
  by apply Hrest.
Qed.

(** No handler and no stretch of a round puts the channel back into a
    room or takes it out of [current_players]: what the channel itself
    asks for fails where its room is to forget it. *)
Lemma run_step_awaiting (s : step) :
  preserves (keeps (awaiting_discard p)) (run_step s).
Proof.
  pose proof remove_game_awaiting.
  destruct s as [tape event|event|event|event|event|g|g question qid|g]; simpl.
  - destruct (decide (Event.channel_name event = p)) as [Hp | Hp].
    + intros w Hw. unfold create_game. rewrite state_after_bind.
      change (state_after (_get_new_game_code tape) w) with w.
      destruct (result_of (_get_new_game_code tape) w) as [code| |]; [| done..].
      destruct (Event.username event) as [[|a name]|]; [done | | done].
      unfold open_game. rewrite state_after_bind.
      change (result_of get w) with (Ret w). change (state_after get w) with w.
      cbv beta iota. rewrite state_after_bind, Hp.
      rewrite bool_decide_true by apply Hw.
      rewrite remove_player_awaited by done.
      assert (result_of (_remove_player_from_game p) w ≠ Ret tt) as Hfail.
      { destruct Hw as [[g Hg] Hout]. unfold result_of.
        rewrite remove_player_eq, Hg.
        destruct (active_games w !! g) as [room|] eqn:Hroom; [| done].
        unfold GameState.remove_user, GameState.get_user.
        by rewrite (proj2 (find_user_None _ _ _) (Hout g room Hroom)). }
      by destruct (result_of (_remove_player_from_game p) w) as [[]| |].
    + unfold create_game, open_game. awaiting.
  - destruct (decide (Event.channel_name event = p)) as [Hp | Hp].
    + intros w Hw. unfold add_user.
      destruct (Event.username event) as [[|a name]|]; [done | | done].
      destruct (Event.game_code event) as [code|]; [| done].
      rewrite state_after_bind.
      change (result_of get w) with (Ret w). change (state_after get w) with w.
      cbv beta iota. rewrite Hp.
      destruct Hw as [[g Hg] Hout]. rewrite Hg.
      case_bool_decide; [done |].
      rewrite state_after_bind, remove_player_awaited by (split; [by eexists | done]).
      assert (result_of (_remove_player_from_game p) w ≠ Ret tt) as Hfail.
      { unfold result_of. rewrite remove_player_eq, Hg.
        destruct (active_games w !! g) as [room|] eqn:Hroom; [| done].
        unfold GameState.remove_user, GameState.get_user.
        by rewrite (proj2 (find_user_None _ _ _) (Hout g room Hroom)). }
      destruct (result_of (_remove_player_from_game p) w) as [[]| |];
        [done | by split; [eexists |] ..].
    + unfold add_user, join. awaiting.
  - destruct (decide (Event.channel_name event = p)) as [Hp | Hp].
    + intros w Hw. unfold remove_user. rewrite state_after_bind.
      change (result_of get w) with (Ret w). change (state_after get w) with w.
      cbv beta iota. rewrite Hp, bool_decide_true by apply Hw.
      by rewrite remove_player_awaited.
    + unfold remove_user. awaiting.
  - unfold submit_answer. awaiting.
    all: intros room b room' Hset; by apply set_answer_channels in Hset.
  - unfold start_game. awaiting.
    intros room b room' Hst. rewrite start_game_Ret in Hst. by injection Hst as _ <-.
  - unfold run_game_begin. awaiting.
  - unfold _ask_question. awaiting.
  - unfold run_game_end. awaiting.
Qed.

End awaiting.

Lemma meanwhile_state (steps : list step) :
  ∀ w, state_after (meanwhile steps) w = run_steps steps w.
Proof.
  induction steps as [|s steps IH]; intros w; [done |].
  change (run_steps (s :: steps) w)
    with (run_steps steps (state_after (run_step s) w)).
  rewrite <- IH. cbn [meanwhile]. unfold state_after.
  destruct (run_step s w) as [[r1 w1] l1]. cbn [fst snd].
  by destruct (meanwhile steps w1) as [[r2 w2] l2].
Qed.

Lemma meanwhile_result (steps : list step) :
  ∀ w, result_of (meanwhile steps) w = Ret tt.
Proof.
  induction steps as [|s steps IH]; intros w; [done |].
  cbn [meanwhile]. unfold result_of.
  destruct (run_step s w) as [[r1 w1] l1]. specialize (IH w1).
  unfold result_of in IH.
  by destruct (meanwhile steps w1) as [[r2 w2] l2].
Qed.

Lemma run_steps_keeps (I : t → Prop) (steps : list step) :
  (∀ s, preserves (keeps I) (run_step s)) →
  ∀ w, I w → I (run_steps steps w).
Proof.
  intros Hstep. induction steps as [|s steps IH]; intros w Hw; [done |].
  by apply IH, Hstep.
Qed.

Lemma meanwhile_keeps (I : t → Prop) (steps : list step) :
  (∀ s, preserves (keeps I) (run_step s)) →
  preserves (keeps I) (meanwhile steps).
Proof. intros Hstep w Hw. rewrite meanwhile_state. by apply run_steps_keeps. Qed.

(** Up to the [await], the room forgets the user: the registries still
    agree, and the channel waits to be taken out of [current_players]. *)
Lemma remove_player_until_await_post (p : string) (w : t) :
  consistent w →
  post (remove_player_until_await p) w
    (λ r w', consistent w' ∧ (r = Ret tt → awaiting_discard p w')).
Proof.
  intros Hw. unfold post, result_of, state_after, remove_player_until_await.
  unfold mbind, M_bind, bind, players_item, emit.
  destruct (current_players w !! p) as [g|] eqn:Hin; [| done].
  rewrite call_room_eq.
  destruct (active_games w !! g) as [room|] eqn:Hroom; [| done].
  destruct (GameState.remove_user room p) as [[[] room']| |] eqn:E; [| done..].
  cbn [fst snd with_room current_players]. rewrite Hin. cbn [fst snd].
  apply remove_user_Ret in E as (i & u & us & Huser & Hus & ->).
  unfold GameState.get_user in Huser.
  rewrite (list_remove_found _ _ _ _ _ Huser), Nat.sub_0_r in Hus.
  injection Hus as <-.
  destruct (Hw g room Hroom) as [Hnd Hmap].
  pose proof (find_user_lookup _ _ _ _ _ Huser) as (_ & Hu & Hc).
  rewrite Nat.sub_0_r in Hu.
  unfold GameState.get_list_of_users_channels in *.
  assert (p ∉ GameState.channel_name <$> delete i (GameState.users room)) as Hgone.
  { rewrite list_fmap_delete, delete_take_drop.
    rewrite <- (take_drop_middle (GameState.channel_name <$> GameState.users room)
                  i p) in Hnd
      by (by rewrite list_lookup_fmap, Hu; simpl; rewrite Hc).
    apply NoDup_app in Hnd as (_ & Hl & Hr%NoDup_cons).
    intros [H | H]%elem_of_app; [| by destruct Hr].
    apply (Hl p H), list_elem_of_here. }
  split.
  - intros g0 room0. simpl. destruct (decide (g = g0)) as [<- | Hne].
    + rewrite lookup_insert_eq. intros [= <-].
      unfold GameState.get_list_of_users_channels, GameState.with_users.
      cbn [GameState.users]. rewrite list_fmap_delete. split.
      * by eapply sublist_NoDup, sublist_delete.
      * intros c' Hc'. apply Hmap. by eapply elem_of_sublist, sublist_delete.
    + rewrite lookup_insert_ne by done. apply Hw.
  - intros _. split; [by eexists |].
    intros g0 room0. simpl. destruct (decide (g = g0)) as [<- | Hne].
    + rewrite lookup_insert_eq. by intros [= <-].
    + rewrite lookup_insert_ne by done. intros Hroom0 Hp.
      apply (Hw g0 room0 Hroom0) in Hp. congruence.
Qed.

(** After the [await], the channel is taken out of [current_players]. *)
Lemma del_player_awaited (p : string) (w : t) :
  consistent w → awaiting_discard p w →
  consistent (state_after (del_player p) w).
Proof.
  intros Hw [_ Hout]. unfold state_after, del_player.
  destruct (current_players w !! p); [| done].
  intros g room. simpl. intros Hroom.
  destruct (Hw g room Hroom) as [Hnd Hmap]. split; [done |].
  intros c Hc. rewrite lookup_delete_ne; [by apply Hmap |].
  intros <-. by apply (Hout g room).
Qed.

Lemma remove_players_interleaved_keeps (players : list string) :
  ∀ during, preserves (keeps consistent) (remove_players_interleaved players during).
Proof.
  induction players as [|p players IH]; intros during w Hw; [done |].
  cbn [remove_players_interleaved]. rewrite state_after_bind.
  destruct (remove_player_until_await_post p w Hw) as [Hw1 Hp].
  destruct (result_of (remove_player_until_await p) w) as [[]| |]; [| done..].
  specialize (Hp eq_refl).
  rewrite state_after_bind, meanwhile_result, meanwhile_state.
  set (w2 := run_steps (hd [] during) _).
  assert (consistent w2) as Hw2 by (by apply run_steps_keeps; [apply run_step_keeps |]).
  assert (awaiting_discard p w2) as Hp2
    by (by apply run_steps_keeps; [apply run_step_awaiting |]).
  rewrite state_after_bind.
  pose proof (del_player_awaited p w2 Hw2 Hp2) as Hw3.
  destruct (result_of (del_player p) w2) as [[]| |]; [| done..].
  by apply IH.
Qed.

Lemma run_game_end_interleaved_keeps
    (g : pykey) (before_removal : list step) (during : list (list step)) :
  preserves (keeps consistent) (run_game_end_interleaved g before_removal during).
Proof.
  unfold run_game_end_interleaved.
  pose proof remove_players_interleaved_keeps.
  pose proof (meanwhile_keeps consistent before_removal run_step_keeps).
  keep.
Qed.

Lemma reachable_run_steps (steps : list step) :
  ∀ w, reachable w → reachable (run_steps steps w).
Proof.
  induction steps as [|s steps IH]; intros w Hw; [done |].
  by apply IH, reachable_step.
Qed.

Lemma reachable_consistent (w : t) : reachable w → consistent w.
Proof.
  induction 1 as [|s w _ IH|g before_removal during w _ IH].
  - intros g room H. simpl in H. by rewrite lookup_empty in H.
  - by apply run_step_keeps.
  - by apply run_game_end_interleaved_keeps.
Qed.

(** X16: the registries also agree in the states the worker reaches when
    handlers are taken in at the [await]s of the end of a round, between
    the scoreboard and the removal and between two turns of the loop of
    [_remove_game]: a channel is in the user list of at most one room,
    once, and is mapped to the code of that room. *)
Theorem handle_in_one_room_interleaved
    (w : t) (g1 g2 : pykey) (room1 room2 : GameState.t) (c : string) :
  reachable w →
  active_games w !! g1 = Some room1 →
  active_games w !! g2 = Some room2 →
  c ∈ GameState.get_list_of_users_channels room1 →
  c ∈ GameState.get_list_of_users_channels room2 →
  g1 = g2
  ∧ current_players w !! c = Some g1
  ∧ NoDup (GameState.get_list_of_users_channels room1).
Proof.
  intros Hw%reachable_consistent Hroom1 Hroom2 Hc1 Hc2.
  destruct (Hw g1 room1 Hroom1) as [Hnd Hmap1].
  destruct (Hw g2 room2 Hroom2) as [_ Hmap2].
  apply Hmap1 in Hc1. apply Hmap2 in Hc2.
  split_and!; [congruence | done | done].
Qed.

Lemma handle_in_one_room_interleaved_witness :
  current_players
    (state_after
       (run_game_end_interleaved (KStr "7") []
          [[Create [8] (named_event "c3" "Cy" None)]])
       (run_steps one_question_round __init__)) !! "c3"
  = Some (KStr "8").
Proof.
  refine (proj1 (proj2
    (handle_in_one_room_interleaved _ (KStr "8") (KStr "8") room8_cy room8_cy "c3"
       _ _ _ _ _))).
  - apply reachable_end, reachable_run_steps, reachable_init.
  - reflexivity.
  - reflexivity.
  - apply list_elem_of_here.
  - apply list_elem_of_here.
Defined.

(** ** Rounds that do not end as they should *)

Lemma run_steps_app (steps1 steps2 : list step) (w : t) :
  run_steps (steps1 ++ steps2) w = run_steps steps2 (run_steps steps1 w).
Proof. apply foldl_app. Qed.

Lemma run_steps_ask_steps (g : pykey) (questions : list Question.t) :
  ∀ i w, run_steps (ask_steps g questions i) w
         = state_after (ask_questions g questions i) w.
Proof.
  induction questions as [|q questions IH]; intros i w; [done |].
  cbn [ask_steps]. change (run_steps (?s :: ?l) w)
    with (run_steps l (state_after (run_step s) w)).
  rewrite IH. unfold state_after. cbn [run_step].
  rewrite !ask_questions_eq, ask_question_eq. done.
Qed.

(** The steps of a round, run one after the other, are [_run_game]. *)
Lemma run_steps_round_steps (shuffled : list Question.t) (g : pykey) (w : t) :
  run_steps (round_steps shuffled g) w = state_after (_run_game shuffled g) w.
Proof.
  unfold round_steps.
  change (run_steps (Announce g :: ?l) w)
    with (run_steps l (state_after (run_game_begin g) w)).
  rewrite run_steps_app, run_steps_ask_steps.
  unfold _run_game. rewrite !state_after_bind.
  change (result_of (run_game_begin g) w) with (@Ret unit tt). cbv beta iota.
  unfold result_of at 1. rewrite ask_questions_eq. done.
Qed.

Lemma remove_player_until_await_eq (channel : string) (w : t) :
  (remove_player_until_await channel;; del_player channel) w
  = _remove_player_from_game channel w.
Proof.
  rewrite remove_player_eq.
  unfold remove_player_until_await. unfold_monad.
  destruct (current_players w !! channel) as [g|] eqn:Hg; simpl; [| done].
  destruct (active_games w !! g) as [room|] eqn:Hroom; simpl; [| done].
  destruct (GameState.remove_user room channel) as [[[] room']| |]; simpl; [| done..].
  rewrite Hg; simpl. by rewrite Hg.
Qed.

Lemma remove_players_uninterrupted (players : list string) :
  ∀ w, remove_players_interleaved players [] w = remove_players players w.
Proof.
  induction players as [|p players IH]; intros w; [done |].
  cbn [remove_players_interleaved remove_players hd tl meanwhile].
  transitivity
    (((remove_player_until_await p;; del_player p) ≫= λ _, remove_players players) w).
  - unfold mbind, M_bind, bind, mret, M_ret, ret.
    destruct (remove_player_until_await p w) as [[[[]| |] w1] l1]; [| done..].
    destruct (del_player p w1) as [[[[]| |] w2] l2]; [| done..].
    rewrite IH. destruct (remove_players players w2) as [[r w3] l3].
    simpl. by rewrite app_assoc.
  - unfold mbind at 1, M_bind at 1, bind at 1.
    by rewrite remove_player_until_await_eq.
Qed.

(** With nothing handled at its [await]s, the end of a round is
    [run_game_end]. *)
Lemma run_game_end_uninterrupted (g : pykey) (w : t) :
  run_game_end_interleaved g [] [] w = run_game_end g w.
Proof.
  unfold run_game_end_interleaved, run_game_end, _remove_game.
  unfold mbind, M_bind, bind, games_item, emit, meanwhile, mret, M_ret, ret.
  destruct (active_games w !! g) as [room|] eqn:Hroom; [| done].
  cbv beta iota. rewrite Hroom. cbv beta iota.
  rewrite remove_players_uninterrupted.
  destruct (remove_players _ w) as [[[[]| |] w1] l1]; simpl; [| done..].
  by destruct (pop_game g w1) as [[r w2] l2].
Qed.

(** C7 fails on the code, in two ways.

    Two rounds under one code: room ["7"] of "Alex" is running when 7 is
    drawn again for "Bea" (the defect of C2), who starts her room too.
    When the wait of the first round is over, its task sends the scores
    of the room it finds under ["7"], which is that of "Bea", and
    dissolves that room; "Alex" is never taken out of [current_players].
    When the second round is over, no room is stored under ["7"]: the
    task raises [KeyError] where it reads the scores and sends no
    scoreboard.  The same holds when the task of the second round runs as
    a whole after the first has ended.

    A handler at an [await] of the removal: the round of room ["7"], with
    "Alex" and "Bea", is over and the scores are sent; while the task
    awaits the [group_discard] of "Alex", the worker handles the
    [remove_user] of "Bea".  The next turn of the loop raises [KeyError]
    at [self.current_players[p]], the room is never popped, and it stays
    stored, empty and running, so that nobody can join it. *)
Theorem round_end_without_dissolving :
  (∀ shuffled g w,
     run_steps (round_steps shuffled g) w = state_after (_run_game shuffled g) w)
  ∧ (∀ g w, run_game_end_interleaved g [] [] w = run_game_end g w)
  ∧ run_game_end (KStr "7") w_second_asked
    = (Ret tt, w_first_ended,
       [group_send (KStr "7") (game_ended [("Bea", 0)]);
        group_discard (KStr "7") "c2"])
  ∧ active_games w_first_ended = ∅
  ∧ current_players w_first_ended !! "c1" = Some (KStr "7")
  ∧ run_game_end (KStr "7") w_first_ended = (Raise KeyError, w_first_ended, [])
  ∧ active_games w_first_ended_early = ∅
  ∧ result_of (_run_game [plain_question 1] (KStr "7")) w_first_ended_early
    = Raise KeyError
  ∧ log_of (_run_game [plain_question 1] (KStr "7")) w_first_ended_early
    = [group_send (KStr "7") game_started;
       group_send (KStr "7") (ask_question 0 10 "Q" ["a"; "b"; "c"; "d"]);
       sleep 10]
  ∧ active_games (run_steps one_question_round __init__) !! KStr "7"
    = Some room7_after_round
  ∧ result_of
      (run_game_end_interleaved (KStr "7") []
         [[Leave (member_event "c2" PyNone PyNone)]])
      (run_steps one_question_round __init__)
    = Raise KeyError
  ∧ log_of
      (run_game_end_interleaved (KStr "7") []
         [[Leave (member_event "c2" PyNone PyNone)]])
      (run_steps one_question_round __init__)
    = [group_send (KStr "7") (game_ended [("Alex", 10); ("Bea", 0)]);
       group_discard (KStr "7") "c1"; group_discard (KStr "7") "c2"]
  ∧ active_games
      (state_after
         (run_game_end_interleaved (KStr "7") []
            [[Leave (member_event "c2" PyNone PyNone)]])
         (run_steps one_question_round __init__)) !! KStr "7"
    = Some room7_abandoned
  ∧ log_of (add_user (named_event "c3" "Cy" (Some (KStr "7"))))
      (state_after
         (run_game_end_interleaved (KStr "7") []
            [[Leave (member_event "c2" PyNone PyNone)]])
         (run_steps one_question_round __init__))
    = [send "c3" (error "Game with code 7 is running already")].
Proof.
  split_and!; try reflexivity.
  - apply run_steps_round_steps.
  - apply run_game_end_uninterrupted.
Qed.

End GameWorker_facts.

